(** * Shallow embedding of the xterm.js renderers

    Two source files are covered:

    - [src/browser/renderer/dom/DomRenderer.ts] (module [DomRenderer] below):
      the row element list, the selection rectangles and the batched font
      metrics probe;
    - the canvas foreground layer with its character atlas generator
      (module [ForegroundRenderLayer] below).

    The modules [DomRendererMore], [DomRendererRows] and
    [ForegroundRenderLayerMore] hold the definitions of the further
    properties: the rendering of the rows and of link underlines in the DOM
    renderer, and the layout of the atlas.  All definitions come first, the
    properties follow in the modules whose names end in [Props].

    Integers of the program are [Z]; CSS pixel quantities, which the program
    computes in floating point, are rationals [Q] (no rounding is modelled;
    no statement below depends on a rounded value). *)

From Stdlib Require Import ZArith QArith Qround Lia String Ascii.
From stdpp Require Import base list gmap.
From Equations Require Import Equations.

Local Close Scope Q_scope.
Local Open Scope Z_scope.

(** ** Small helpers shared by both modules *)

(** [a < b] on rationals, as a boolean. *)
Definition Qlt_bool (a b : Q) : bool := negb (Qle_bool b a).

(** Case analysis on the integer tests of the program. *)
Ltac split_tests :=
  repeat match goal with
  | |- context [?a =? ?b] => destruct (Z.eqb_spec a b)
  | |- context [?a <? ?b] => destruct (Z.ltb_spec a b)
  | |- context [?a >? ?b] => rewrite (Z.gtb_ltb a b)
  | |- context [?a >=? ?b] => rewrite (Z.geb_leb a b)
  | |- context [?a <=? ?b] => destruct (Z.leb_spec a b)
  end.

Module DomRenderer.

(** *** Row elements: [_rowElements] and the children of [_rowContainer]

    A DOM node is identified by the number [document.createElement] gave
    it; [nextNode] is the next fresh identity. *)

Record RowState := mkRowState {
  rowElements : list nat;    (* this._rowElements *)
  rowContainer : list nat;   (* children of this._rowContainer, in order *)
  nextNode : nat
}.

(** State at the start of the constructor: [_rowElements = []] and an empty
    container. *)
Definition initialRows : RowState := mkRowState [] [] 0.

(** One iteration of the grow loop:
    [row = createElement('div'); _rowContainer.appendChild(row);
     _rowElements.push(row)]. *)
Definition pushRow (st : RowState) : RowState :=
  let row := nextNode st in
  mkRowState (rowElements st ++ [row]) (rowContainer st ++ [row]) (S row).

(** [for (let i = this._rowElements.length; i <= rows; i++) { ... }] *)
Equations? growRows (rows i : Z) (st : RowState) : RowState
  by wf (Z.to_nat (rows + 1 - i)) lt :=
  growRows rows i st with Z_le_dec i rows => {
    | left _ := growRows rows (i + 1) (pushRow st);
    | right _ := st }.
Proof. lia. Qed.

(** A value together with the proof that it is the value of the inspected
    expression (keeps the equation in termination obligations). *)
Definition inspect {A : Type} (x : A) : {y : A | x = y} := exist _ x eq_refl.

(** [Array.prototype.pop]: the last element, [undefined] ([None]) on an
    empty array. *)
Definition pop (l : list nat) : option nat * list nat :=
  match reverse l with
  | [] => (None, l)
  | x :: r => (Some x, reverse r)
  end.

(** [Node.removeChild]: throws ([None]) when the argument is not a child. *)
Definition removeChild (children : list nat) (x : nat) : option (list nat) :=
  if decide (x ∈ children) then Some (filter (λ y, y ≠ x) children) else None.

(** [while (this._rowElements.length > rows)
       this._rowContainer.removeChild(this._rowElements.pop()!)].
    [None] is an exception: [removeChild(undefined)] once the array is
    empty, or a node that is not a child. *)
Equations? shrinkRows (rows : Z) (st : RowState) : option RowState
  by wf (length (rowElements st)) lt :=
  shrinkRows rows st with Z_gt_dec (Z.of_nat (length (rowElements st))) rows => {
    | right _ := Some st;
    | left _ with inspect (pop (rowElements st)) => {
      | exist _ (None, _) _ := None;
      | exist _ (Some x, rest) Hpop with removeChild (rowContainer st) x => {
        | None := None;
        | Some children := shrinkRows rows (mkRowState rest children (nextNode st)) } } }.
Proof.
  simpl. unfold pop in Hpop.
  destruct (reverse (rowElements st)) as [|y r] eqn:E; [discriminate|].
  injection Hpop as _ <-.
  apply (f_equal reverse) in E. rewrite reverse_involutive in E.
  rewrite E, !length_reverse. simpl. lia.
Qed.

(** [_refreshRowElements(cols, rows)] *)
Definition _refreshRowElements (cols rows : Z) (st : RowState) : option RowState :=
  shrinkRows rows (growRows rows (Z.of_nat (length (rowElements st))) st).

(** [handleResize(cols, rows)]: [_refreshRowElements] followed by
    [_updateDimensions], which only writes style properties of the existing
    row elements and leaves the row list and the container as they are. *)
Definition handleResize (cols rows : Z) (st : RowState) : option RowState :=
  _refreshRowElements cols rows st.

(** The renderer's invariant on its rows: the container's children are the
    row elements, each node occurs once, and all are already created. *)
Definition wfRows (st : RowState) : Prop :=
  rowContainer st = rowElements st /\
  NoDup (rowElements st) /\
  Forall (λ x, (x < nextNode st)%nat) (rowElements st).

(** *** Selection rectangles *)

(** What the selection code reads from [_bufferService]. *)
Record BufferService := mkBufferService {
  cols : Z;
  rows : Z;
  ydisp : Z   (* buffer.ydisp *)
}.

(** [dimensions.css.cell] *)
Record CellDimensions := mkCellDimensions {
  cellWidth : Q;
  cellHeight : Q
}.

(** A selection [div]: the numbers written (with unit [px]) into its four
    style properties. *)
Record SelectionElement := mkSelectionElement {
  height : Q;
  top : Q;
  left : Q;
  width : Q
}.

(** [_createSelectionElement(row, colStart, colEnd, rowCount = 1)] *)
Definition _createSelectionElement (d : CellDimensions)
    (row colStart colEnd rowCount : Z) : SelectionElement :=
  {| height := (inject_Z rowCount * cellHeight d)%Q;
     top := (inject_Z row * cellHeight d)%Q;
     left := (inject_Z colStart * cellWidth d)%Q;
     width := (cellWidth d * inject_Z (colEnd - colStart))%Q |}.

(** [handleSelectionChanged(start, end, columnSelectMode)]: the children of
    [_selectionContainer] when the call returns.  A position is the pair
    [(column, row)] ([start[0]], [start[1]]); [None] is [undefined].  The
    container is emptied first ([replaceChildren()]), so the result does not
    depend on its previous children; the calls into the row factory and
    [renderRows] do not touch the selection container. *)
Definition handleSelectionChanged (b : BufferService) (d : CellDimensions)
    (start end_ : option (Z * Z)) (columnSelectMode : bool) : list SelectionElement :=
  match start, end_ with
  | Some start, Some end_ =>
      let viewportStartRow := snd start - ydisp b in
      let viewportEndRow := snd end_ - ydisp b in
      let viewportCappedStartRow := Z.max viewportStartRow 0 in
      let viewportCappedEndRow := Z.min viewportEndRow (rows b - 1) in
      if (viewportCappedStartRow >=? rows b) || (viewportCappedEndRow <? 0) then []
      else if columnSelectMode then
        let isXFlipped := fst start >? fst end_ in
        [ _createSelectionElement d viewportCappedStartRow
            (if isXFlipped then fst end_ else fst start)
            (if isXFlipped then fst start else fst end_)
            (viewportCappedEndRow - viewportCappedStartRow + 1) ]
      else
        let startCol :=
          if viewportStartRow =? viewportCappedStartRow then fst start else 0 in
        let endCol :=
          if viewportCappedStartRow =? viewportEndRow then fst end_ else cols b in
        let middleRowsCount := viewportCappedEndRow - viewportCappedStartRow - 1 in
        [ _createSelectionElement d viewportCappedStartRow startCol endCol 1;
          _createSelectionElement d (viewportCappedStartRow + 1) 0 (cols b) middleRowsCount ]
        ++ (if negb (viewportCappedStartRow =? viewportCappedEndRow) then
              let endCol :=
                if viewportEndRow =? viewportCappedEndRow then fst end_ else cols b in
              [ _createSelectionElement d viewportCappedEndRow 0 endCol 1 ]
            else [])
  | _, _ => []
  end.








(** *** Font metrics probe *)

(** [const enum FontMetrics]: the first code point probed, the bound of the
    table, the code points per batch and the allowed relative deviation. *)
Module FontMetrics.
Definition START : Z := 32.
Definition MAX : Z := 256.
Definition BATCH_SIZE : Z := 30.
Definition THRESHOLD : Q := 5 # 1000.
End FontMetrics.

(** [_fontMetrics] (a [Uint8Array]) and [_metricsPos]. *)
Record MetricsState := mkMetricsState {
  fontMetrics : list Z;
  metricsPos : Z
}.

(** What one call of the probe reads from the page: whether the screen
    element has a [.xterm-helpers] child, the width the browser reports for
    the span holding code point [i] ten times, and
    [dimensions.css.cell.width]. *)
Record MetricsEnv := mkMetricsEnv {
  hasHelpers : bool;
  measuredWidth : Z -> Q;
  cssCellWidth : Q
}.

(** Store into a [Uint8Array]: the value modulo 256; an index outside the
    array is ignored. *)
Definition typedArraySet (t : list Z) (idx v : Z) : list Z :=
  if 0 <=? idx then <[Z.to_nat idx := v mod 256]> t else t.

(** The second loop of [_batchedMetrics]:
    [for (i = 0; i < collection.length; ++i)
       _fontMetrics[i + _metricsPos] = +(width < lower || width > upper)].
    A span of the collection is represented by its code point. *)
Fixpoint storeWidths (env : MetricsEnv) (lower upper : Q) (pos i : Z)
    (collection : list Z) (t : list Z) : list Z :=
  match collection with
  | [] => t
  | el :: rest =>
      let width := measuredWidth env el in
      storeWidths env lower upper pos (i + 1) rest
        (typedArraySet t (i + pos)
           (Z.b2z (Qlt_bool width lower || Qlt_bool upper width)))
  end.

(** [_batchedMetrics()]: the returned boolean and the new state.  The two
    bounds are the exact products; the source computes them in floating
    point, so a width within the rounding of a bound can be marked
    differently.  Which entries are written, the cursor and the returned
    boolean do not depend on the bounds. *)
Definition _batchedMetrics (env : MetricsEnv) (st : MetricsState) : bool * MetricsState :=
  if negb (hasHelpers env) then
    (false, mkMetricsState (fontMetrics st) FontMetrics.START)
  else
    let cellWidth := cssCellWidth env in
    let lower := (10 * cellWidth * (1 - FontMetrics.THRESHOLD))%Q in
    let upper := (10 * cellWidth * (1 + FontMetrics.THRESHOLD))%Q in
    let end_ := Z.min (metricsPos st + FontMetrics.BATCH_SIZE) FontMetrics.MAX in
    (* first loop: one span per code point in [_metricsPos, end) *)
    let collection := seqZ (metricsPos st) (end_ - metricsPos st) in
    let t := storeWidths env lower upper (metricsPos st) 0 collection (fontMetrics st) in
    if end_ >=? FontMetrics.MAX then
      (false, mkMetricsState t FontMetrics.START)
    else
      (true, mkMetricsState t end_).

(** [_cacheMetrics()]: every entry becomes [0xFF] and the cursor is rewound
    (the task queue is cleared and the probe enqueued again). *)
Definition _cacheMetrics (st : MetricsState) : MetricsState :=
  mkMetricsState (replicate (length (fontMetrics st)) 255) FontMetrics.START.

(** The state after the constructor: [new Uint8Array(256)], then
    [_cacheMetrics()]. *)
Definition initialMetrics : MetricsState :=
  _cacheMetrics (mkMetricsState (replicate 256 0) FontMetrics.START).

(** Successive calls of the probe, one per element of [envs]; the returned
    booleans in call order and the final state. *)
Fixpoint probeCalls (envs : list MetricsEnv) (st : MetricsState)
    : list bool * MetricsState :=
  match envs with
  | [] => ([], st)
  | env :: rest =>
      let '(r, st1) := _batchedMetrics env st in
      let '(rs, st2) := probeCalls rest st1 in
      (r :: rs, st2)
  end.

(** A resolved table entry: [normal] (0) or [anomalous] (1). *)
Definition resolved (v : Z) : Prop := v = 0 \/ v = 1.

(** The table has 256 entries, those below [START] are still [0xFF] and
    those in [START, p) are resolved. *)
Definition probedUpTo (st : MetricsState) (p : Z) : Prop :=
  length (fontMetrics st) = 256%nat /\
  (forall k, 0 <= k < FontMetrics.START -> fontMetrics st !! Z.to_nat k = Some 255) /\
  (forall k, FontMetrics.START <= k < p ->
     exists v, fontMetrics st !! Z.to_nat k = Some v /\ resolved v).

End DomRenderer.

(** ** The canvas foreground layer and its character atlas *)

Module ForegroundRenderLayer.

(** *** JavaScript numbers used as 32-bit integers *)

(** [ToInt32]: wrap into [-2^31, 2^31). *)
Definition toInt32 (z : Z) : Z := (z + 2 ^ 31) mod 2 ^ 32 - 2 ^ 31.

(** [a >> n] *)
Definition js_shr (a n : Z) : Z := Z.shiftr (toInt32 a) (n mod 32).

(** [a & b] *)
Definition js_and (a b : Z) : Z := Z.land (toInt32 a) (toInt32 b).

(** Conversion of a number to the [unsigned long] of the [width] and
    [height] attributes of a canvas: truncate, then wrap modulo 2^32.  This is
    what a browser does for a size that is an exact integer of 0..2^31-1; a
    size computed in floating point is rounded before it is truncated, and a
    larger size makes the attribute fall back to its default. *)
Definition toUnsignedLong (q : Q) : Z :=
  (if Qle_bool 0 q then Qfloor q else Qceiling q) mod 2 ^ 32.

(** [String.fromCharCode(i)] for the codes 0..255 the program passes. *)
Definition fromCharCode (i : Z) : string :=
  String (Ascii.ascii_of_N (Z.to_N (i mod 256))) EmptyString.

(** *** Drawing surfaces *)

(** The text-drawing state of a 2D context. *)
Record TextStyle := mkTextStyle {
  fillStyle : string;
  font : string;
  textBaseline : string
}.

(** The state of a context after its canvas was created or resized. *)
Definition defaultStyle : TextStyle :=
  mkTextStyle "#000000" "10px sans-serif" "alphabetic".

(** Operations that put pixels on, or remove them from, a canvas. *)
Inductive DrawOp :=
| ClearRect (x y w h : Q)
| FillText (text : string) (x y : Q) (style : TextStyle).

(** An [ImageBitmap]: its size and the drawing operations that produced its
    pixels. *)
Record ImageBitmap := mkImageBitmap {
  bitmapWidth : Z;
  bitmapHeight : Z;
  bitmapContent : list DrawOp
}.

(** What the layer's own context has been asked to do, in call order. *)
Inductive CanvasOp :=
| Draw (op : DrawOp)
| DrawImage (image : ImageBitmap) (sx sy sw sh dx dy dw dh : Q).

Record Context2D := mkContext2D {
  style : TextStyle;
  saved : list TextStyle;   (* the stack of [save()] *)
  ops : list CanvasOp
}.

(** One entry of a buffer line: [line[x][CHAR_DATA_*_INDEX]]. *)
Record CharData := mkCharData {
  attr : Z;
  char : string;
  charWidth : Z;
  code : Z
}.

(** What the layer reads from [ITerminal]. *)
Record Terminal := mkTerminal {
  charMeasureWidth : Q;    (* terminal.charMeasure.width *)
  charMeasureHeight : Q;   (* terminal.charMeasure.height *)
  cols : Z;
  ydisp : Z;               (* terminal.buffer.ydisp *)
  lines : Z -> option (list CharData)   (* terminal.buffer.lines.get *)
}.

(** The layer: its canvas size and context, [_charAtlas] ([None] is [null]
    or [undefined]) and the atlas promises still in flight, oldest first,
    each with its [then] callback [bitmap => this._charAtlas = bitmap]. *)
Record Layer := mkLayer {
  canvasWidth : Z;
  canvasHeight : Z;
  ctx : Context2D;
  charAtlas : option ImageBitmap;
  pending : list ImageBitmap
}.

(** How a call ends: normally, or with a [TypeError] thrown; both carry the
    state reached. *)
Inductive Completion (A : Type) :=
| Normal (a : A)
| Thrown (a : A).
Arguments Normal {A} a.
Arguments Thrown {A} a.

Definition bind {A : Type} (c : Completion A) (f : A -> Completion A) : Completion A :=
  match c with
  | Normal a => f a
  | Thrown a => Thrown a
  end.

(** [for (i of indices) body(i)], stopping at the first exception. *)
Fixpoint forEach {A : Type} (indices : list Z) (body : Z -> A -> Completion A)
    (a : A) : Completion A :=
  match indices with
  | [] => Normal a
  | i :: rest => bind (body i a) (forEach rest body)
  end.

Section Browser.

(** The environment the code runs in, and the constants of modules that
    are imported but not part of the sources at hand. *)
Variable devicePixelRatio : Q.             (* window.devicePixelRatio *)
Variable numberToString : Q -> string.     (* a number inside a template string *)
Variable parseFont : string -> option string.
  (* the [font] setter: the serialised value of a valid CSS font, [None] for
     a text that is not one (the assignment is then ignored) *)
Variable TANGO_COLORS : Z -> string.       (* ./Color *)
Variable BOLD : Z.                         (* FLAGS.BOLD of ./Types *)

Definition setFont (s : TextStyle) (value : string) : TextStyle :=
  match parseFont value with
  | Some f => mkTextStyle (fillStyle s) f (textBaseline s)
  | None => s
  end.

Definition setFillStyle (s : TextStyle) (value : string) : TextStyle :=
  mkTextStyle value (font s) (textBaseline s).

Definition setTextBaseline (s : TextStyle) (value : string) : TextStyle :=
  mkTextStyle (fillStyle s) (font s) value.

(** [`${16 * window.devicePixelRatio}px courier`] *)
Definition baseFont : string :=
  String.append (numberToString (16 * devicePixelRatio)%Q) "px courier".

(** *** CharAtlasGenerator *)

(** The loop over the characters of one atlas row:
    [for (i = 0; i < 256; i++) fillText(String.fromCharCode(i), i * scaledCharWidth, y)]. *)
Definition fillRow (scaledCharWidth y : Q) (s : TextStyle) : list DrawOp :=
  map (fun i => FillText (fromCharCode i) (inject_Z i * scaledCharWidth)%Q y s)
      (seqZ 0 256).

(** The body of the loop over [colorIndex] in [generate]. *)
Definition colorRowBody (canvasW : Z) (scaledCharWidth scaledCharHeight : Q)
    (acc : TextStyle * list DrawOp) (colorIndex : Z) : TextStyle * list DrawOp :=
  let '(s, drawn) := acc in
  let s := if colorIndex =? 8 then setFont s (String.append "bold " (font s)) else s in
  let y := (inject_Z (colorIndex + 1) * scaledCharHeight)%Q in
  let s' := setFillStyle s (TANGO_COLORS colorIndex) in
  (s', drawn ++ [ClearRect 0 y (inject_Z canvasW) scaledCharHeight]
             ++ fillRow scaledCharWidth y s').

(** [generate(charWidth, charHeight)]: the bitmap the returned promise
    resolves with.  Assigning the canvas size resets the generator's context
    and clears its canvas, so nothing of an earlier call is left;
    [getImageData] throws on an empty canvas ([None]). *)
Definition generate (charWidth charHeight : Q) : option ImageBitmap :=
  let scaledCharWidth := (inject_Z (Qceiling charWidth) * devicePixelRatio)%Q in
  let scaledCharHeight := (inject_Z (Qceiling charHeight) * devicePixelRatio)%Q in
  let canvasW := toUnsignedLong (255 * scaledCharWidth)%Q in
  let canvasH := toUnsignedLong (inject_Z (1 + 16) * scaledCharHeight)%Q in
  let s := setTextBaseline (setFont (setFillStyle defaultStyle "#ffffff") baseFont) "top" in
  (* Default color *)
  let drawn := fillRow scaledCharWidth 0 s in
  (* Colors 0-15 *)
  let '(_, drawn) :=
    foldl (colorRowBody canvasW scaledCharWidth scaledCharHeight) (s, drawn) (seqZ 0 16) in
  if (canvasW =? 0) || (canvasH =? 0) then None
  else Some (mkImageBitmap canvasW canvasH drawn).

(** *** ForegroundRenderLayer *)

(** The layer after its constructor: a canvas of the default size, no atlas
    and no request in flight. *)
Definition newLayer : Layer :=
  mkLayer 300 150 (mkContext2D defaultStyle [] []) None [].

(** [resize(terminal, canvasWidth, canvasHeight, charSizeChanged)].
    Assigning the canvas size resets the context and clears the canvas.  If
    [generate] throws, the exception leaves [resize] after [_charAtlas] was
    set to [null]. *)
Definition resize (terminal : Terminal) (width height : Q) (charSizeChanged : bool)
    (st : Layer) : Layer :=
  let w := toUnsignedLong (width * devicePixelRatio)%Q in
  let h := toUnsignedLong (height * devicePixelRatio)%Q in
  let c := mkContext2D defaultStyle [] [] in
  if charSizeChanged then
    match generate (charMeasureWidth terminal) (charMeasureHeight terminal) with
    | Some bitmap => mkLayer w h c None (pending st ++ [bitmap])
    | None => mkLayer w h c None (pending st)
    end
  else mkLayer w h c (charAtlas st) (pending st).

(** The promise at position [k] of the requests in flight is fulfilled: its
    callback stores the bitmap in [_charAtlas]. *)
Definition resolve (k : nat) (st : Layer) : Layer :=
  match pending st !! k with
  | Some bitmap =>
      mkLayer (canvasWidth st) (canvasHeight st) (ctx st) (Some bitmap)
              (delete k (pending st))
  | None => st
  end.

(** The requests in flight are fulfilled oldest first, [n] of them. *)
Fixpoint resolveInOrder (n : nat) (st : Layer) : Layer :=
  match n with
  | O => st
  | S n => resolveInOrder n (resolve 0 st)
  end.

(** [(attr >> 9) & 0x1ff] *)
Definition fgOf (attr : Z) : Z := js_and (js_shr attr 9) 511.

(** [attr >> 18] *)
Definition flagsOf (attr : Z) : Z := js_shr attr 18.

(** [flags & FLAGS.BOLD] as a condition. *)
Definition isBold (flags : Z) : bool := negb (js_and flags BOLD =? 0).

(** [fg] after [if (flags & FLAGS.BOLD) { if (fg < 8) fg += 8 }]. *)
Definition boldFg (attr : Z) : Z :=
  let fg := fgOf attr in
  if isBold (flagsOf attr) && (fg <? 8) then fg + 8 else fg.

(** [colorIndex = 0; if (fg < 16) colorIndex = fg + 1]. *)
Definition colorIndexOf (fg : Z) : Z := if fg <? 16 then fg + 1 else 0.

Definition addOp (c : Context2D) (op : CanvasOp) : Context2D :=
  mkContext2D (style c) (saved c) (ops c ++ [op]).

Definition withStyle (c : Context2D) (s : TextStyle) : Context2D :=
  mkContext2D s (saved c) (ops c).

(** [ctx.save()] and [ctx.restore()] *)
Definition save (c : Context2D) : Context2D :=
  mkContext2D (style c) (style c :: saved c) (ops c).

Definition restore (c : Context2D) : Context2D :=
  match saved c with
  | [] => c
  | s :: rest => mkContext2D s rest (ops c)
  end.

(** [_drawUnicodeChar(char, width, fg, x, y, scaledCharWidth, scaledCharHeight)] *)
Definition _drawUnicodeChar (char : string) (width fg x y : Z)
    (scaledCharWidth scaledCharHeight : Q) (c : Context2D) : Context2D :=
  let c := save c in
  let s := setTextBaseline (setFont (style c) baseFont) "top" in
  let s := if fg <? 16 then setFillStyle s (TANGO_COLORS fg)
           else setFillStyle s "#ffffff" in
  let c := withStyle c s in
  let c := addOp c (Draw (FillText char (inject_Z x * scaledCharWidth)%Q
                                        (inject_Z y * scaledCharHeight)%Q s)) in
  restore c.

(** The body of the loop over [x] in [render].  [line[x]] throws when the
    line or the cell is missing. *)
Definition renderCell (atlas : ImageBitmap) (line : option (list CharData))
    (y : Z) (scaledCharWidth scaledCharHeight : Q) (x : Z) (c : Context2D)
    : Completion Context2D :=
  match line with
  | None => Thrown c
  | Some line =>
    match (if 0 <=? x then line !! Z.to_nat x else None) with
    | None => Thrown c
    | Some cell =>
      if code cell =? 0 then Normal c
      else
        let c := if isBold (flagsOf (attr cell))
                 then withStyle c (setFont (style c)
                                     (String.append "bold " (font (style c))))
                 else c in
        let fg := boldFg (attr cell) in
        let colorIndex := colorIndexOf fg in
        if code cell <? 256 then
          Normal (addOp c
            (DrawImage atlas
               (inject_Z (code cell) * scaledCharWidth)%Q
               (inject_Z colorIndex * scaledCharHeight)%Q
               scaledCharWidth scaledCharHeight
               (inject_Z x * scaledCharWidth)%Q
               (inject_Z y * scaledCharHeight)%Q
               scaledCharWidth scaledCharHeight))
        else
          Normal (_drawUnicodeChar (char cell) (charWidth cell) fg x y
                    scaledCharWidth scaledCharHeight c)
    end
  end.

(** The body of the loop over [y] in [render]. *)
Definition renderRow (terminal : Terminal) (atlas : ImageBitmap)
    (scaledCharWidth scaledCharHeight : Q) (y : Z) (c : Context2D)
    : Completion Context2D :=
  let row := y + ydisp terminal in
  let line := lines terminal row in
  forEach (seqZ 0 (cols terminal))
          (renderCell atlas line y scaledCharWidth scaledCharHeight) c.

Definition withCtx (st : Layer) (c : Context2D) : Layer :=
  mkLayer (canvasWidth st) (canvasHeight st) c (charAtlas st) (pending st).

Definition mapCompletion {A B : Type} (f : A -> B) (c : Completion A) : Completion B :=
  match c with
  | Normal a => Normal (f a)
  | Thrown a => Thrown (f a)
  end.

(** [render(terminal, startRow, endRow)] *)
Definition render (terminal : Terminal) (startRow endRow : Z) (st : Layer)
    : Completion Layer :=
  let scaledCharWidth :=
    (inject_Z (Qceiling (charMeasureWidth terminal)) * devicePixelRatio)%Q in
  let scaledCharHeight :=
    (inject_Z (Qceiling (charMeasureHeight terminal)) * devicePixelRatio)%Q in
  match charAtlas st with
  | None => Normal st
  | Some atlas =>
      let c := ctx st in
      let s := setFont (setTextBaseline (setFillStyle (style c) "#ffffff") "top")
                       baseFont in
      let c := withStyle c s in
      let c := addOp c
        (Draw (ClearRect 0 (inject_Z startRow * scaledCharHeight)%Q
                 (scaledCharWidth * inject_Z (cols terminal))%Q
                 (inject_Z (endRow - startRow + 1) * scaledCharHeight)%Q)) in
      mapCompletion (withCtx st)
        (forEach (seqZ startRow (endRow - startRow + 1))
           (renderRow terminal atlas scaledCharWidth scaledCharHeight) c)
  end.

End Browser.

(** A browser used in the concrete examples: device pixel ratio 1, every
    font text accepted as written, one palette colour, [FLAGS.BOLD = 1]. *)
Definition exampleNumberToString (q : Q) : string := "16".
Definition exampleParseFont (value : string) : option string := Some value.
Definition exampleColors (i : Z) : string := "#cc0000".

(** The grid of the rendering scenario: 2 rows of 4 cells, each the letter A
    (code point 65) with foreground index 1 and no flags. *)
Definition exampleTerminal : Terminal :=
  mkTerminal 10 20 4 0
    (fun row => if (0 <=? row) && (row <? 2)
                then Some (replicate 4 (mkCharData 512 "A" 1 65)) else None).

End ForegroundRenderLayer.

(** ** Further definitions for the DOM renderer's font metrics *)

Module DomRendererMore.
Import DomRenderer.

(** The probe has reached [p]: the table has 256 entries, those below
    [START] and those from [p] on are [0xFF], those in [START, p) are
    resolved. *)
Definition probedExactly (st : MetricsState) (p : Z) : Prop :=
  probedUpTo st p /\
  (forall k, p <= k < FontMetrics.MAX -> fontMetrics st !! Z.to_nat k = Some 255).

(** The tolerance interval of [_batchedMetrics]: [lower] and [upper]. *)
Definition lowerWidth (env : MetricsEnv) : Q :=
  (10 * cssCellWidth env * (1 - FontMetrics.THRESHOLD))%Q.
Definition upperWidth (env : MetricsEnv) : Q :=
  (10 * cssCellWidth env * (1 + FontMetrics.THRESHOLD))%Q.

End DomRendererMore.

(** ** The DOM renderer's rows: rendering, link underline, selection *)

Module DomRendererRows.
Import DomRenderer.

Section Rows.

(** A buffer line as [buffer.lines.get] returns it, [undefined] included;
    its structure belongs to the buffer, which is not part of the sources at
    hand. *)
Context {LineData : Type}.

(** What the row code reads from the buffer service and the options. *)
Record View : Type := mkView {
  service : BufferService;        (* cols, rows, buffer.ydisp *)
  ybase : Z;                      (* buffer.ybase *)
  bufferX : Z;                    (* buffer.x *)
  bufferY : Z;                    (* buffer.y *)
  lines : Z -> LineData;          (* buffer.lines.get *)
  cursorBlinkOption : bool;       (* rawOptions.cursorBlink *)
  cursorStyleOption : string;     (* rawOptions.cursorStyle *)
  cssCellWidthNow : Q             (* dimensions.css.cell.width *)
}.

(** The selection last passed to [_rowFactory.handleSelectionChanged]. *)
Definition FactorySelection : Type := option (Z * Z) * option (Z * Z) * bool.

(** One call of [_rowFactory.createRow]: its nine arguments, the two typed
    arrays as they are when the call is made, and the selection the factory
    holds.  The factory (DomRendererRowFactory) is not part of the sources at
    hand; the children a call produces are represented by the call. *)
Record CreateRowCall := mkCreateRowCall {
  callLineData : LineData;
  callRow : Z;
  callIsCursorRow : bool;
  callCursorStyle : string;
  callCursorX : Z;
  callCursorBlink : bool;
  callCellWidth : Q;
  callFontMetrics : list Z;
  callLinkState : list Z;
  callSelection : FactorySelection
}.

(** The renderer: its row elements, the children of each row element (no
    entry: no children), [_linkState], the font metrics, the selection held
    by the row factory and the children of [_selectionContainer]. *)
Record Renderer := mkRenderer {
  rowsOf : RowState;
  rowChildren : gmap nat CreateRowCall;
  linkState : list Z;
  metricsOf : MetricsState;
  factorySelection : FactorySelection;
  selectionChildren : list SelectionElement
}.

(** [this._rowElements[y]] *)
Definition rowElementAt (r : Renderer) (y : Z) : option nat :=
  if 0 <=? y then rowElements (rowsOf r) !! Z.to_nat y else None.

(** The [createRow] call for buffer row [row]. *)
Definition createRow (v : View) (r : Renderer) (row : Z) : CreateRowCall :=
  let cursorAbsoluteY := ybase v + bufferY v in
  let cursorX := Z.min (bufferX v) (cols (service v) - 1) in
  mkCreateRowCall (lines v row) row (row =? cursorAbsoluteY)
    (cursorStyleOption v) cursorX (cursorBlinkOption v) (cssCellWidthNow v)
    (fontMetrics (metricsOf r)) (linkState r) (factorySelection r).

(** [rowElement.replaceChildren(fragment)] *)
Definition replaceChildren (r : Renderer) (el : nat) (c : CreateRowCall) : Renderer :=
  mkRenderer (rowsOf r) (<[el := c]> (rowChildren r)) (linkState r) (metricsOf r)
    (factorySelection r) (selectionChildren r).

(** The body of the loop of [renderRows]: a missing row element makes
    [rowElement.replaceChildren] throw. *)
Definition renderRowsBody (v : View) (y : Z) (r : Renderer)
    : ForegroundRenderLayer.Completion Renderer :=
  match rowElementAt r y with
  | None => ForegroundRenderLayer.Thrown r
  | Some el =>
      ForegroundRenderLayer.Normal
        (replaceChildren r el (createRow v r (y + ydisp (service v))))
  end.

(** [renderRows(start, end)] *)
Definition renderRows (v : View) (start end_ : Z) (r : Renderer)
    : ForegroundRenderLayer.Completion Renderer :=
  ForegroundRenderLayer.forEach (seqZ start (end_ - start + 1)) (renderRowsBody v) r.

(** [clear()]: [e.replaceChildren()] for every row element. *)
Definition clear (r : Renderer) : Renderer :=
  mkRenderer (rowsOf r)
    (foldl (fun m e => delete e m) (rowChildren r) (rowElements (rowsOf r)))
    (linkState r) (metricsOf r) (factorySelection r) (selectionChildren r).

Definition withLinkState (r : Renderer) (ls : list Z) : Renderer :=
  mkRenderer (rowsOf r) (rowChildren r) ls (metricsOf r)
    (factorySelection r) (selectionChildren r).

(** The loop of [_setCellUnderline] over the rows [i] of [indices]; [x],
    [x2], [y], [y2] and [cols] are the clipped values.  A missing row element
    ends the loop ([break]). *)
Fixpoint underlineLoop (v : View) (x x2 y y2 cols : Z) (enabled : bool)
    (indices : list Z) (r : Renderer) : Renderer :=
  match indices with
  | [] => r
  | i :: rest =>
      match rowElementAt r i with
      | None => r
      | Some el =>
          let r :=
            if enabled then
              let ls := typedArraySet (linkState r) 1 (if i =? y then x else 0) in
              let ls := typedArraySet ls 2 ((if i =? y2 then x2 else cols) - 1) in
              withLinkState r ls
            else r in
          let r := replaceChildren r el (createRow v r (i + ydisp (service v))) in
          underlineLoop v x x2 y y2 cols enabled rest r
      end
  end.

(** [_setCellUnderline(x, x2, y, y2, cols, enabled)] *)
Definition _setCellUnderline (v : View) (x x2 y y2 cols : Z) (enabled : bool)
    (r : Renderer) : Renderer :=
  let x := if y <? 0 then 0 else x in
  let x2 := if y2 <? 0 then 0 else x2 in
  let maxY := rows (service v) - 1 in
  let y := Z.max (Z.min y maxY) 0 in
  let y2 := Z.max (Z.min y2 maxY) 0 in
  let cols := Z.min cols (DomRenderer.cols (service v)) in
  let r := withLinkState r (typedArraySet (linkState r) 0 (Z.b2z enabled)) in
  let r := underlineLoop v x x2 y y2 cols enabled (seqZ y (y2 - y + 1)) r in
  withLinkState r (typedArraySet (linkState r) 0 0).

(** [_linkState] as [createRow] sees it for row [i] of a link range: the
    columns are written only when the underline is enabled. *)
Definition linkStateAt (x x2 y y2 cols : Z) (enabled : bool) (ls : list Z) (i : Z)
    : list Z :=
  if enabled then
    typedArraySet (typedArraySet ls 1 (if i =? y then x else 0)) 2
      ((if i =? y2 then x2 else cols) - 1)
  else ls.

(** An [ILinkifierEvent]. *)
Record LinkifierEvent := mkLinkifierEvent {
  x1 : Z; x2 : Z; y1 : Z; y2 : Z; eventCols : Z
}.

Definition _handleLinkHover (v : View) (e : LinkifierEvent) (r : Renderer) : Renderer :=
  _setCellUnderline v (x1 e) (x2 e) (y1 e) (y2 e) (eventCols e) true r.

Definition _handleLinkLeave (v : View) (e : LinkifierEvent) (r : Renderer) : Renderer :=
  _setCellUnderline v (x1 e) (x2 e) (y1 e) (y2 e) (eventCols e) false r.

(** [handleSelectionChanged(start, end, columnSelectMode)], the whole
    method: the selection container is emptied, the row factory is told the
    selection, every viewport row is rendered again, and the selection
    rectangles are appended. *)
Definition handleSelectionChanged (v : View) (d : CellDimensions)
    (start end_ : option (Z * Z)) (columnSelectMode : bool) (r : Renderer)
    : ForegroundRenderLayer.Completion Renderer :=
  let r := mkRenderer (rowsOf r) (rowChildren r) (linkState r) (metricsOf r)
             (start, end_, columnSelectMode) [] in
  ForegroundRenderLayer.bind (renderRows v 0 (rows (service v) - 1) r)
    (fun r =>
       ForegroundRenderLayer.Normal
         (mkRenderer (rowsOf r) (rowChildren r) (linkState r) (metricsOf r)
            (factorySelection r)
            (DomRenderer.handleSelectionChanged (service v) d start end_
               columnSelectMode))).

(** The fields a loop over the rows leaves alone. *)
Definition sameFrame (r r' : Renderer) : Prop :=
  rowsOf r' = rowsOf r /\ metricsOf r' = metricsOf r /\
  factorySelection r' = factorySelection r /\
  selectionChildren r' = selectionChildren r.

(** The row range of a link after clipping to the viewport. *)
Definition clipRow (v : View) (y : Z) : Z := Z.max (Z.min y (rows (service v) - 1)) 0.

End Rows.

(** A renderer with three row elements on a viewport of three rows, the
    buffer scrolled to row 10 and the cursor on buffer row 11; a line is
    represented by its row number. *)
Definition exampleView : View (LineData := Z) :=
  mkView (mkBufferService 80 3 10) 10 5 1 (fun row => row) true "block" (8 # 1).

Definition exampleRenderer : Renderer (LineData := Z) :=
  mkRenderer (mkRowState [0; 1; 2]%nat [0; 1; 2]%nat 3) ∅ [0; 0; 0]
    initialMetrics (None, None, false) [].

End DomRendererRows.

(** ** Further definitions for the canvas foreground layer *)

Module ForegroundRenderLayerMore.
Import ForegroundRenderLayer.

(** The operation is the drawing of the cell [(x, y)]: a blit of a tile of
    the size of a cell onto the rectangle of the cell, or a text positioned
    at the top-left corner of the cell. *)
Definition drawsCell (scaledCharWidth scaledCharHeight : Q) (x y : Z)
    (op : CanvasOp) : Prop :=
  match op with
  | DrawImage _ _ _ sw sh dx dy dw dh =>
      dx = (inject_Z x * scaledCharWidth)%Q /\
      dy = (inject_Z y * scaledCharHeight)%Q /\
      dw = scaledCharWidth /\ dh = scaledCharHeight /\
      sw = scaledCharWidth /\ sh = scaledCharHeight
  | Draw (FillText _ tx ty _) =>
      tx = (inject_Z x * scaledCharWidth)%Q /\
      ty = (inject_Z y * scaledCharHeight)%Q
  | Draw (ClearRect _ _ _ _) => False
  end.

(** The operation is the drawing of a cell of the rows [startRow..endRow]
    and the columns [0..cols-1]. *)
Definition drawsBandCell (scaledCharWidth scaledCharHeight : Q)
    (startRow endRow cols : Z) (op : CanvasOp) : Prop :=
  exists x y, 0 <= x < cols /\ startRow <= y <= endRow /\
    drawsCell scaledCharWidth scaledCharHeight x y op.

(** The destination rectangle of a blit lies inside the rectangle
    [(x0, y0, w, h)]; a text has no rectangle of its own, the extent of its
    glyph is the font's. *)
Definition blitInside (x0 y0 w h : Q) (op : CanvasOp) : Prop :=
  match op with
  | DrawImage _ _ _ _ _ dx dy dw dh =>
      (x0 <= dx)%Q /\ (dx + dw <= x0 + w)%Q /\
      (y0 <= dy)%Q /\ (dy + dh <= y0 + h)%Q
  | Draw _ => True
  end.

(** What a loop adds to the context: operations, all satisfying [P] for an
    index of the loop, and nothing on the [save] stack; also when it ends in
    an exception. *)
Definition extends (P : CanvasOp -> Prop) (c : Context2D) (r : Completion Context2D)
    : Prop :=
  exists c' drawn,
    (r = Normal c' \/ r = Thrown c') /\
    ops c' = ops c ++ drawn /\ saved c' = saved c /\ Forall P drawn.

Section Atlas.

Variable devicePixelRatio : Q.
Variable numberToString : Q -> string.
Variable parseFont : string -> option string.
Variable TANGO_COLORS : Z -> string.

(** The drawing state [generate] starts from. *)
Definition atlasBaseStyle : TextStyle :=
  setTextBaseline
    (setFont parseFont (setFillStyle defaultStyle "#ffffff")
       (baseFont devicePixelRatio numberToString)) "top".

(** The drawing state of the colour row [colorIndex] of the atlas: the
    palette colour, and from row 8 on the font after the assignment of
    [bold] followed by the current font. *)
Definition atlasRowStyle (colorIndex : Z) : TextStyle :=
  let s := atlasBaseStyle in
  mkTextStyle (TANGO_COLORS colorIndex)
    (if colorIndex <? 8 then font s
     else font (setFont parseFont s (String.append "bold " (font s))))
    (textBaseline s).

End Atlas.

End ForegroundRenderLayerMore.

(** * Properties of the DOM renderer *)

Module DomRendererProps.
Import DomRenderer.

Lemma Qlt_bool_iff (a b : Q) : Qlt_bool a b = true <-> (a < b)%Q.
Proof.
  unfold Qlt_bool. rewrite negb_true_iff. split.
  - intros H. apply Qnot_le_lt. intros Hle.
    apply Qle_bool_iff in Hle. congruence.
  - intros H. destruct (Qle_bool b a) eqn:E; [|reflexivity].
    apply Qle_bool_iff in E. exfalso. exact (Qlt_not_le _ _ H E).
Qed.

(** Multiplying two integers by the same non-zero rational is injective,
    also for Leibniz equality of the (unnormalised) products. *)
Lemma inject_Z_mult_inj_l (a b : Z) (q : Q) :
  ~ (q == 0)%Q -> (inject_Z a * q)%Q = (inject_Z b * q)%Q -> a = b.
Proof.
  intros Hq Heq.
  assert (H : (inject_Z a * q == inject_Z b * q)%Q) by (rewrite Heq; reflexivity).
  apply Qmult_inj_r in H; [|exact Hq].
  unfold Qeq, inject_Z in H. simpl in H. lia.
Qed.

Lemma wfRows_initial : wfRows initialRows.
Proof. repeat split; simpl; [constructor | constructor]. Qed.

Lemma wfRows_pushRow st : wfRows st -> wfRows (pushRow st).
Proof.
  intros (Hc & Hnd & Hlt). unfold pushRow. repeat split; simpl.
  - by rewrite Hc.
  - apply NoDup_app. split; [done|]. split; [|apply NoDup_singleton].
    intros x Hx Hx'. apply list_elem_of_singleton in Hx'. subst x.
    rewrite Forall_forall in Hlt. specialize (Hlt _ Hx). lia.
  - apply Forall_app. split.
    + eapply Forall_impl; [exact Hlt|]. simpl. lia.
    + repeat constructor.
Qed.

Lemma growRows_spec rows i st :
  i = Z.of_nat (length (rowElements st)) -> wfRows st ->
  wfRows (growRows rows i st) /\
  Z.of_nat (length (rowElements (growRows rows i st))) = Z.max i (rows + 1).
Proof.
  funelim (growRows rows i st); intros Hi Hwf.
  - match goal with IH : _ -> _ -> _ /\ _ |- _ => destruct IH as [IH1 IH2] end.
    + unfold pushRow. simpl. rewrite length_app. simpl. lia.
    + by apply wfRows_pushRow.
    + split; [done|]. rewrite IH2. lia.
  - split; [done|]. lia.
Qed.

Lemma pop_snoc (l : list nat) (x : nat) : pop (l ++ [x]) = (Some x, l).
Proof. unfold pop. rewrite reverse_snoc. simpl. by rewrite reverse_involutive. Qed.

Lemma filter_other_id (l : list nat) (x : nat) :
  x ∉ l -> filter (λ y, y ≠ x) l = l.
Proof.
  induction l as [|a l IH]; intros Hx; [done|].
  apply not_elem_of_cons in Hx as [Hne Hx].
  rewrite filter_cons_True by (intros ->; by apply Hne).
  by rewrite IH.
Qed.

Lemma removeChild_last (l : list nat) (x : nat) :
  NoDup (l ++ [x]) -> removeChild (l ++ [x]) x = Some l.
Proof.
  intros Hnd. unfold removeChild.
  apply NoDup_app in Hnd as (_ & Hnot & _).
  destruct (decide (x ∈ l ++ [x])) as [_|Hn].
  - f_equal. rewrite filter_app.
    rewrite (filter_cons_False _ x []) by (intros H; by apply H).
    rewrite filter_nil, app_nil_r.
    apply filter_other_id. intros Hx. apply (Hnot _ Hx).
    by apply list_elem_of_singleton.
  - exfalso. apply Hn. apply elem_of_app. right. by apply list_elem_of_singleton.
Qed.

(** The loop, unfolded once. *)
Lemma shrinkRows_body rows st :
  shrinkRows rows st =
  if Z_gt_dec (Z.of_nat (length (rowElements st))) rows then
    match pop (rowElements st) with
    | (None, _) => None
    | (Some x, rest) =>
        match removeChild (rowContainer st) x with
        | None => None
        | Some children => shrinkRows rows (mkRowState rest children (nextNode st))
        end
    end
  else Some st.
Proof.
  funelim (shrinkRows rows st).
  all: repeat match goal with
    | H : Z_gt_dec _ _ = _ |- context [Z_gt_dec _ _] => rewrite H
    | H : pop _ = _ |- context [pop _] => rewrite H
    | H : removeChild _ _ = _ |- context [removeChild _ _] => rewrite H
    end; reflexivity.
Qed.

Lemma shrinkRows_spec rows st :
  0 <= rows -> wfRows st ->
  exists st', shrinkRows rows st = Some st' /\ wfRows st' /\
    Z.of_nat (length (rowElements st')) = Z.min (Z.of_nat (length (rowElements st))) rows.
Proof.
  intros Hrows. remember (length (rowElements st)) as n eqn:Hn.
  revert st Hn. induction n as [n IH] using lt_wf_ind. intros st Hn Hwf.
  rewrite shrinkRows_body.
  destruct (Z_gt_dec (Z.of_nat (length (rowElements st))) rows) as [Hgt|Hle]; simpl.
  - destruct st as [els ch nx]. simpl in *.
    destruct Hwf as (Hc & Hnd & Hlt). simpl in *. subst ch.
    destruct els as [|e els0 _] using rev_ind; [simpl in Hgt; lia|].
    rename els0 into l, e into x.
    rewrite pop_snoc. simpl. rewrite removeChild_last by done. simpl.
    rewrite length_app in Hn, Hgt. simpl in Hn, Hgt.
    destruct (IH (length l) ltac:(lia) (mkRowState l l nx) eq_refl) as (st' & -> & Hwf' & Hlen).
    + apply NoDup_app in Hnd as (Hl & _ & _).
      apply Forall_app in Hlt as (Hlt & _). by repeat split.
    + exists st'. repeat split; try apply Hwf'. simpl in Hlen. rewrite Hlen. lia.
  - exists st. split; [done|]. split; [done|]. lia.
Qed.

(** C10. Whenever the row-element refresh is called with [rows >= 0] on a
    renderer satisfying its row invariant (which holds at construction and is
    kept by the refresh), it returns normally and the renderer then holds
    exactly [rows] row elements; the grow loop first brings the list to
    [max(length, rows + 1)] elements, one more than requested whenever it
    runs, and the shrink loop removes the excess.  The same holds for
    [handleResize]. *)
Theorem refreshRowElements_length (cols rows : Z) (st : RowState) :
  0 <= rows -> wfRows st ->
  Z.of_nat (length (rowElements
     (growRows rows (Z.of_nat (length (rowElements st))) st)))
    = Z.max (Z.of_nat (length (rowElements st))) (rows + 1) /\
  exists st',
    _refreshRowElements cols rows st = Some st' /\
    handleResize cols rows st = Some st' /\
    Z.of_nat (length (rowElements st')) = rows /\
    rowContainer st' = rowElements st' /\
    wfRows st'.
Proof.
  intros Hrows Hwf.
  destruct (growRows_spec rows _ st eq_refl Hwf) as [Hwfg Hleng].
  split; [exact Hleng|].
  destruct (shrinkRows_spec rows _ Hrows Hwfg) as (st' & Hs & Hwf' & Hlen).
  exists st'. unfold handleResize, _refreshRowElements. rewrite Hs.
  repeat split; try apply Hwf'. rewrite Hlen, Hleng. lia.
Qed.

(** The refresh at construction: 24 rows requested on the empty row list. *)
Lemma refreshRowElements_length_witness :
  0 <= 24 /\ wfRows initialRows /\
  exists st',
    _refreshRowElements 80 24 initialRows = Some st' /\
    Z.of_nat (length (rowElements st')) = 24.
Proof.
  split; [lia|]. split; [exact wfRows_initial|].
  destruct (refreshRowElements_length 80 24 initialRows ltac:(lia) wfRows_initial)
    as (_ & st1 & H1 & _ & L1 & _).
  exists st1. split; assumption.
Defined.

(** *** Selection rectangles *)

Lemma selection_guard_passes (b : BufferService) (s e : Z * Z) :
  Z.max (snd s - ydisp b) 0 < rows b ->
  0 <= Z.min (snd e - ydisp b) (rows b - 1) ->
  (Z.max (snd s - ydisp b) 0 >=? rows b)
    || (Z.min (snd e - ydisp b) (rows b - 1) <? 0) = false.
Proof.
  intros H1 H2. apply orb_false_iff. split.
  - rewrite Z.geb_leb. apply Z.leb_gt. exact H1.
  - apply Z.ltb_ge. exact H2.
Qed.

(** The rectangles of a range selection inside one visible row. *)
Lemma selection_same_row (b : BufferService) (d : CellDimensions) (s e : Z * Z) :
  0 <= snd s - ydisp b < rows b -> snd s = snd e ->
  handleSelectionChanged b d (Some s) (Some e) false =
    [ _createSelectionElement d (snd s - ydisp b) (fst s) (fst e) 1;
      _createSelectionElement d (snd s - ydisp b + 1) 0 (cols b) (-1) ].
Proof.
  intros Hvis Hrow. unfold handleSelectionChanged.
  rewrite selection_guard_passes by lia.
  rewrite <- Hrow.
  replace (Z.max (snd s - ydisp b) 0) with (snd s - ydisp b) by lia.
  replace (Z.min (snd s - ydisp b) (rows b - 1)) with (snd s - ydisp b) by lia.
  rewrite Z.eqb_refl. simpl.
  replace (snd s - ydisp b - (snd s - ydisp b) - 1) with (-1) by lia.
  reflexivity.
Qed.

(** C1 fails as stated: with [start = (2,0)] and [end = (1,0)] on an 80x24
    viewport the first rectangle starts at column 2 and has the negative
    width of [1 - 2] cells; the swapped call gives a different rectangle
    list, also as a set. *)
Lemma selection_swap_counterexample :
  let b := mkBufferService 80 24 0 in
  let d := mkCellDimensions (8 # 1) (17 # 1) in
  let flipped := handleSelectionChanged b d (Some (2, 0)) (Some (1, 0)) false in
  let ordered := handleSelectionChanged b d (Some (1, 0)) (Some (2, 0)) false in
  flipped = [ mkSelectionElement (17 # 1) 0 (16 # 1) (-8 # 1);
              mkSelectionElement (-17 # 1) (17 # 1) 0 (640 # 1) ] /\
  ordered = [ mkSelectionElement (17 # 1) 0 (8 # 1) (8 # 1);
              mkSelectionElement (-17 # 1) (17 # 1) 0 (640 # 1) ] /\
  ~ (forall r, r ∈ flipped <-> r ∈ ordered).
Proof.
  cbv zeta. split; [reflexivity|]. split; [reflexivity|].
  intros H.
  specialize (H (mkSelectionElement (17 # 1) 0 (16 # 1) (-8 # 1))).
  destruct H as [H _].
  assert (Hin : mkSelectionElement (17 # 1) 0 (16 # 1) (-8 # 1)
      ∈ handleSelectionChanged (mkBufferService 80 24 0)
          (mkCellDimensions (8 # 1) (17 # 1)) (Some (2, 0)) (Some (1, 0)) false)
    by (vm_compute; left).
  specialize (H Hin). vm_compute in H.
  apply elem_of_cons in H as [H|H]; [discriminate|].
  apply elem_of_cons in H as [H|H]; [discriminate|].
  by apply not_elem_of_nil in H.
Qed.

(** C1, amended.  For a non-column-mode selection whose start and end rows
    are visible, with a positive cell width and cell height, start and end
    are used as given: the two call orders give the same rectangle list only
    when start equals end, and a same-row selection given in screen order
    (start column at most end column) has as first rectangle the one from the
    start column to the end column, of non-negative width, positive when the
    columns differ. *)
Theorem selection_uses_given_order (b : BufferService) (d : CellDimensions)
    (s e : Z * Z) :
  (0 < cellWidth d)%Q -> (0 < cellHeight d)%Q ->
  0 <= snd s - ydisp b < rows b ->
  0 <= snd e - ydisp b < rows b ->
  (handleSelectionChanged b d (Some s) (Some e) false
     = handleSelectionChanged b d (Some e) (Some s) false <-> s = e) /\
  (snd s = snd e -> fst s <= fst e ->
   exists first rest,
     handleSelectionChanged b d (Some s) (Some e) false = first :: rest /\
     first = _createSelectionElement d (snd s - ydisp b) (fst s) (fst e) 1 /\
     (0 <= width first)%Q /\
     (fst s < fst e -> (0 < width first)%Q)).
Proof.
  intros Hw Hh Hs He. split.
  - split; [|intros ->; reflexivity].
    unfold handleSelectionChanged.
    rewrite !selection_guard_passes by lia.
    replace (Z.max (snd s - ydisp b) 0) with (snd s - ydisp b) by lia.
    replace (Z.max (snd e - ydisp b) 0) with (snd e - ydisp b) by lia.
    rewrite !Z.eqb_refl. intros Heq.
    pose (firstOf (f : SelectionElement -> Q) (l : list SelectionElement) :=
            match l with r :: _ => f r | [] => 0%Q end).
    assert (Htop := f_equal (firstOf top) Heq).
    assert (Hleft := f_equal (firstOf left) Heq).
    cbn [firstOf app top left _createSelectionElement] in Htop, Hleft.
    assert (Hrow : snd s - ydisp b = snd e - ydisp b).
    { eapply inject_Z_mult_inj_l; [|exact Htop].
      intros H0. rewrite H0 in Hh. exact (Qlt_irrefl _ Hh). }
    assert (Hcol : fst s = fst e).
    { eapply inject_Z_mult_inj_l; [|exact Hleft].
      intros H0. rewrite H0 in Hw. exact (Qlt_irrefl _ Hw). }
    destruct s, e; simpl in *. f_equal; lia.
  - intros Hrow Hcol. rewrite (selection_same_row b d s e Hs Hrow).
    eexists _, _. split; [reflexivity|]. split; [reflexivity|]. simpl.
    split.
    + apply Qmult_le_0_compat; [apply Qlt_le_weak, Hw|].
      change 0%Q with (inject_Z 0). rewrite <- Zle_Qle. lia.
    + intros Hlt. apply Qmult_lt_0_compat; [exact Hw|].
      change 0%Q with (inject_Z 0). rewrite <- Zlt_Qlt. lia.
Qed.

Lemma selection_uses_given_order_witness :
  let b := mkBufferService 80 24 0 in
  let d := mkCellDimensions (8 # 1) (17 # 1) in
  exists first rest,
    handleSelectionChanged b d (Some (1, 0)) (Some (2, 0)) false = first :: rest /\
    first = _createSelectionElement d 0 1 2 1 /\
    (0 <= width first)%Q /\
    (1 < 2 -> (0 < width first)%Q).
Proof.
  cbv zeta.
  apply (selection_uses_given_order (mkBufferService 80 24 0)
           (mkCellDimensions (8 # 1) (17 # 1)) (1, 0) (2, 0));
    simpl; try reflexivity; lia.
Defined.






(** *** Font metrics probe *)

Lemma typedArraySet_length t idx v : length (typedArraySet t idx v) = length t.
Proof. unfold typedArraySet. destruct (0 <=? idx); [apply length_insert | done]. Qed.

Lemma storeWidths_length env lo up pos coll : forall i t,
  length (storeWidths env lo up pos i coll t) = length t.
Proof.
  induction coll as [|el rest IH]; intros i t; simpl; [done|].
  by rewrite IH, typedArraySet_length.
Qed.

Lemma storeWidths_outside env lo up pos coll (k : nat) : forall i t,
  0 <= i + pos ->
  (k < Z.to_nat (i + pos) \/ Z.to_nat (i + pos) + length coll <= k)%nat ->
  storeWidths env lo up pos i coll t !! k = t !! k.
Proof.
  induction coll as [|el rest IH]; intros i t Hpos Hk; simpl; [done|].
  rewrite IH by (simpl in Hk; lia).
  unfold typedArraySet. destruct (Z.leb_spec 0 (i + pos)); [|lia].
  apply list_lookup_insert_ne. simpl in Hk. lia.
Qed.

Lemma storeWidths_inside env lo up pos coll (k : nat) : forall i t,
  0 <= i + pos ->
  (Z.to_nat (i + pos) <= k < Z.to_nat (i + pos) + length coll)%nat ->
  (k < length t)%nat ->
  exists v, storeWidths env lo up pos i coll t !! k = Some v /\ resolved v.
Proof.
  induction coll as [|el rest IH]; intros i t Hpos Hk Hlen; simpl in *; [lia|].
  destruct (decide (k = Z.to_nat (i + pos))) as [->|Hne].
  - rewrite storeWidths_outside by lia.
    unfold typedArraySet. destruct (Z.leb_spec 0 (i + pos)); [|lia].
    rewrite list_lookup_insert_eq by done.
    eexists. split; [reflexivity|].
    destruct (Qlt_bool _ _ || Qlt_bool _ _); [right | left]; reflexivity.
  - apply IH; [lia | lia |]. by rewrite typedArraySet_length.
Qed.

(** One call of the probe with the helper container present, from a cursor
    [p] in [START, MAX). *)
Lemma batchedMetrics_step env st p :
  hasHelpers env = true -> metricsPos st = p ->
  FontMetrics.START <= p < FontMetrics.MAX -> probedUpTo st p ->
  exists st',
    _batchedMetrics env st = (p + 30 <? 256, st') /\
    probedUpTo st' (Z.min (p + 30) 256) /\
    metricsPos st' = (if p + 30 <? 256 then p + 30 else 32).
Proof.
  unfold FontMetrics.START, FontMetrics.MAX.
  intros Hh Hp Hrange (Hlen & Hlow & Hres).
  unfold _batchedMetrics. rewrite Hh, Hp. simpl negb. cbv iota.
  unfold FontMetrics.START, FontMetrics.MAX, FontMetrics.BATCH_SIZE.
  set (t := storeWidths _ _ _ _ _ _ _).
  assert (Ht : probedUpTo (mkMetricsState t (Z.min (p + 30) 256)) (Z.min (p + 30) 256)
               /\ probedUpTo (mkMetricsState t 32) (Z.min (p + 30) 256)).
  { assert (Hcoll : length (seqZ p (Z.min (p + 30) 256 - p))
                    = Z.to_nat (Z.min (p + 30) 256 - p)) by apply length_seqZ.
    assert (H : forall q, probedUpTo (mkMetricsState t q) (Z.min (p + 30) 256)).
    { intros q. unfold probedUpTo, FontMetrics.START. simpl. repeat split.
      - subst t. by rewrite storeWidths_length.
      - intros k Hk. subst t. rewrite storeWidths_outside by lia. by apply Hlow.
      - intros k Hk. destruct (Z_lt_dec k p) as [Hkp|Hkp].
        + subst t. rewrite storeWidths_outside by lia. apply Hres.
          unfold FontMetrics.START. lia.
        + subst t. apply storeWidths_inside; [lia | lia |].
          rewrite Hlen. lia. }
    split; apply H. }
  destruct Ht as [Ht1 Ht2].
  rewrite Z.geb_leb.
  destruct (Z.ltb_spec (p + 30) 256) as [Hlt|Hge].
  - destruct (Z.leb_spec 256 (Z.min (p + 30) 256)) as [Hc|Hc]; [lia|].
    eexists. split; [reflexivity|]. split; [exact Ht1|]. simpl. lia.
  - destruct (Z.leb_spec 256 (Z.min (p + 30) 256)) as [Hc|Hc]; [|lia].
    eexists. split; [reflexivity|]. split; [exact Ht2|]. reflexivity.
Qed.

Lemma initialMetrics_probedUpTo : probedUpTo initialMetrics FontMetrics.START.
Proof.
  unfold probedUpTo, initialMetrics, _cacheMetrics, FontMetrics.START.
  cbn [fontMetrics]. rewrite !length_replicate. split; [reflexivity|]. split.
  - intros k Hk. apply lookup_replicate_2. lia.
  - intros k Hk. lia.
Qed.

(** Without the helper container a call probes nothing: it rewinds the
    cursor and reports that no batch remains. *)
Lemma batchedMetrics_no_helpers env st :
  hasHelpers env = false ->
  _batchedMetrics env st = (false, mkMetricsState (fontMetrics st) 32).
Proof. intros H. unfold _batchedMetrics. by rewrite H. Qed.

(** C5 fails as stated: after the eight calls the entries of the code
    points below 32 are still [0xFF]; and on a page without the helper
    container the first call already returns false, with the table as it
    was. *)
Lemma probe_eight_calls_counterexample :
  let env := mkMetricsEnv true (fun _ => 80 # 1)%Q (8 # 1)%Q in
  let result := probeCalls (replicate 8 env) initialMetrics in
  let bare := mkMetricsEnv false (fun _ => 80 # 1)%Q (8 # 1)%Q in
  fst result = [true; true; true; true; true; true; true; false] /\
  fontMetrics (snd result) !! 0%nat = Some 255 /\
  fontMetrics (snd result) !! 31%nat = Some 255 /\
  fontMetrics (snd result) !! 32%nat = Some 0 /\
  _batchedMetrics bare initialMetrics = (false, initialMetrics).
Proof. vm_compute. repeat split. Qed.

(** C5, amended.  Starting from the all-unknown table with the cursor at
    32, eight calls of the batch probe, each finding the helper container,
    leave no unknown entry among the code points 32..255 (each is 0 or 1);
    the entries of the code points 0..31 are never probed and stay [0xFF];
    the eighth call returns false, every earlier call returns true, and the
    cursor is back at 32. *)
Theorem probe_eight_calls (envs : list MetricsEnv) :
  length envs = 8%nat ->
  Forall (fun env => hasHelpers env = true) envs ->
  fst (probeCalls envs initialMetrics)
    = [true; true; true; true; true; true; true; false] /\
  (forall k, 32 <= k < 256 ->
     exists v, fontMetrics (snd (probeCalls envs initialMetrics)) !! Z.to_nat k = Some v
               /\ (v = 0 \/ v = 1)) /\
  (forall k, 0 <= k < 32 ->
     fontMetrics (snd (probeCalls envs initialMetrics)) !! Z.to_nat k = Some 255) /\
  metricsPos (snd (probeCalls envs initialMetrics)) = 32.
Proof.
  intros Hlen Hall.
  do 8 (destruct envs as [|? envs]; [discriminate|]).
  destruct envs; [|discriminate]. clear Hlen.
  repeat match goal with
  | H : Forall _ (_ :: _) |- _ => apply Forall_cons in H as [? H]
  end.
  pose proof initialMetrics_probedUpTo as P0.
  assert (M0 : metricsPos initialMetrics = 32) by reflexivity.
  unfold FontMetrics.START in P0.
  repeat match goal with
  | Hh : hasHelpers ?e = true, P : probedUpTo ?st ?p, M : metricsPos ?st = ?p
    |- context [_batchedMetrics ?e ?st] =>
      let st' := fresh "st" in
      let E := fresh "E" in
      let P' := fresh "P" in
      let M' := fresh "M" in
      destruct (batchedMetrics_step e st p Hh M
                  ltac:(unfold FontMetrics.START, FontMetrics.MAX; lia) P)
        as (st' & E & P' & M');
      let p' := eval vm_compute in (Z.min (p + 30) 256) in
      let b := eval vm_compute in (p + 30 <? 256) in
      let q := eval vm_compute in (if p + 30 <? 256 then p + 30 else 32) in
      change (Z.min (p + 30) 256) with p' in P';
      change (p + 30 <? 256) with b in E;
      change (if p + 30 <? 256 then p + 30 else 32) with q in M';
      cbn [probeCalls]; rewrite E; clear Hh P M E
  | |- _ => progress cbn [probeCalls]
  end.
  simpl. destruct P0 as (_ & Hlow & Hres).
  unfold FontMetrics.START in Hlow, Hres. repeat split; assumption.
Qed.

Lemma probe_eight_calls_witness :
  let env := mkMetricsEnv true (fun _ => 80 # 1)%Q (8 # 1)%Q in
  length (replicate 8 env) = 8%nat /\
  Forall (fun env => hasHelpers env = true) (replicate 8 env) /\
  fst (probeCalls (replicate 8 env) initialMetrics)
    = [true; true; true; true; true; true; true; false] /\
  metricsPos (snd (probeCalls (replicate 8 env) initialMetrics)) = 32.
Proof.
  cbv zeta.
  assert (Hall : Forall (fun env => hasHelpers env = true)
            (replicate 8 (mkMetricsEnv true (fun _ => 80 # 1)%Q (8 # 1)%Q)))
    by (repeat constructor).
  split; [reflexivity|]. split; [exact Hall|].
  destruct (probe_eight_calls
              (replicate 8 (mkMetricsEnv true (fun _ => 80 # 1)%Q (8 # 1)%Q))
              eq_refl Hall) as (Hr & _ & _ & Hp).
  split; [exact Hr | exact Hp].
Defined.

End DomRendererProps.

(** * Properties of the canvas foreground layer *)

Module ForegroundRenderLayerProps.
Import ForegroundRenderLayer.

Section BrowserProps.

Variable devicePixelRatio : Q.
Variable numberToString : Q -> string.
Variable parseFont : string -> option string.
Variable TANGO_COLORS : Z -> string.
Variable BOLD : Z.

Local Abbreviation renderCell :=
  (renderCell devicePixelRatio numberToString parseFont TANGO_COLORS BOLD).
Local Abbreviation renderRow :=
  (renderRow devicePixelRatio numberToString parseFont TANGO_COLORS BOLD).
Local Abbreviation render :=
  (render devicePixelRatio numberToString parseFont TANGO_COLORS BOLD).
Local Abbreviation _drawUnicodeChar :=
  (_drawUnicodeChar devicePixelRatio numberToString parseFont TANGO_COLORS).

Lemma ops_withStyle c s : ops (withStyle c s) = ops c.
Proof. reflexivity. Qed.

Lemma ops_addOp c op : ops (addOp c op) = ops c ++ [op].
Proof. reflexivity. Qed.

(** The fallback draws one text and leaves the drawing state as it was. *)
Lemma drawUnicodeChar_spec char width fg x y scw sch c :
  exists s,
    _drawUnicodeChar char width fg x y scw sch c =
      mkContext2D (style c) (saved c)
        (ops c ++ [Draw (FillText char (inject_Z x * scw)%Q (inject_Z y * sch)%Q s)]) /\
    fillStyle s = (if fg <? 16 then TANGO_COLORS fg else "#ffffff"%string) /\
    textBaseline s = "top"%string.
Proof.
  unfold ForegroundRenderLayer._drawUnicodeChar.
  eexists. split; [reflexivity|]. split.
  - destruct (fg <? 16); reflexivity.
  - destruct (fg <? 16); reflexivity.
Qed.

(** What the loop body does for a cell that is present and set. *)
Lemma renderCell_blit atlas line cell y scw sch x c :
  0 <= x -> line !! Z.to_nat x = Some cell ->
  code cell <> 0 -> code cell < 256 ->
  exists c',
    renderCell atlas (Some line) y scw sch x c = Normal c' /\
    saved c' = saved c /\
    ops c' = ops c ++
      [DrawImage atlas (inject_Z (code cell) * scw)%Q
         (inject_Z (colorIndexOf (boldFg BOLD (attr cell))) * sch)%Q scw sch
         (inject_Z x * scw)%Q (inject_Z y * sch)%Q scw sch].
Proof.
  intros Hx Hcell Hne Hlt. unfold ForegroundRenderLayer.renderCell.
  destruct (Z.leb_spec 0 x); [|lia]. rewrite Hcell.
  destruct (Z.eqb_spec (code cell) 0); [contradiction|].
  destruct (Z.ltb_spec (code cell) 256); [|lia].
  eexists. split; [reflexivity|].
  destruct (isBold BOLD (flagsOf (attr cell))); split; reflexivity.
Qed.

Lemma renderCell_fallback atlas line cell y scw sch x c :
  0 <= x -> line !! Z.to_nat x = Some cell -> 256 <= code cell ->
  exists c' s,
    renderCell atlas (Some line) y scw sch x c = Normal c' /\
    saved c' = saved c /\
    ops c' = ops c ++
      [Draw (FillText (char cell) (inject_Z x * scw)%Q (inject_Z y * sch)%Q s)] /\
    fillStyle s = (if boldFg BOLD (attr cell) <? 16
                   then TANGO_COLORS (boldFg BOLD (attr cell))
                   else "#ffffff"%string).
Proof.
  intros Hx Hcell Hge. unfold ForegroundRenderLayer.renderCell.
  destruct (Z.leb_spec 0 x); [|lia]. rewrite Hcell.
  destruct (Z.eqb_spec (code cell) 0); [lia|].
  destruct (Z.ltb_spec (code cell) 256); [lia|].
  match goal with
  | |- context [_drawUnicodeChar ?ch ?w ?fg ?x ?y ?a ?b ?c0] =>
      destruct (drawUnicodeChar_spec ch w fg x y a b c0) as (s & -> & Hs & _)
  end.
  eexists _, s. split; [reflexivity|].
  destruct (isBold BOLD (flagsOf (attr cell))); repeat split; assumption.
Qed.

(** C7. For every cell with the BOLD flag set, a foreground index below 8
    becomes index + 8 before the colour row is looked up, so the row is
    index + 9; an index from 8 to 15 is unchanged and the row is index + 1;
    without BOLD the row is index + 1 for every index below 16.  The blit of
    a cell with a code point in 1..255 reads the atlas tile of that row. *)
Theorem bold_color_row (attr0 : Z) :
  let fg := fgOf attr0 in
  let row := colorIndexOf (boldFg BOLD attr0) in
  (js_and (flagsOf attr0) BOLD <> 0 -> fg < 8 ->
     boldFg BOLD attr0 = fg + 8 /\ row = fg + 9) /\
  (js_and (flagsOf attr0) BOLD <> 0 -> 8 <= fg < 16 ->
     boldFg BOLD attr0 = fg /\ row = fg + 1) /\
  (js_and (flagsOf attr0) BOLD = 0 -> fg < 16 ->
     boldFg BOLD attr0 = fg /\ row = fg + 1) /\
  (forall atlas line cell y scw sch x c,
     attr cell = attr0 -> 0 <= x -> line !! Z.to_nat x = Some cell ->
     code cell <> 0 -> code cell < 256 ->
     exists c',
       renderCell atlas (Some line) y scw sch x c = Normal c' /\
       ops c' = ops c ++
         [DrawImage atlas (inject_Z (code cell) * scw)%Q (inject_Z row * sch)%Q
            scw sch (inject_Z x * scw)%Q (inject_Z y * sch)%Q scw sch]).
Proof.
  cbv zeta. repeat match goal with |- _ /\ _ => split end.
  1-3: unfold boldFg, colorIndexOf, isBold; intros Hbold Hfg;
       split_tests; cbn [negb andb] in *; split_tests; cbn [negb andb] in *;
       try contradiction; split; lia.
  - intros atlas line cell y scw sch x c Hattr Hx Hcell Hne Hlt.
    destruct (renderCell_blit atlas line cell y scw sch x c Hx Hcell Hne Hlt)
      as (c' & Hr & _ & Hops).
    exists c'. split; [exact Hr|]. rewrite Hops, Hattr. reflexivity.
Qed.

(** C8. For every row range, [render] on a layer whose atlas has not
    resolved returns normally and leaves the layer exactly as it was:
    nothing is cleared, nothing is drawn, no drawing state changes. *)
Theorem render_without_atlas (terminal : Terminal) (startRow endRow : Z) (st : Layer) :
  charAtlas st = None ->
  render terminal startRow endRow st = Normal st.
Proof. intros H. unfold ForegroundRenderLayer.render. by rewrite H. Qed.

Lemma forEach_unchanged {A : Type} (body : Z -> A -> Completion A) (a : A)
    (indices : list Z) :
  (forall i, i ∈ indices -> body i a = Normal a) ->
  forEach indices body a = Normal a.
Proof.
  induction indices as [|i rest IH]; intros H; simpl; [done|].
  rewrite H by apply list_elem_of_here. simpl.
  apply IH. intros j Hj. apply H. by apply list_elem_of_further.
Qed.

(** C9. A cell whose code point is 0 is skipped: the loop body returns with
    the context unchanged, so neither an atlas blit nor a fallback draw
    happens for it.  In particular, when every cell of the rendered band has
    code point 0, [render] only clears the band. *)
Theorem render_skips_unset_cell :
  (forall atlas line cell y scw sch x c,
     0 <= x -> line !! Z.to_nat x = Some cell -> code cell = 0 ->
     renderCell atlas (Some line) y scw sch x c = Normal c) /\
  (forall terminal startRow endRow st atlas,
     charAtlas st = Some atlas ->
     (forall y x, startRow <= y <= endRow -> 0 <= x < cols terminal ->
        exists line cell,
          lines terminal (y + ydisp terminal) = Some line /\
          line !! Z.to_nat x = Some cell /\ code cell = 0) ->
     exists c',
       render terminal startRow endRow st = Normal (withCtx st c') /\
       ops c' = ops (ctx st) ++
         [Draw (ClearRect 0
            (inject_Z startRow *
               (inject_Z (Qceiling (charMeasureHeight terminal)) * devicePixelRatio))%Q
            ((inject_Z (Qceiling (charMeasureWidth terminal)) * devicePixelRatio)
               * inject_Z (cols terminal))%Q
            (inject_Z (endRow - startRow + 1) *
               (inject_Z (Qceiling (charMeasureHeight terminal)) * devicePixelRatio))%Q)]).
Proof.
  assert (Hcell : forall atlas line cell y scw sch x c,
     0 <= x -> line !! Z.to_nat x = Some cell -> code cell = 0 ->
     renderCell atlas (Some line) y scw sch x c = Normal c).
  { intros atlas line cell y scw sch x c Hx Hl Hcode.
    unfold ForegroundRenderLayer.renderCell.
    destruct (Z.leb_spec 0 x); [|lia]. rewrite Hl, Hcode. reflexivity. }
  split; [exact Hcell|].
  intros terminal startRow endRow st atlas Hatlas Hblank.
  unfold ForegroundRenderLayer.render. rewrite Hatlas.
  eexists. rewrite forEach_unchanged.
  - simpl. split; reflexivity.
  - intros y Hy. apply elem_of_seqZ in Hy.
    unfold ForegroundRenderLayer.renderRow.
    apply forEach_unchanged. intros x Hx. apply elem_of_seqZ in Hx.
    destruct (Hblank y x ltac:(lia) ltac:(lia)) as (line & cell & -> & Hl & Hc).
    eapply Hcell; [lia | exact Hl | exact Hc].
Qed.

(** C2, amended.  For every set cell with foreground index >= 16 the
    colour row is 0.  Whether the atlas is bypassed depends on the code point
    alone: with a code point below 256 the glyph is copied from row 0 of the
    atlas (the default foreground); only with a code point of 256 or more is
    it drawn directly, and then with the fill style [#ffffff]. *)
Theorem extended_color_cell atlas line cell y scw sch x c :
  0 <= x -> line !! Z.to_nat x = Some cell -> code cell <> 0 ->
  16 <= fgOf (attr cell) ->
  colorIndexOf (boldFg BOLD (attr cell)) = 0 /\
  (code cell < 256 ->
   exists c',
     renderCell atlas (Some line) y scw sch x c = Normal c' /\
     ops c' = ops c ++
       [DrawImage atlas (inject_Z (code cell) * scw)%Q (inject_Z 0 * sch)%Q
          scw sch (inject_Z x * scw)%Q (inject_Z y * sch)%Q scw sch]) /\
  (256 <= code cell ->
   exists c' s,
     renderCell atlas (Some line) y scw sch x c = Normal c' /\
     ops c' = ops c ++
       [Draw (FillText (char cell) (inject_Z x * scw)%Q (inject_Z y * sch)%Q s)] /\
     fillStyle s = "#ffffff"%string).
Proof.
  intros Hx Hcell Hne Hfg.
  assert (Hb : boldFg BOLD (attr cell) = fgOf (attr cell)).
  { unfold boldFg. destruct (Z.ltb_spec (fgOf (attr cell)) 8); [lia|].
    by rewrite andb_false_r. }
  assert (Hrow : colorIndexOf (boldFg BOLD (attr cell)) = 0).
  { rewrite Hb. unfold colorIndexOf.
    destruct (Z.ltb_spec (fgOf (attr cell)) 16); [lia | reflexivity]. }
  split; [exact Hrow|]. split.
  - intros Hlt.
    destruct (renderCell_blit atlas line cell y scw sch x c Hx Hcell Hne Hlt)
      as (c' & Hr & _ & Hops).
    exists c'. split; [exact Hr|]. by rewrite Hops, Hrow.
  - intros Hge.
    destruct (renderCell_fallback atlas line cell y scw sch x c Hx Hcell Hge)
      as (c' & s & Hr & _ & Hops & Hs).
    exists c', s. split; [exact Hr|]. split; [exact Hops|].
    rewrite Hs, Hb. destruct (Z.ltb_spec (fgOf (attr cell)) 16); [lia | reflexivity].
Qed.

(** [resize] with changed character size drops the atlas and puts the new
    request behind those already in flight. *)
Lemma resize_requests_atlas terminal w h st bitmap :
  generate devicePixelRatio numberToString parseFont TANGO_COLORS
    (charMeasureWidth terminal) (charMeasureHeight terminal) = Some bitmap ->
  charAtlas (resize devicePixelRatio numberToString parseFont TANGO_COLORS
               terminal w h true st) = None /\
  pending (resize devicePixelRatio numberToString parseFont TANGO_COLORS
             terminal w h true st) = pending st ++ [bitmap].
Proof. intros H. unfold resize. rewrite H. split; reflexivity. Qed.

End BrowserProps.

Lemma toUnsignedLong_integer (q : Q) (z : Z) :
  (q == inject_Z z)%Q -> 0 <= z < 2 ^ 32 -> toUnsignedLong q = z.
Proof.
  intros Hq Hz. unfold toUnsignedLong.
  assert (Hle : Qle_bool 0 q = true).
  { apply Qle_bool_iff. rewrite Hq. change 0%Q with (inject_Z 0).
    rewrite <- Zle_Qle. lia. }
  rewrite Hle, (Qfloor_comp _ _ Hq), Qfloor_Z. apply Z.mod_small. lia.
Qed.

(** The size of the generated bitmap at device pixel ratio 1, for a
    character cell of [cw] by [ch] pixels: 255 cells wide, 17 cells high. *)
Lemma generate_size numberToString parseFont TANGO_COLORS (cw ch : Z) :
  0 < cw -> 0 < ch -> 255 * cw < 2 ^ 32 -> 17 * ch < 2 ^ 32 ->
  exists bitmap,
    generate 1 numberToString parseFont TANGO_COLORS (inject_Z cw) (inject_Z ch)
      = Some bitmap /\
    bitmapWidth bitmap = 255 * cw /\
    bitmapHeight bitmap = 17 * ch.
Proof.
  intros Hcw Hch Hw Hh. unfold generate. rewrite !Qceiling_Z.
  rewrite (toUnsignedLong_integer _ (255 * cw)); [| |lia].
  2: { rewrite inject_Z_mult, Qmult_1_r. reflexivity. }
  rewrite (toUnsignedLong_integer _ (17 * ch)); [| |lia].
  2: { rewrite inject_Z_mult, Qmult_1_r. reflexivity. }
  destruct (foldl _ _ _) as [s' drawn].
  destruct (Z.eqb_spec (255 * cw) 0); [lia|].
  destruct (Z.eqb_spec (17 * ch) 0); [lia|].
  simpl. eexists. split; [reflexivity|]. split; reflexivity.
Qed.

(** C4 at a 10 by 20 character cell with device pixel ratio 1: the bitmap
    is 2550 = 255 * 10 wide, ten pixels short of the 256 tile columns, and
    340 = 17 * 20 high; the glyph of code 255 is drawn at x = 2550, the right
    edge of the bitmap. *)
Theorem generate_width_is_255_cells :
  let atlas := generate 1 exampleNumberToString exampleParseFont exampleColors 10 20 in
  bitmapWidth <$> atlas = Some 2550 /\
  bitmapHeight <$> atlas = Some 340 /\
  2550 <> 256 * 10 /\
  (fun bitmap => bitmapContent bitmap !! 255%nat) <$> atlas
    = Some (Some (FillText (fromCharCode 255) 2550 0
                    (mkTextStyle "#ffffff" "16px courier" "top"))).
Proof.
  cbv zeta. split; [vm_compute; reflexivity|].
  split; [vm_compute; reflexivity|]. split; [discriminate|].
  vm_compute. reflexivity.
Qed.

(** The rendering scenario: with the atlas ready, [render(0, 1)] on the
    2 x 4 grid of As clears the two-row band and then copies the tile
    (65, 2) to each of the 8 cells. *)
Example render_scenario :
  let render' := render 1 exampleNumberToString exampleParseFont exampleColors 1 in
  let atlas := mkImageBitmap 2550 340 [] in
  let st := mkLayer 40 40 (mkContext2D defaultStyle [] []) (Some atlas) [] in
  let tile (x y : Z) :=
    DrawImage atlas (inject_Z 65 * 10)%Q (inject_Z 2 * 20)%Q 10 20
      (inject_Z x * 10)%Q (inject_Z y * 20)%Q 10 20 in
  mapCompletion (fun l => ops (ctx l)) (render' exampleTerminal 0 1 st) =
  Normal (Draw (ClearRect 0 0 40 40) ::
          [tile 0 0; tile 1 0; tile 2 0; tile 3 0;
           tile 0 1; tile 1 1; tile 2 1; tile 3 1]).
Proof. vm_compute. reflexivity. Qed.

(** C2 fails as stated: a cell with foreground index 16 and code point 65
    is copied from row 0 of the atlas; no text is drawn directly. *)
Lemma extended_color_counterexample :
  let atlas := mkImageBitmap 2550 340 [] in
  let cell := mkCharData (16 * 512) "A" 1 65 in
  let c := mkContext2D defaultStyle [] [] in
  fgOf (attr cell) = 16 /\
  renderCell 1 exampleNumberToString exampleParseFont exampleColors 1
    atlas (Some [cell]) 0 10 20 0 c
  = Normal (mkContext2D defaultStyle []
              [DrawImage atlas 650 0 10 20 0 0 10 20]).
Proof. cbv zeta. split; reflexivity. Qed.

Lemma extended_color_cell_witness :
  let atlas := mkImageBitmap 2550 340 [] in
  let cell := mkCharData (16 * 512) "A" 1 65 in
  let c := mkContext2D defaultStyle [] [] in
  16 <= fgOf (attr cell) /\
  colorIndexOf (boldFg 1 (attr cell)) = 0 /\
  exists c',
    renderCell 1 exampleNumberToString exampleParseFont exampleColors 1
      atlas (Some [cell]) 0 10 20 0 c = Normal c' /\
    ops c' = ops c ++ [DrawImage atlas (inject_Z 65 * 10)%Q (inject_Z 0 * 20)%Q
                         10 20 (inject_Z 0 * 10)%Q (inject_Z 0 * 20)%Q 10 20].
Proof.
  cbv zeta.
  assert (Hfg : 16 <= fgOf (attr (mkCharData (16 * 512) "A" 1 65)))
    by (vm_compute; discriminate).
  destruct (extended_color_cell 1 exampleNumberToString exampleParseFont
              exampleColors 1 (mkImageBitmap 2550 340 [])
              [mkCharData (16 * 512) "A" 1 65] (mkCharData (16 * 512) "A" 1 65)
              0 10 20 0 (mkContext2D defaultStyle [] [])
              ltac:(lia) eq_refl ltac:(discriminate) Hfg) as (Hrow & Hblit & _).
  split; [exact Hfg|]. split; [exact Hrow|].
  apply Hblit. reflexivity.
Defined.

Lemma bold_color_row_witness :
  let attr0 := 262144 + 512 in   (* BOLD, foreground index 1 *)
  js_and (flagsOf attr0) 1 <> 0 /\ fgOf attr0 < 8 /\
  boldFg 1 attr0 = fgOf attr0 + 8 /\ colorIndexOf (boldFg 1 attr0) = fgOf attr0 + 9.
Proof.
  cbv zeta.
  assert (Hb : js_and (flagsOf (262144 + 512)) 1 <> 0) by (vm_compute; discriminate).
  assert (Hf : fgOf (262144 + 512) < 8) by reflexivity.
  split; [exact Hb|]. split; [exact Hf|].
  destruct (bold_color_row 1 exampleNumberToString exampleParseFont exampleColors 1
              (262144 + 512)) as (H & _).
  exact (H Hb Hf).
Defined.

Lemma render_without_atlas_witness :
  let terminal := mkTerminal 10 20 80 0 (fun _ => None) in
  charAtlas newLayer = None /\
  render 1 exampleNumberToString exampleParseFont exampleColors 1
    terminal 0 23 newLayer = Normal newLayer.
Proof.
  cbv zeta. split; [reflexivity|].
  apply (render_without_atlas 1 exampleNumberToString exampleParseFont
           exampleColors 1). reflexivity.
Defined.

Lemma render_skips_unset_cell_witness :
  let atlas := mkImageBitmap 2550 340 [] in
  let cell := mkCharData 512 "" 1 0 in
  let c := mkContext2D defaultStyle [] [] in
  code cell = 0 /\
  renderCell 1 exampleNumberToString exampleParseFont exampleColors 1
    atlas (Some [cell]) 0 10 20 0 c = Normal c.
Proof.
  cbv zeta. split; [reflexivity|].
  apply (proj1 (render_skips_unset_cell 1 exampleNumberToString exampleParseFont
                  exampleColors 1)) with (cell := mkCharData 512 "" 1 0);
    [lia | reflexivity | reflexivity].
Defined.

(** C3, amended.  Every resolution installs its bitmap: when the promise
    of any request in flight is fulfilled, that request's bitmap becomes the
    active atlas, also while a newer request is in flight.  When the requests
    in flight are all fulfilled oldest first, the atlas installed at the end
    is that of the most recent request. *)
Theorem resolution_installs_bitmap (st : Layer) :
  (forall k bitmap, pending st !! k = Some bitmap ->
     charAtlas (resolve k st) = Some bitmap /\
     pending (resolve k st) = delete k (pending st)) /\
  (forall older latest, pending st = older ++ [latest] ->
     charAtlas (resolveInOrder (length (pending st)) st) = Some latest /\
     pending (resolveInOrder (length (pending st)) st) = []).
Proof.
  split.
  - intros k bitmap H. unfold resolve. rewrite H. split; reflexivity.
  - intros older. revert st.
    induction older as [|b older IH]; intros st latest Hp.
    + rewrite Hp. simpl. unfold resolve. rewrite Hp. simpl. split; reflexivity.
    + rewrite Hp. simpl.
      assert (Hp' : pending (resolve 0 st) = older ++ [latest]).
      { unfold resolve. rewrite Hp. reflexivity. }
      specialize (IH (resolve 0 st) latest Hp'). rewrite Hp' in IH.
      rewrite length_app in IH |- *. exact IH.
Qed.

Lemma resolution_installs_bitmap_witness :
  let a := mkImageBitmap 2550 340 [] in
  let b := mkImageBitmap 3060 408 [] in
  let st := mkLayer 300 150 (mkContext2D defaultStyle [] []) None [a; b] in
  pending st !! 0%nat = Some a /\
  charAtlas (resolve 0 st) = Some a /\
  charAtlas (resolveInOrder 2 st) = Some b.
Proof.
  cbv zeta.
  destruct (resolution_installs_bitmap
              (mkLayer 300 150 (mkContext2D defaultStyle [] []) None
                 [mkImageBitmap 2550 340 []; mkImageBitmap 3060 408 []]))
    as (Hany & Hlast).
  split; [reflexivity|]. split.
  - apply (Hany 0%nat). reflexivity.
  - apply (Hlast [mkImageBitmap 2550 340 []] (mkImageBitmap 3060 408 [])).
    reflexivity.
Defined.

(** C3 fails as stated: two regenerations are requested, for character
    cells of 10x20 and then 12x24; the first request's promise is fulfilled
    after the second request was issued, and its bitmap is installed as the
    active atlas while the newer request is still in flight. *)
Lemma stale_atlas_counterexample :
  let resize' := resize 1 exampleNumberToString exampleParseFont exampleColors in
  let generate' := generate 1 exampleNumberToString exampleParseFont exampleColors in
  let t1 := mkTerminal 10 20 80 0 (fun _ => None) in
  let t2 := mkTerminal 12 24 80 0 (fun _ => None) in
  let st := resolve 0 (resize' t2 960%Q 576%Q true (resize' t1 800%Q 480%Q true newLayer)) in
  bitmapWidth <$> generate' 10%Q 20%Q = Some 2550 /\
  bitmapWidth <$> generate' 12%Q 24%Q = Some 3060 /\
  charAtlas st = generate' 10%Q 20%Q /\
  Some <$> pending st = [generate' 12%Q 24%Q].
Proof.
  cbv zeta. split; [vm_compute; reflexivity|].
  split; [vm_compute; reflexivity|].
  split; vm_compute; reflexivity.
Qed.

End ForegroundRenderLayerProps.

(** * Further properties of the DOM renderer *)

Module DomRendererMoreProps.
Import DomRenderer DomRendererProps DomRendererMore.

Lemma growRows_elements rows i st :
  i = Z.of_nat (length (rowElements st)) ->
  rowElements (growRows rows i st)
    = rowElements st ++ seq (nextNode st) (Z.to_nat (rows + 1 - i)) /\
  nextNode (growRows rows i st) = (nextNode st + Z.to_nat (rows + 1 - i))%nat.
Proof.
  funelim (growRows rows i st); intros Hi.
  - match goal with IH : _ -> _ /\ _ |- _ => destruct IH as [IH1 IH2] end.
    + unfold pushRow. simpl. rewrite length_app. simpl. lia.
    + rewrite IH1, IH2. unfold pushRow. simpl.
      match goal with |- context [Z.to_nat (?r + 1 - i)] =>
        replace (Z.to_nat (r + 1 - i)) with (S (Z.to_nat (r + 1 - (i + 1)))) by lia
      end.
      simpl. rewrite <- app_assoc. simpl. split; [reflexivity | lia].
  - match goal with |- context [Z.to_nat (?r + 1 - i)] =>
      replace (Z.to_nat (r + 1 - i)) with 0%nat by lia
    end.
    simpl. rewrite app_nil_r. split; [reflexivity | lia].
Qed.

Lemma shrinkRows_elements rows st :
  0 <= rows -> wfRows st ->
  shrinkRows rows st =
    Some (mkRowState (take (Z.to_nat rows) (rowElements st))
                     (take (Z.to_nat rows) (rowElements st)) (nextNode st)).
Proof.
  intros Hrows. remember (length (rowElements st)) as n eqn:Hn.
  revert st Hn. induction n as [n IH] using lt_wf_ind. intros st Hn Hwf.
  rewrite shrinkRows_body.
  destruct st as [els ch nx]. simpl in *.
  destruct Hwf as (Hc & Hnd & Hlt). simpl in *. subst ch.
  destruct (Z_gt_dec (Z.of_nat (length els)) rows) as [Hgt|Hle]; simpl.
  - destruct els as [|e els0 _] using rev_ind; [simpl in Hgt; lia|].
    rename els0 into l, e into x.
    rewrite pop_snoc. simpl. rewrite removeChild_last by done. simpl.
    rewrite length_app in Hn, Hgt. simpl in Hn, Hgt.
    rewrite (IH (length l) ltac:(lia) (mkRowState l l nx) eq_refl).
    + simpl. rewrite take_app_le by lia. reflexivity.
    + apply NoDup_app in Hnd as (Hl & _ & _).
      apply Forall_app in Hlt as (Hlt & _). by repeat split.
  - rewrite take_ge by lia. reflexivity.
Qed.


Lemma refreshRowElements_elements (cols rows : Z) (st : RowState) :
  0 <= rows -> wfRows st ->
  _refreshRowElements cols rows st =
    Some (mkRowState 
      (take (Z.to_nat rows) (rowElements st)
         ++ seq (nextNode st) (Z.to_nat rows - length (rowElements st)))
      (take (Z.to_nat rows) (rowElements st)
         ++ seq (nextNode st) (Z.to_nat rows - length (rowElements st)))
      (nextNode st + Z.to_nat (rows + 1 - Z.of_nat (length (rowElements st))))%nat).
Proof.
  intros Hrows Hwf. unfold _refreshRowElements.
  destruct (growRows_spec rows _ st eq_refl Hwf) as [Hwfg _].
  destruct (growRows_elements rows _ st eq_refl) as [Hel Hnx].
  rewrite (shrinkRows_elements rows _ Hrows Hwfg), Hel, Hnx.
  assert (Htake : take (Z.to_nat rows)
            (rowElements st ++ seq (nextNode st)
               (Z.to_nat (rows + 1 - Z.of_nat (length (rowElements st)))))
          = take (Z.to_nat rows) (rowElements st)
              ++ seq (nextNode st) (Z.to_nat rows - length (rowElements st))).
  { rewrite take_app. f_equal. rewrite take_seq. f_equal. lia. }
  rewrite Htake. reflexivity.
Qed.

Lemma refreshRowElements_wf (cols n : Z) (st : RowState) :
  0 <= n -> wfRows st ->
  exists st', _refreshRowElements cols n st = Some st' /\ wfRows st' /\
    Z.of_nat (length (rowElements st')) = n.
Proof.
  intros Hn Hwf.
  destruct (growRows_spec n _ st eq_refl Hwf) as [Hwfg Hleng].
  destruct (shrinkRows_spec n _ Hn Hwfg) as (st' & Hs & Hwf' & Hlen).
  exists st'. unfold _refreshRowElements. rewrite Hs.
  split; [reflexivity|]. split; [exact Hwf'|]. rewrite Hlen, Hleng. lia.
Qed.



(** X2. The refresh reuses the DOM nodes it has: the rows that remain are
    the first [rows] old row elements, in their order, and the rows added
    behind them are nodes created by this call, none of which was a row
    before.  The container's children are the same list. *)
Theorem refreshRowElements_reuses_rows (cols n : Z) (st : RowState) :
  0 <= n -> wfRows st ->
  exists st',
    _refreshRowElements cols n st = Some st' /\
    rowElements st' =
      take (Z.to_nat n) (rowElements st)
        ++ seq (nextNode st) (Z.to_nat n - length (rowElements st)) /\
    rowContainer st' = rowElements st' /\
    (forall x, x ∈ seq (nextNode st) (Z.to_nat n - length (rowElements st)) ->
               x ∉ rowElements st).
Proof.
  intros Hn Hwf. rewrite (refreshRowElements_elements cols n st Hn Hwf).
  eexists. split; [reflexivity|]. simpl. split; [reflexivity|].
  split; [reflexivity|].
  intros x Hx Hold. apply elem_of_seq in Hx.
  destruct Hwf as (_ & _ & Hlt). rewrite Forall_forall in Hlt.
  specialize (Hlt _ Hold). lia.
Qed.

Lemma refreshRowElements_reuses_rows_witness :
  0 <= 2 /\ wfRows (mkRowState [0; 1; 2]%nat [0; 1; 2]%nat 3) /\
  exists st',
    _refreshRowElements 80 2 (mkRowState [0; 1; 2]%nat [0; 1; 2]%nat 3) = Some st' /\
    rowElements st' = [0; 1]%nat.
Proof.
  assert (Hwf : wfRows (mkRowState [0; 1; 2]%nat [0; 1; 2]%nat 3)).
  { split; [reflexivity|]. split.
    - compute_done.
    - repeat constructor. }
  split; [lia|]. split; [exact Hwf|].
  destruct (refreshRowElements_reuses_rows 80 2 _ ltac:(lia) Hwf)
    as (st' & H1 & H2 & _).
  exists st'. split; [exact H1|]. rewrite H2. reflexivity.
Defined.

(** X3. Refreshing twice with the same row count is idempotent on the
    rows: the second call returns normally with the same row elements and
    the same container children (it creates one node and removes it again). *)
Theorem refreshRowElements_idempotent (cols cols' n : Z) (st st1 : RowState) :
  0 <= n -> wfRows st ->
  _refreshRowElements cols n st = Some st1 ->
  exists st2,
    _refreshRowElements cols' n st1 = Some st2 /\
    rowElements st2 = rowElements st1 /\
    rowContainer st2 = rowContainer st1 /\
    nextNode st2 = S (nextNode st1).
Proof.
  intros Hn Hwf H1.
  destruct (refreshRowElements_wf cols n st Hn Hwf) as (st1' & H1' & Hwf1 & Hlen1).
  rewrite H1 in H1'. injection H1' as <-.
  rewrite (refreshRowElements_elements cols' n st1 Hn Hwf1).
  eexists. split; [reflexivity|]. simpl.
  assert (Hsame : take (Z.to_nat n) (rowElements st1)
            ++ seq (nextNode st1) (Z.to_nat n - length (rowElements st1))
          = rowElements st1).
  { rewrite take_ge by lia.
    replace (Z.to_nat n - length (rowElements st1))%nat with 0%nat by lia.
    apply app_nil_r. }
  rewrite Hsame. destruct Hwf1 as (Hc & _ & _).
  split; [reflexivity|]. split; [by rewrite Hc|]. lia.
Qed.

Lemma refreshRowElements_idempotent_witness :
  exists st1 st2,
    0 <= 3 /\ wfRows initialRows /\
    _refreshRowElements 80 3 initialRows = Some st1 /\
    _refreshRowElements 100 3 st1 = Some st2 /\
    rowElements st2 = rowElements st1.
Proof.
  destruct (refreshRowElements_wf 80 3 initialRows ltac:(lia) wfRows_initial)
    as (st1 & H1 & _ & _).
  destruct (refreshRowElements_idempotent 80 100 3 initialRows st1
              ltac:(lia) wfRows_initial H1) as (st2 & H2 & Hel & _).
  exists st1, st2. split; [lia|]. split; [exact wfRows_initial|].
  split; [exact H1|]. split; [exact H2 | exact Hel].
Defined.

(** *** Selection rectangles, further *)

(** X4. A selection that lies wholly outside the viewport draws nothing, in
    either mode: its start row is below the last viewport row, or its end row
    is above the first one, or the viewport has no rows. *)
Theorem selection_outside_viewport (b : BufferService) (d : CellDimensions)
    (s e : Z * Z) (columnSelectMode : bool) :
  rows b <= snd s - ydisp b \/ snd e - ydisp b < 0 \/ rows b <= 0 ->
  handleSelectionChanged b d (Some s) (Some e) columnSelectMode = [].
Proof.
  intros H. unfold handleSelectionChanged.
  assert (Hg : (Z.max (snd s - ydisp b) 0 >=? rows b)
               || (Z.min (snd e - ydisp b) (rows b - 1) <? 0) = true).
  { apply orb_true_iff. rewrite Z.geb_leb, Z.leb_le, Z.ltb_lt. lia. }
  by rewrite Hg.
Qed.

Lemma selection_outside_viewport_witness :
  let b := mkBufferService 80 24 100 in
  let d := mkCellDimensions (8 # 1) (17 # 1) in
  (rows b <= snd (3, 130) - ydisp b \/ snd (5, 131) - ydisp b < 0 \/ rows b <= 0) /\
  handleSelectionChanged b d (Some (3, 130)) (Some (5, 131)) false = [].
Proof.
  cbv zeta. split; [simpl; lia|].
  apply selection_outside_viewport. simpl. lia.
Defined.

(** X5. In column mode the order of the two columns does not matter: the
    single rectangle goes from the lesser to the greater column over the
    clipped row range, so exchanging the columns of start and end gives the
    same result and the width is never negative. *)
Theorem column_selection_normalized (b : BufferService) (d : CellDimensions)
    (s e : Z * Z) :
  (0 <= cellWidth d)%Q ->
  handleSelectionChanged b d (Some s) (Some e) true
    = handleSelectionChanged b d (Some (fst e, snd s)) (Some (fst s, snd e)) true /\
  (forall r, r ∈ handleSelectionChanged b d (Some s) (Some e) true ->
     r = _createSelectionElement d (Z.max (snd s - ydisp b) 0)
           (Z.min (fst s) (fst e)) (Z.max (fst s) (fst e))
           (Z.min (snd e - ydisp b) (rows b - 1) - Z.max (snd s - ydisp b) 0 + 1) /\
     (0 <= width r)%Q).
Proof.
  intros Hw. unfold handleSelectionChanged. simpl fst. simpl snd.
  destruct ((Z.max (snd s - ydisp b) 0 >=? rows b)
            || (Z.min (snd e - ydisp b) (rows b - 1) <? 0)).
  { split; [reflexivity|]. intros r Hr. by apply not_elem_of_nil in Hr. }
  rewrite !Z.gtb_ltb.
  destruct (Z.ltb_spec (fst e) (fst s)); destruct (Z.ltb_spec (fst s) (fst e));
    try lia.
  - split; [reflexivity|]. intros r Hr. apply list_elem_of_singleton in Hr. subst r.
    rewrite (Z.min_r (fst s) (fst e)), (Z.max_l (fst s) (fst e)) by lia. split; [reflexivity|]. simpl.
    apply Qmult_le_0_compat; [exact Hw|].
    change 0%Q with (inject_Z 0). rewrite <- Zle_Qle. lia.
  - split; [reflexivity|]. intros r Hr. apply list_elem_of_singleton in Hr. subst r.
    rewrite (Z.min_l (fst s) (fst e)), (Z.max_r (fst s) (fst e)) by lia. split; [reflexivity|]. simpl.
    apply Qmult_le_0_compat; [exact Hw|].
    change 0%Q with (inject_Z 0). rewrite <- Zle_Qle. lia.
  - assert (fst s = fst e) as Heq by lia. rewrite Heq.
    split; [reflexivity|]. intros r Hr. apply list_elem_of_singleton in Hr. subst r.
    rewrite (Z.min_id (fst e)), (Z.max_id (fst e)). split; [reflexivity|]. simpl.
    apply Qmult_le_0_compat; [exact Hw|].
    change 0%Q with (inject_Z 0). rewrite <- Zle_Qle. lia.
Qed.

Lemma column_selection_normalized_witness :
  let b := mkBufferService 80 24 0 in
  let d := mkCellDimensions (8 # 1) (17 # 1) in
  (0 <= cellWidth d)%Q /\
  handleSelectionChanged b d (Some (5, 0)) (Some (2, 3)) true
    = handleSelectionChanged b d (Some (2, 0)) (Some (5, 3)) true.
Proof.
  cbv zeta.
  assert (Hw : (0 <= cellWidth (mkCellDimensions (8 # 1) (17 # 1)))%Q)
    by (simpl; discriminate).
  split; [exact Hw|].
  exact (proj1 (column_selection_normalized (mkBufferService 80 24 0)
                  (mkCellDimensions (8 # 1) (17 # 1)) (5, 0) (2, 3) Hw)).
Defined.

(** The three rectangles of a range selection over several viewport rows. *)
Lemma selection_multi_row (b : BufferService) (d : CellDimensions) (s e : Z * Z) :
  let vs := snd s - ydisp b in
  let ve := snd e - ydisp b in
  let vcs := Z.max vs 0 in
  let vce := Z.min ve (rows b - 1) in
  vcs < vce -> vcs < rows b -> 0 <= vce ->
  handleSelectionChanged b d (Some s) (Some e) false =
    [ _createSelectionElement d vcs (if vs =? vcs then fst s else 0) (cols b) 1;
      _createSelectionElement d (vcs + 1) 0 (cols b) (vce - vcs - 1);
      _createSelectionElement d vce 0 (if ve =? vce then fst e else cols b) 1 ].
Proof.
  intros vs ve vcs vce Hlt Hs He. subst vs ve vcs vce.
  unfold handleSelectionChanged.
  rewrite selection_guard_passes by assumption.
  destruct (Z.eqb_spec (Z.max (snd s - ydisp b) 0) (snd e - ydisp b)); [lia|].
  destruct (Z.eqb_spec (Z.max (snd s - ydisp b) 0)
              (Z.min (snd e - ydisp b) (rows b - 1))); [lia|].
  reflexivity.
Qed.

(** X6. The rectangles of a range selection over several viewport rows
    stack without gap or overlap: the middle rectangle starts where the first
    row ends, the last row starts where the middle rectangle ends, and the
    three heights add up to the height of the clipped row range. *)
Theorem selection_rows_stack (b : BufferService) (d : CellDimensions) (s e : Z * Z) :
  let vcs := Z.max (snd s - ydisp b) 0 in
  let vce := Z.min (snd e - ydisp b) (rows b - 1) in
  vcs < vce -> vcs < rows b -> 0 <= vce ->
  exists first middle final,
    handleSelectionChanged b d (Some s) (Some e) false = [first; middle; final] /\
    (top first == inject_Z vcs * cellHeight d)%Q /\
    (top middle == top first + height first)%Q /\
    (top final == top middle + height middle)%Q /\
    (height first + height middle + height final
       == inject_Z (vce - vcs + 1) * cellHeight d)%Q.
Proof.
  intros vcs vce Hlt Hs He.
  rewrite (selection_multi_row b d s e Hlt Hs He).
  eexists _, _, _. split; [reflexivity|]. simpl. fold vcs vce.
  split; [|split; [|split]];
    repeat (rewrite inject_Z_plus || rewrite inject_Z_opp
            || rewrite <- Z.add_opp_r); ring.
Qed.

Lemma selection_rows_stack_witness :
  let b := mkBufferService 80 24 0 in
  let d := mkCellDimensions (8 # 1) (17 # 1) in
  exists first middle final,
    handleSelectionChanged b d (Some (1, 0)) (Some (2, 3)) false = [first; middle; final] /\
    (top first == inject_Z 0 * cellHeight d)%Q /\
    (top middle == top first + height first)%Q /\
    (top final == top middle + height middle)%Q /\
    (height first + height middle + height final
       == inject_Z (3 - 0 + 1) * cellHeight d)%Q.
Proof.
  cbv zeta.
  apply (selection_rows_stack (mkBufferService 80 24 0)
           (mkCellDimensions (8 # 1) (17 # 1)) (1, 0) (2, 3)); simpl; lia.
Defined.

(** X7. Clipping of a range selection.  When its start row is scrolled off
    above the viewport, the first rectangle lies on viewport row 0 and starts
    at column 0.  When its end row is below the viewport, the selection runs
    to the right edge of the last viewport row: as the last rectangle when it
    starts above that row, as the first one when it starts on that row. *)
Theorem selection_clipped (b : BufferService) (d : CellDimensions) (s e : Z * Z) :
  0 < rows b ->
  (snd s - ydisp b < 0 -> 0 <= snd e - ydisp b ->
   exists endCol rest,
     handleSelectionChanged b d (Some s) (Some e) false
       = _createSelectionElement d 0 0 endCol 1 :: rest) /\
  (rows b <= snd e - ydisp b -> Z.max (snd s - ydisp b) 0 < rows b - 1 ->
   last (handleSelectionChanged b d (Some s) (Some e) false)
     = Some (_createSelectionElement d (rows b - 1) 0 (cols b) 1)) /\
  (rows b <= snd e - ydisp b -> snd s - ydisp b = rows b - 1 ->
   head (handleSelectionChanged b d (Some s) (Some e) false)
     = Some (_createSelectionElement d (rows b - 1) (fst s) (cols b) 1)).
Proof.
  intros Hrows. repeat split.
  - intros Hs He. unfold handleSelectionChanged.
    rewrite selection_guard_passes by lia.
    replace (Z.max (snd s - ydisp b) 0) with 0 by lia.
    destruct (Z.eqb_spec (snd s - ydisp b) 0); [lia|].
    eexists _, _. reflexivity.
  - intros He Hs.
    rewrite (selection_multi_row b d s e) by lia.
    replace (Z.min (snd e - ydisp b) (rows b - 1)) with (rows b - 1) by lia.
    destruct (Z.eqb_spec (snd e - ydisp b) (rows b - 1)); [lia|].
    reflexivity.
  - intros He Hs. unfold handleSelectionChanged.
    rewrite selection_guard_passes by lia.
    replace (Z.max (snd s - ydisp b) 0) with (snd s - ydisp b) by lia.
    rewrite Z.eqb_refl, Hs.
    destruct (Z.eqb_spec (rows b - 1) (snd e - ydisp b)); [lia|].
    reflexivity.
Qed.

Lemma selection_clipped_witness :
  let b := mkBufferService 80 24 100 in
  let d := mkCellDimensions (8 # 1) (17 # 1) in
  0 < rows b /\
  last (handleSelectionChanged b d (Some (3, 110)) (Some (5, 200)) false)
    = Some (_createSelectionElement d 23 0 80 1).
Proof.
  cbv zeta. split; [simpl; lia|].
  destruct (selection_clipped (mkBufferService 80 24 100)
              (mkCellDimensions (8 # 1) (17 # 1)) (3, 110) (5, 200)
              ltac:(simpl; lia)) as (_ & H & _).
  apply H; simpl; lia.
Defined.

(** X8. For a range selection given in screen order, with both columns
    inside the grid, no rectangle has a negative width. *)
Theorem selection_widths_nonnegative (b : BufferService) (d : CellDimensions)
    (s e : Z * Z) :
  (0 <= cellWidth d)%Q ->
  0 <= fst s <= cols b -> 0 <= fst e <= cols b ->
  snd s < snd e \/ (snd s = snd e /\ fst s <= fst e) ->
  forall r, r ∈ handleSelectionChanged b d (Some s) (Some e) false ->
    (0 <= width r)%Q.
Proof.
  intros Hw Hsc Hec Hord r Hr.
  assert (Hnn : forall z, 0 <= z -> (0 <= cellWidth d * inject_Z z)%Q).
  { intros z Hz. apply Qmult_le_0_compat; [exact Hw|].
    change 0%Q with (inject_Z 0). rewrite <- Zle_Qle. exact Hz. }
  unfold handleSelectionChanged in Hr.
  destruct ((Z.max (snd s - ydisp b) 0 >=? rows b)
            || (Z.min (snd e - ydisp b) (rows b - 1) <? 0)) eqn:Hg.
  { by apply not_elem_of_nil in Hr. }
  apply orb_false_iff in Hg as [Hg1 Hg2].
  rewrite Z.geb_leb in Hg1. apply Z.leb_gt in Hg1. apply Z.ltb_ge in Hg2.
  apply elem_of_cons in Hr as [->|Hr].
  { simpl. apply Hnn.
    destruct (Z.eqb_spec (snd s - ydisp b) (Z.max (snd s - ydisp b) 0));
      destruct (Z.eqb_spec (Z.max (snd s - ydisp b) 0) (snd e - ydisp b)); lia. }
  apply elem_of_cons in Hr as [->|Hr].
  { simpl. apply Hnn. lia. }
  destruct (Z.eqb_spec (Z.max (snd s - ydisp b) 0)
              (Z.min (snd e - ydisp b) (rows b - 1))).
  { by apply not_elem_of_nil in Hr. }
  simpl in Hr. apply list_elem_of_singleton in Hr. subst r.
  simpl. apply Hnn.
  destruct (Z.eqb_spec (snd e - ydisp b) (Z.min (snd e - ydisp b) (rows b - 1))); lia.
Qed.

Lemma selection_widths_nonnegative_witness :
  let b := mkBufferService 80 24 0 in
  let d := mkCellDimensions (8 # 1) (17 # 1) in
  Forall (fun r => (0 <= width r)%Q)
    (handleSelectionChanged b d (Some (70, 1)) (Some (3, 2)) false).
Proof.
  cbv zeta. apply Forall_forall.
  apply (selection_widths_nonnegative (mkBufferService 80 24 0)
           (mkCellDimensions (8 # 1) (17 # 1)) (70, 1) (3, 2));
    simpl; try lia; discriminate.
Defined.

(** *** Font metrics probe, further *)

Lemma storeWidths_lookup env lo up pos coll (k : nat) : forall i t,
  0 <= i + pos ->
  (Z.to_nat (i + pos) <= k < Z.to_nat (i + pos) + length coll)%nat ->
  (k < length t)%nat ->
  exists el,
    coll !! (k - Z.to_nat (i + pos))%nat = Some el /\
    storeWidths env lo up pos i coll t !! k
      = Some (Z.b2z (Qlt_bool (measuredWidth env el) lo
                     || Qlt_bool up (measuredWidth env el))).
Proof.
  induction coll as [|el rest IH]; intros i t Hpos Hk Hlen; simpl in *; [lia|].
  destruct (decide (k = Z.to_nat (i + pos))) as [->|Hne].
  - rewrite storeWidths_outside by lia.
    unfold typedArraySet. destruct (Z.leb_spec 0 (i + pos)); [|lia].
    rewrite list_lookup_insert_eq by done.
    exists el. rewrite Nat.sub_diag. split; [reflexivity|].
    destruct (Qlt_bool _ _ || Qlt_bool _ _); reflexivity.
  - destruct (IH (i + 1) (typedArraySet t (i + pos)
                (Z.b2z (Qlt_bool (measuredWidth env el) lo
                        || Qlt_bool up (measuredWidth env el)))))
      as (el' & Hel & Hl); [lia | lia | by rewrite typedArraySet_length |].
    exists el'. split; [|exact Hl].
    replace (k - Z.to_nat (i + pos))%nat
      with (S (k - Z.to_nat (i + 1 + pos)))%nat by lia.
    exact Hel.
Qed.

(** The table after a call that finds the helper container. *)
Lemma batchedMetrics_table env st :
  hasHelpers env = true ->
  fontMetrics (snd (_batchedMetrics env st)) =
    storeWidths env (lowerWidth env) (upperWidth env) (metricsPos st) 0
      (seqZ (metricsPos st)
         (Z.min (metricsPos st + 30) 256 - metricsPos st))
      (fontMetrics st).
Proof.
  intros Hh. unfold _batchedMetrics. rewrite Hh. simpl negb. cbv iota.
  unfold FontMetrics.START, FontMetrics.MAX, FontMetrics.BATCH_SIZE.
  destruct (_ >=? 256); reflexivity.
Qed.

(** X9. The measuring loop of [_batchedMetrics] marks each code point of
    its batch by comparing the measured width of its ten-character span with
    the two bounds the call has computed, whatever their values: the entry
    becomes 1 (anomalous) exactly when the width is below the lower or above
    the upper bound, 0 (normal) exactly when it lies between them. *)
Theorem measure_loop_marks (env : MetricsEnv) (lower upper : Q) (t : list Z)
    (pos n k : Z) :
  0 <= pos -> pos <= k < pos + n -> (Z.to_nat k < length t)%nat ->
  let w := measuredWidth env k in
  let entry := storeWidths env lower upper pos 0 (seqZ pos n) t !! Z.to_nat k in
  (entry = Some 1 <-> (w < lower \/ upper < w)%Q) /\
  (entry = Some 0 <-> (lower <= w /\ w <= upper)%Q).
Proof.
  intros Hpos Hk Hlen w entry. subst entry.
  destruct (storeWidths_lookup env lower upper pos (seqZ pos n) (Z.to_nat k) 0 t)
    as (el & Hel & ->).
  { lia. }
  { rewrite length_seqZ. lia. }
  { exact Hlen. }
  apply lookup_seqZ in Hel as [Hel _].
  assert (el = k) as -> by lia. fold w.
  destruct (Qlt_bool w lower) eqn:E1; destruct (Qlt_bool upper w) eqn:E2; simpl.
  all: try apply Qlt_bool_iff in E1; try apply Qlt_bool_iff in E2.
  all: try (assert (N1 : ~ (w < lower)%Q)
              by (intros H; apply Qlt_bool_iff in H; congruence)).
  all: try (assert (N2 : ~ (upper < w)%Q)
              by (intros H; apply Qlt_bool_iff in H; congruence)).
  all: split; (split; intros H).
  all: try discriminate; try reflexivity; try tauto.
  all: try (exfalso;
            first [exact (Qlt_not_le _ _ E1 (proj1 H))
                  | exact (Qlt_not_le _ _ E2 (proj2 H))]).
  split; apply Qnot_lt_le; assumption.
Qed.

Lemma measure_loop_marks_witness :
  let env := mkMetricsEnv true (fun i => if i =? 64 then 90 # 1 else 80 # 1)%Q (8 # 1)%Q in
  storeWidths env (796 # 10) (804 # 10) 62 0 (seqZ 62 30) (replicate 256 255) !! 64%nat
    = Some 1 /\
  storeWidths env (796 # 10) (804 # 10) 62 0 (seqZ 62 30) (replicate 256 255) !! 65%nat
    = Some 0.
Proof.
  cbv zeta. split.
  - destruct (measure_loop_marks
                (mkMetricsEnv true (fun i => if i =? 64 then 90 # 1 else 80 # 1)%Q (8 # 1)%Q)
                (796 # 10) (804 # 10) (replicate 256 255) 62 30 64
                ltac:(lia) ltac:(lia) ltac:(simpl; lia)) as [[_ H] _].
    apply H. right. vm_compute. reflexivity.
  - destruct (measure_loop_marks
                (mkMetricsEnv true (fun i => if i =? 64 then 90 # 1 else 80 # 1)%Q (8 # 1)%Q)
                (796 # 10) (804 # 10) (replicate 256 255) 62 30 65
                ltac:(lia) ltac:(lia) ltac:(simpl; lia)) as [_ [_ H]].
    apply H. split; vm_compute; discriminate.
Defined.

Lemma batchedMetrics_frame env st (k : nat) :
  0 <= metricsPos st ->
  Z.of_nat k < metricsPos st \/ metricsPos st + 30 <= Z.of_nat k ->
  fontMetrics (snd (_batchedMetrics env st)) !! k = fontMetrics st !! k.
Proof.
  intros Hpos Hk. destruct (hasHelpers env) eqn:Hh.
  - rewrite (batchedMetrics_table env st Hh).
    apply storeWidths_outside; [lia|]. rewrite length_seqZ. lia.
  - by rewrite batchedMetrics_no_helpers.
Qed.

Lemma batchedMetrics_length env st :
  length (fontMetrics (snd (_batchedMetrics env st))) = length (fontMetrics st).
Proof.
  destruct (hasHelpers env) eqn:Hh.
  - rewrite (batchedMetrics_table env st Hh). apply storeWidths_length.
  - by rewrite batchedMetrics_no_helpers.
Qed.

Lemma batchedMetrics_pos env st :
  FontMetrics.START <= metricsPos st ->
  FontMetrics.START <= metricsPos (snd (_batchedMetrics env st)) < FontMetrics.MAX.
Proof.
  unfold FontMetrics.START, FontMetrics.MAX. intros Hpos.
  unfold _batchedMetrics. destruct (hasHelpers env); simpl negb; cbv iota.
  - unfold FontMetrics.START, FontMetrics.MAX, FontMetrics.BATCH_SIZE.
    rewrite Z.geb_leb.
    destruct (Z.leb_spec 256 (Z.min (metricsPos st + 30) 256)); simpl; lia.
  - simpl. unfold FontMetrics.START. lia.
Qed.

(** X10. One call of the probe changes at most the 30 entries of its batch:
    every entry below the cursor or 30 or more above it is left as it was,
    and the table keeps its length, whether or not the helper container is
    found. *)
Theorem batch_is_bounded (env : MetricsEnv) (st : MetricsState) :
  0 <= metricsPos st ->
  length (fontMetrics (snd (_batchedMetrics env st))) = length (fontMetrics st) /\
  (forall k : nat,
     Z.of_nat k < metricsPos st \/ metricsPos st + 30 <= Z.of_nat k ->
     fontMetrics (snd (_batchedMetrics env st)) !! k = fontMetrics st !! k).
Proof.
  intros Hpos. split; [apply batchedMetrics_length|].
  intros k Hk. by apply batchedMetrics_frame.
Qed.

Lemma batch_is_bounded_witness :
  let env := mkMetricsEnv true (fun _ => 90 # 1)%Q (8 # 1)%Q in
  let st := mkMetricsState (replicate 256 255) 62 in
  0 <= metricsPos st /\
  fontMetrics (snd (_batchedMetrics env st)) !! 92%nat = fontMetrics st !! 92%nat.
Proof.
  cbv zeta. split; [simpl; lia|].
  apply (batch_is_bounded (mkMetricsEnv true (fun _ => 90 # 1)%Q (8 # 1)%Q)
           (mkMetricsState (replicate 256 255) 62)); simpl; lia.
Defined.

(** X11. Whatever the page looks like at each call, any number of probe
    calls keeps the cursor in [START, MAX), keeps the length of the table
    and never writes an entry of a code point below 32. *)
Theorem probe_keeps_cursor_in_range (envs : list MetricsEnv) (st : MetricsState) :
  FontMetrics.START <= metricsPos st < FontMetrics.MAX ->
  FontMetrics.START <= metricsPos (snd (probeCalls envs st)) < FontMetrics.MAX /\
  length (fontMetrics (snd (probeCalls envs st))) = length (fontMetrics st) /\
  (forall k : nat, Z.of_nat k < FontMetrics.START ->
     fontMetrics (snd (probeCalls envs st)) !! k = fontMetrics st !! k).
Proof.
  revert st. induction envs as [|env rest IH]; intros st Hpos; simpl.
  - split; [exact Hpos|]. split; reflexivity.
  - destruct (_batchedMetrics env st) as [r st1] eqn:E1.
    assert (Hst1 : st1 = snd (_batchedMetrics env st)) by (by rewrite E1).
    destruct (probeCalls rest st1) as [rs st2] eqn:E2. simpl.
    assert (Hst2 : st2 = snd (probeCalls rest st1)) by (by rewrite E2).
    assert (Hpos1 : FontMetrics.START <= metricsPos st1 < FontMetrics.MAX).
    { rewrite Hst1. apply batchedMetrics_pos. lia. }
    destruct (IH st1 Hpos1) as (Hp & Hl & Hk). rewrite <- Hst2 in Hp, Hl, Hk.
    split; [exact Hp|]. split.
    + rewrite Hl, Hst1. apply batchedMetrics_length.
    + intros k Hlt. rewrite (Hk k Hlt), Hst1.
      apply batchedMetrics_frame; unfold FontMetrics.START in *; lia.
Qed.

Lemma probe_keeps_cursor_in_range_witness :
  let bare := mkMetricsEnv false (fun _ => 80 # 1)%Q (8 # 1)%Q in
  let env := mkMetricsEnv true (fun _ => 90 # 1)%Q (8 # 1)%Q in
  FontMetrics.START <= metricsPos initialMetrics < FontMetrics.MAX /\
  fontMetrics (snd (probeCalls [env; bare; env; env] initialMetrics)) !! 31%nat
    = fontMetrics initialMetrics !! 31%nat.
Proof.
  cbv zeta.
  assert (H : FontMetrics.START <= metricsPos initialMetrics < FontMetrics.MAX)
    by (vm_compute; split; [discriminate | reflexivity]).
  split; [exact H|].
  apply (probe_keeps_cursor_in_range _ initialMetrics H). reflexivity.
Defined.

Lemma batchedMetrics_step_exact env st p :
  hasHelpers env = true -> metricsPos st = p ->
  FontMetrics.START <= p < FontMetrics.MAX -> probedExactly st p ->
  exists st',
    _batchedMetrics env st = (p + 30 <? 256, st') /\
    probedExactly st' (Z.min (p + 30) 256) /\
    metricsPos st' = (if p + 30 <? 256 then p + 30 else 32).
Proof.
  intros Hh Hp Hrange [Hup Hrest].
  destruct (batchedMetrics_step env st p Hh Hp Hrange Hup) as (st' & E & Hup' & Hpos').
  exists st'. split; [exact E|]. split; [|exact Hpos'].
  split; [exact Hup'|].
  intros k Hk. assert (Hst' : st' = snd (_batchedMetrics env st)) by (by rewrite E).
  rewrite Hst'. unfold FontMetrics.START, FontMetrics.MAX in *.
  rewrite batchedMetrics_frame by lia. apply Hrest. unfold FontMetrics.MAX. lia.
Qed.

Lemma probeCalls_progress (envs : list MetricsEnv) : forall st p,
  Forall (fun env => hasHelpers env = true) envs ->
  metricsPos st = p -> FontMetrics.START <= p ->
  probedExactly st p ->
  envs <> [] ->
  p + 30 * (Z.of_nat (length envs) - 1) < 256 ->
  probedExactly (snd (probeCalls envs st))
    (Z.min (p + 30 * Z.of_nat (length envs)) 256) /\
  metricsPos (snd (probeCalls envs st))
    = (if p + 30 * Z.of_nat (length envs) <? 256
       then p + 30 * Z.of_nat (length envs) else 32) /\
  fst (probeCalls envs st)
    = map (fun j => p + 30 * (j + 1) <? 256) (seqZ 0 (Z.of_nat (length envs))).
Proof.
  induction envs as [|env rest IH]; intros st p Hall Hp Hstart Hex Hne Hfit;
    [congruence|].
  apply Forall_cons in Hall as [Hh Hall].
  simpl length in *.
  destruct (batchedMetrics_step_exact env st p Hh Hp
              ltac:(unfold FontMetrics.MAX; lia) Hex) as (st1 & E1 & Hex1 & Hp1).
  cbn [probeCalls]. rewrite E1.
  destruct rest as [|env2 rest].
  - simpl. replace (p + 30 * 1) with (p + 30) by lia.
    split; [exact Hex1|]. split; [exact Hp1|].
    replace (p + 30 * (0 + 1)) with (p + 30) by lia. reflexivity.
  - simpl length in *.
    destruct (Z.ltb_spec (p + 30) 256) as [Hlt|Hge]; [|lia].
    replace (Z.min (p + 30) 256) with (p + 30) in Hex1 by lia.
    destruct (IH st1 (p + 30) Hall Hp1 ltac:(lia) Hex1 ltac:(discriminate)
                ltac:(simpl length; lia)) as (H1 & H2 & H3).
    simpl length in H1, H2, H3.
    destruct (probeCalls (env2 :: rest) st1) as [rs st2] eqn:E2.
    simpl fst in *. simpl snd in *.
    replace (p + 30 * Z.of_nat (S (S (length rest))))
      with (p + 30 + 30 * Z.of_nat (S (length rest))) by lia.
    split; [exact H1|]. split; [exact H2|].
    rewrite (seqZ_cons 0) by lia. simpl map.
    replace (p + 30 * (0 + 1)) with (p + 30) by lia.
    destruct (Z.ltb_spec (p + 30) 256); [|lia]. f_equal.
    rewrite H3.
    replace (Z.pred (Z.of_nat (S (S (length rest))))) with (Z.of_nat (S (length rest))) by lia.
    rewrite <- (fmap_add_seqZ 1 0). change (Z.succ 0) with (1 + 0).
    rewrite <- list_fmap_compose. apply list_fmap_ext. intros _ j _. simpl.
    f_equal. lia.
Qed.

(** X12. Probing proceeds in order after a reset.  From any state with a
    256-entry table, [_cacheMetrics] followed by [j] probe calls (1 <= j <= 8),
    each finding the helper container, leaves exactly the code points from 32
    up to (but not including) [min(32 + 30 j, 256)] resolved and all others
    [0xFF]; call number [i] returns true exactly when [32 + 30 i < 256], so
    the first seven return true and the eighth false; the cursor ends at
    [32 + 30 j], or back at 32 after the eighth call. *)
Theorem probe_progress_after_reset (envs : list MetricsEnv) (st : MetricsState) :
  length (fontMetrics st) = 256%nat ->
  Forall (fun env => hasHelpers env = true) envs ->
  (1 <= length envs <= 8)%nat ->
  let j := Z.of_nat (length envs) in
  let result := probeCalls envs (_cacheMetrics st) in
  let reached := Z.min (32 + 30 * j) 256 in
  (forall k, 32 <= k < reached ->
     exists v, fontMetrics (snd result) !! Z.to_nat k = Some v /\ (v = 0 \/ v = 1)) /\
  (forall k, 0 <= k < 32 \/ reached <= k < 256 ->
     fontMetrics (snd result) !! Z.to_nat k = Some 255) /\
  fst result = map (fun i => 32 + 30 * (i + 1) <? 256) (seqZ 0 j) /\
  metricsPos (snd result) = (if 32 + 30 * j <? 256 then 32 + 30 * j else 32).
Proof.
  intros Hlen Hall Hj j result reached. subst j result reached.
  assert (Hex : probedExactly (_cacheMetrics st) 32).
  { unfold _cacheMetrics. rewrite Hlen. split.
    - exact initialMetrics_probedUpTo.
    - intros k Hk. unfold FontMetrics.MAX in Hk. cbn [fontMetrics].
      apply lookup_replicate_2. lia. }
  destruct (probeCalls_progress envs (_cacheMetrics st) 32 Hall eq_refl
              ltac:(unfold FontMetrics.START; lia) Hex
              ltac:(intros ->; simpl in Hj; lia) ltac:(lia))
    as ([(_ & Hlow & Hres) Hrest] & Hpos & Hr).
  unfold FontMetrics.START, FontMetrics.MAX in *.
  split; [exact Hres|]. split.
  - intros k [Hk|Hk]; [by apply Hlow | by apply Hrest].
  - split; [exact Hr | exact Hpos].
Qed.

Lemma probe_progress_after_reset_witness :
  let env := mkMetricsEnv true (fun _ => 80 # 1)%Q (8 # 1)%Q in
  let st := mkMetricsState (replicate 256 1) 100 in
  length (fontMetrics st) = 256%nat /\
  fst (probeCalls [env; env] (_cacheMetrics st)) = [true; true] /\
  metricsPos (snd (probeCalls [env; env] (_cacheMetrics st))) = 92.
Proof.
  cbv zeta. split; [reflexivity|].
  destruct (probe_progress_after_reset
              (replicate 2 (mkMetricsEnv true (fun _ => 80 # 1)%Q (8 # 1)%Q))
              (mkMetricsState (replicate 256 1) 100) eq_refl
              ltac:(repeat constructor) ltac:(simpl; lia))
    as (_ & _ & Hr & Hp).
  split; [exact Hr | exact Hp].
Defined.

End DomRendererMoreProps.

(** * Properties of the DOM renderer's rows *)

Module DomRendererRowsProps.
Import DomRenderer DomRendererProps DomRendererRows.
Import ForegroundRenderLayer (Completion, Normal, Thrown, forEach, bind).

Section RowsProps.

Context {LineData : Type}.
Implicit Types (v : View (LineData := LineData)) (r : Renderer (LineData := LineData)).

Lemma rowElementAt_Some r y el :
  rowElementAt r y = Some el ->
  0 <= y < Z.of_nat (length (rowElements (rowsOf r))) /\
  rowElements (rowsOf r) !! Z.to_nat y = Some el.
Proof.
  unfold rowElementAt. destruct (Z.leb_spec 0 y) as [Hle|Hgt]; [|discriminate].
  intros H. split; [|exact H]. apply lookup_lt_Some in H. lia.
Qed.

Lemma rowElementAt_is_Some r y :
  0 <= y < Z.of_nat (length (rowElements (rowsOf r))) ->
  is_Some (rowElementAt r y).
Proof.
  intros Hy. unfold rowElementAt. destruct (Z.leb_spec 0 y) as [Hle|Hgt]; [|lia].
  apply lookup_lt_is_Some. lia.
Qed.

Lemma rowElementAt_None r y :
  y < 0 \/ Z.of_nat (length (rowElements (rowsOf r))) <= y ->
  rowElementAt r y = None.
Proof.
  intros Hy. unfold rowElementAt.
  destruct (Z.leb_spec 0 y) as [Hle|Hgt]; [|reflexivity].
  apply lookup_ge_None. lia.
Qed.

(** Distinct rows have distinct row elements. *)
Lemma rowElementAt_inj r y y' el :
  NoDup (rowElements (rowsOf r)) ->
  rowElementAt r y = Some el -> rowElementAt r y' = Some el -> y = y'.
Proof.
  intros Hnd H1 H2.
  apply rowElementAt_Some in H1 as [Hy H1].
  apply rowElementAt_Some in H2 as [Hy' H2].
  assert (Z.to_nat y = Z.to_nat y') by (eapply NoDup_lookup; eauto). lia.
Qed.

Lemma renderRows_loop v (idxs : list Z) : forall r,
  NoDup idxs -> NoDup (rowElements (rowsOf r)) ->
  (forall y, y ∈ idxs -> is_Some (rowElementAt r y)) ->
  exists r',
    forEach idxs (renderRowsBody v) r = Normal r' /\
    sameFrame r r' /\ linkState r' = linkState r /\
    (forall y el, y ∈ idxs -> rowElementAt r y = Some el ->
       rowChildren r' !! el = Some (createRow v r (y + ydisp (service v)))) /\
    (forall el, (forall y, y ∈ idxs -> rowElementAt r y <> Some el) ->
       rowChildren r' !! el = rowChildren r !! el).
Proof.
  induction idxs as [|y0 rest IH]; intros r Hidx Hnd Hall.
  - exists r. simpl. repeat split; try reflexivity.
    intros y el Hy. by apply not_elem_of_nil in Hy.
  - apply NoDup_cons in Hidx as [Hy0 Hrest].
    destruct (Hall y0 ltac:(apply list_elem_of_here)) as [el0 Hel0].
    simpl. unfold renderRowsBody at 1. rewrite Hel0. simpl.
    set (r1 := replaceChildren r el0 (createRow v r (y0 + ydisp (service v)))).
    destruct (IH r1 Hrest Hnd) as (r' & Hrun & Hframe & Hls & Hin & Hout).
    { intros y Hy. apply Hall. by apply list_elem_of_further. }
    exists r'. split; [exact Hrun|]. split; [exact Hframe|]. split; [exact Hls|].
    split.
    + intros y el Hy Hel. apply elem_of_cons in Hy as [->|Hy].
      * assert (el = el0) as -> by congruence.
        rewrite Hout.
        { subst r1. simpl. apply lookup_insert_eq. }
        intros y' Hy' Hel'. change (rowElementAt r y' = Some el0) in Hel'.
        assert (y' = y0) by (eapply rowElementAt_inj; eauto). congruence.
      * exact (Hin y el Hy Hel).
    + intros el Hel. rewrite Hout.
      * subst r1. simpl. apply lookup_insert_ne. intros ->.
        exact (Hel y0 ltac:(apply list_elem_of_here) Hel0).
      * intros y Hy. apply Hel. by apply list_elem_of_further.
Qed.

Lemma renderRows_loop_throws v (idxs : list Z) : forall r y,
  y ∈ idxs -> rowElementAt r y = None ->
  exists r',
    forEach idxs (renderRowsBody v) r = Thrown r' /\
    sameFrame r r' /\ linkState r' = linkState r.
Proof.
  induction idxs as [|y0 rest IH]; intros r y Hy Hnone.
  - by apply not_elem_of_nil in Hy.
  - simpl. unfold renderRowsBody at 1.
    destruct (rowElementAt r y0) as [el0|] eqn:Hel0.
    + simpl. apply elem_of_cons in Hy as [->|Hy]; [congruence|].
      destruct (IH (replaceChildren r el0 (createRow v r (y0 + ydisp (service v))))
                  y Hy Hnone) as (r' & Hrun & Hframe & Hls).
      exists r'. split; [exact Hrun|]. split; [exact Hframe | exact Hls].
    + exists r. simpl. repeat split; reflexivity.
Qed.

(** X13. [renderRows(start, end)] over rows that all have a row element
    returns normally; afterwards each row element of the range holds the
    children [createRow] made for its buffer row [y + ydisp], with the cursor
    column capped at [cols - 1] and the cursor flag set on the row
    [ybase + y] only, and every other row element keeps its children. *)
Theorem renderRows_renders_range v (start end_ : Z) r :
  NoDup (rowElements (rowsOf r)) ->
  0 <= start -> end_ < Z.of_nat (length (rowElements (rowsOf r))) ->
  exists r',
    renderRows v start end_ r = Normal r' /\
    rowsOf r' = rowsOf r /\ linkState r' = linkState r /\
    (forall y el, start <= y <= end_ -> rowElementAt r y = Some el ->
       exists call,
         rowChildren r' !! el = Some call /\
         call = createRow v r (y + ydisp (service v)) /\
         callRow call = y + ydisp (service v) /\
         callCursorX call <= cols (service v) - 1 /\
         (callIsCursorRow call = true <->
            y + ydisp (service v) = ybase v + bufferY v)) /\
    (forall el, (forall y, start <= y <= end_ -> rowElementAt r y <> Some el) ->
       rowChildren r' !! el = rowChildren r !! el).
Proof.
  intros Hnd Hstart Hend. unfold renderRows.
  destruct (renderRows_loop v (seqZ start (end_ - start + 1)) r
              (NoDup_seqZ _ _) Hnd) as (r' & Hrun & (Hrows & _) & Hls & Hin & Hout).
  { intros y Hy. apply elem_of_seqZ in Hy. apply rowElementAt_is_Some. lia. }
  exists r'. split; [exact Hrun|]. split; [exact Hrows|]. split; [exact Hls|].
  split.
  - intros y el Hy Hel. eexists. split.
    + apply (Hin y el); [apply elem_of_seqZ; lia | exact Hel].
    + split; [reflexivity|]. unfold createRow.
      cbn [callRow callCursorX callIsCursorRow]. split; [reflexivity|].
      split; [apply Z.le_min_r | apply Z.eqb_eq].
  - intros el Hel. apply Hout. intros y Hy. apply elem_of_seqZ in Hy.
    apply Hel. lia.
Qed.

(** X14. [renderRows(start, end)] throws when a row of the range has no
    row element (a row index below 0 or at or beyond the number of row
    elements); the row elements themselves are not changed. *)
Theorem renderRows_missing_row_throws v (start end_ y : Z) r :
  start <= y <= end_ ->
  y < 0 \/ Z.of_nat (length (rowElements (rowsOf r))) <= y ->
  exists r', renderRows v start end_ r = Thrown r' /\ rowsOf r' = rowsOf r.
Proof.
  intros Hy Hmiss. unfold renderRows.
  destruct (renderRows_loop_throws v (seqZ start (end_ - start + 1)) r y)
    as (r' & Hrun & (Hrows & _) & _).
  - apply elem_of_seqZ. lia.
  - by apply rowElementAt_None.
  - exists r'. split; [exact Hrun | exact Hrows].
Qed.

(** X15. [handleSelectionChanged] on a renderer that has one row element
    per viewport row returns normally: every row is rendered again with the
    new selection known to the row factory, and the selection container then
    holds exactly the selection rectangles.  With fewer row elements than
    viewport rows it throws while rendering, and the selection container is
    left empty. *)
Theorem handleSelectionChanged_rerenders v (d : CellDimensions)
    (start end_ : option (Z * Z)) (columnSelectMode : bool) r :
  NoDup (rowElements (rowsOf r)) ->
  (Z.of_nat (length (rowElements (rowsOf r))) = rows (service v) ->
   exists r',
     handleSelectionChanged v d start end_ columnSelectMode r = Normal r' /\
     rowsOf r' = rowsOf r /\
     selectionChildren r' =
       DomRenderer.handleSelectionChanged (service v) d start end_ columnSelectMode /\
     (forall y el, 0 <= y < rows (service v) -> rowElementAt r y = Some el ->
        exists call,
          rowChildren r' !! el = Some call /\
          callRow call = y + ydisp (service v) /\
          callSelection call = (start, end_, columnSelectMode))) /\
  (Z.of_nat (length (rowElements (rowsOf r))) < rows (service v) ->
   exists r',
     handleSelectionChanged v d start end_ columnSelectMode r = Thrown r' /\
     selectionChildren r' = []).
Proof.
  intros Hnd. unfold handleSelectionChanged, renderRows.
  set (r0 := mkRenderer (rowsOf r) (rowChildren r) (linkState r) (metricsOf r)
               (start, end_, columnSelectMode) []).
  split.
  - intros Hlen.
    destruct (renderRows_loop v (seqZ 0 (rows (service v) - 1 - 0 + 1)) r0
                (NoDup_seqZ _ _) Hnd) as (r' & Hrun & (Hrows & _ & Hsel & _) & _ & Hin & _).
    { intros y Hy. apply elem_of_seqZ in Hy. apply rowElementAt_is_Some.
      subst r0. simpl. lia. }
    rewrite Hrun. simpl. eexists. split; [reflexivity|]. simpl.
    split; [exact Hrows|]. split; [reflexivity|].
    intros y el Hy Hel. eexists. split.
    + apply (Hin y el); [apply elem_of_seqZ; lia | exact Hel].
    + split; reflexivity.
  - intros Hlen.
    destruct (renderRows_loop_throws v (seqZ 0 (rows (service v) - 1 - 0 + 1)) r0
                (Z.of_nat (length (rowElements (rowsOf r)))))
      as (r' & Hrun & (_ & _ & _ & Hsc) & _).
    + apply elem_of_seqZ. lia.
    + apply rowElementAt_None. right. subst r0. simpl. lia.
    + rewrite Hrun. simpl. exists r'. split; [reflexivity | exact Hsc].
Qed.

Lemma linkStateAt_again x x2 y y2 cols enabled (ls : list Z) i j :
  length ls = 3%nat ->
  linkStateAt x x2 y y2 cols enabled (linkStateAt x x2 y y2 cols enabled ls j) i
    = linkStateAt x x2 y y2 cols enabled ls i.
Proof.
  intros Hlen. destruct ls as [|l0 [|l1 [|l2 [|]]]]; try discriminate.
  unfold linkStateAt. destruct enabled; reflexivity.
Qed.

Lemma linkStateAt_length x x2 y y2 cols enabled (ls : list Z) i :
  length (linkStateAt x x2 y y2 cols enabled ls i) = length ls.
Proof.
  unfold linkStateAt. destruct enabled; [|reflexivity].
  by rewrite !typedArraySet_length.
Qed.

Lemma linkStateAt_head x x2 y y2 cols enabled (ls : list Z) i :
  linkStateAt x x2 y y2 cols enabled ls i !! 0%nat = ls !! 0%nat.
Proof.
  unfold linkStateAt. destruct enabled; [|reflexivity].
  unfold typedArraySet. simpl. by rewrite !list_lookup_insert_ne.
Qed.

Lemma underlineLoop_spec v (x x2 y y2 cols : Z) (enabled : bool) (n : nat) :
  forall y0 r,
  0 <= y0 -> NoDup (rowElements (rowsOf r)) -> length (linkState r) = 3%nat ->
  let r' := underlineLoop v x x2 y y2 cols enabled (seqZ y0 (Z.of_nat n)) r in
  sameFrame r r' /\
  length (linkState r') = 3%nat /\
  linkState r' !! 0%nat = linkState r !! 0%nat /\
  (enabled = false -> linkState r' = linkState r) /\
  (forall i el, y0 <= i < y0 + Z.of_nat n -> rowElementAt r i = Some el ->
     rowChildren r' !! el =
       Some (createRow v
               (withLinkState r (linkStateAt x x2 y y2 cols enabled (linkState r) i))
               (i + ydisp (service v)))) /\
  (forall el, (forall i, y0 <= i < y0 + Z.of_nat n -> rowElementAt r i <> Some el) ->
     rowChildren r' !! el = rowChildren r !! el).
Proof.
  induction n as [|n IH]; intros y0 r Hy0 Hnd Hlen r'.
  - subst r'. simpl. split; [by repeat split|]. split; [exact Hlen|].
    split; [reflexivity|]. split; [reflexivity|].
    split; [intros i el Hi; lia | reflexivity].
  - subst r'. rewrite seqZ_cons by lia.
    replace (Z.pred (Z.of_nat (S n))) with (Z.of_nat n) by lia.
    cbn [underlineLoop].
    destruct (rowElementAt r y0) as [el0|] eqn:Hel0.
    + set (r1 := replaceChildren _ el0 _).
      assert (Hr1 : r1 = replaceChildren
                (withLinkState r (linkStateAt x x2 y y2 cols enabled (linkState r) y0))
                el0
                (createRow v
                   (withLinkState r (linkStateAt x x2 y y2 cols enabled (linkState r) y0))
                   (y0 + ydisp (service v)))).
      { subst r1. unfold linkStateAt. destruct enabled; [reflexivity|].
        destruct r; reflexivity. }
      clearbody r1. subst r1.
      set (r1 := replaceChildren _ el0 _).
      destruct (IH (Z.succ y0) r1 ltac:(lia) Hnd
                  ltac:(subst r1; simpl; by rewrite linkStateAt_length))
        as (Hframe & Hlen' & Hhead & Hoff & Hin & Hout).
      split; [exact Hframe|]. split; [exact Hlen'|]. split.
      { rewrite Hhead. subst r1. simpl. apply linkStateAt_head. }
      split.
      { intros ->. rewrite (Hoff eq_refl). reflexivity. }
      split.
      * intros i el Hi Hel.
        destruct (decide (i = y0)) as [->|Hne].
        -- assert (el = el0) as -> by congruence.
           rewrite Hout.
           { subst r1. simpl. apply lookup_insert_eq. }
           intros i' Hi' Hel'. change (rowElementAt r i' = Some el0) in Hel'.
           assert (i' = y0) by (eapply rowElementAt_inj; eauto). lia.
        -- rewrite (Hin i el ltac:(lia) Hel). subst r1. simpl linkState.
           rewrite linkStateAt_again by exact Hlen. reflexivity.
      * intros el Hel. rewrite Hout.
        -- subst r1. simpl. apply lookup_insert_ne. intros ->.
           exact (Hel y0 ltac:(lia) Hel0).
        -- intros i Hi. apply Hel. lia.
    + split; [by repeat split|]. split; [exact Hlen|].
      split; [reflexivity|]. split; [reflexivity|].
      split; [|reflexivity].
      intros i el Hi Hel. apply rowElementAt_Some in Hel as [Hel _].
      assert (rowElementAt r y0 <> None); [|congruence].
      assert (is_Some (rowElementAt r y0)) as [? ->]; [|done].
      apply rowElementAt_is_Some. lia.
Qed.

(** X16. [_setCellUnderline] renders again the rows of the link range,
    clipped to the viewport, that have a row element, and no other row.
    [createRow] is called for row [i] with the link state
    [[enabled, first column, last column]], the entries stored modulo 256:
    the first column is [x] on the first row of the range and 0 on the
    others, the last column is [x2 - 1] on the last row and [cols - 1] on the
    others, with [x] (or [x2]) replaced by 0 when the range starts (or ends)
    above the viewport; when the underline is disabled the two columns stay
    as they were.  When the call returns the row elements are unchanged and
    the enabled entry of the link state is 0 again. *)
Theorem setCellUnderline_rows v (x x2 y y2 cols : Z) (enabled : bool) r (l0 l1 l2 : Z) :
  NoDup (rowElements (rowsOf r)) ->
  linkState r = [l0; l1; l2] ->
  let r' := _setCellUnderline v x x2 y y2 cols enabled r in
  let first := if y <? 0 then 0 else x in
  let last := if y2 <? 0 then 0 else x2 in
  let cols' := Z.min cols (DomRenderer.cols (service v)) in
  rowsOf r' = rowsOf r /\
  linkState r' !! 0%nat = Some 0 /\
  (forall i el, clipRow v y <= i <= clipRow v y2 -> rowElementAt r i = Some el ->
     exists call,
       rowChildren r' !! el = Some call /\
       callRow call = i + ydisp (service v) /\
       callLinkState call =
         (if enabled then
            [1; (if i =? clipRow v y then first else 0) mod 256;
                ((if i =? clipRow v y2 then last else cols') - 1) mod 256]
          else [0; l1; l2])) /\
  (forall el, (forall i, clipRow v y <= i <= clipRow v y2 ->
                         rowElementAt r i <> Some el) ->
     rowChildren r' !! el = rowChildren r !! el).
Proof.
  intros Hnd Hls r' first last cols'. subst r'. unfold _setCellUnderline.
  fold first last cols' (clipRow v y) (clipRow v y2).
  set (r0 := withLinkState r (typedArraySet (linkState r) 0 (Z.b2z enabled))).
  assert (Hls0 : linkState r0 = [Z.b2z enabled; l1; l2]).
  { subst r0. simpl. rewrite Hls. destruct enabled; reflexivity. }
  assert (Hseq : seqZ (clipRow v y) (clipRow v y2 - clipRow v y + 1)
                 = seqZ (clipRow v y)
                     (Z.of_nat (Z.to_nat (clipRow v y2 - clipRow v y + 1)))).
  { destruct (Z_le_dec 0 (clipRow v y2 - clipRow v y + 1)).
    - by rewrite Z2Nat.id.
    - rewrite !seqZ_nil by lia. reflexivity. }
  rewrite Hseq.
  destruct (underlineLoop_spec v first last (clipRow v y) (clipRow v y2) cols' enabled
              (Z.to_nat (clipRow v y2 - clipRow v y + 1)) (clipRow v y) r0
              ltac:(unfold clipRow; lia) Hnd ltac:(by rewrite Hls0))
    as ((Hrows & _) & Hlen & Hhead & _ & Hin & Hout).
  set (r1 := underlineLoop _ _ _ _ _ _ _ _ _) in *.
  split; [exact Hrows|]. split.
  { simpl. unfold typedArraySet. simpl.
    apply list_lookup_insert_eq. lia. }
  split.
  - intros i el Hi Hel. eexists. split.
    + simpl. apply (Hin i el); [lia | exact Hel].
    + split; [reflexivity|].
      change (linkStateAt first last (clipRow v y) (clipRow v y2) cols' enabled
                (linkState r0) i = (if enabled
                  then [1; (if i =? clipRow v y then first else 0) mod 256;
                        ((if i =? clipRow v y2 then last else cols') - 1) mod 256]
                  else [0; l1; l2])).
      rewrite Hls0. unfold linkStateAt. destruct enabled; reflexivity.
  - intros el Hel. simpl. rewrite Hout; [reflexivity|].
    intros i Hi. apply Hel. lia.
Qed.

Lemma forEach_underlineLoop v (x x2 y y2 cols : Z) (idxs : list Z) : forall r,
  (forall i, i ∈ idxs -> is_Some (rowElementAt r i)) ->
  forEach idxs (renderRowsBody v) r
    = Normal (underlineLoop v x x2 y y2 cols false idxs r).
Proof.
  induction idxs as [|i rest IH]; intros r Hall; [reflexivity|].
  destruct (Hall i ltac:(apply list_elem_of_here)) as [el Hel].
  simpl. unfold renderRowsBody at 1. rewrite Hel. simpl.
  apply IH. intros j Hj. apply Hall. by apply list_elem_of_further.
Qed.

Lemma underlineLoop_disabled_linkState v (x x2 y y2 cols : Z) (idxs : list Z) :
  forall r, linkState (underlineLoop v x x2 y y2 cols false idxs r) = linkState r.
Proof.
  induction idxs as [|i rest IH]; intros r; [reflexivity|].
  simpl. destruct (rowElementAt r i); [|reflexivity]. by rewrite IH.
Qed.

(** X17. Removing a link underline is a plain re-render: for a link range
    [y <= y2] inside the viewport whose rows all have a row element, and with
    the enabled entry of the link state at 0 (as every call of
    [_setCellUnderline] leaves it), [_setCellUnderline(..., false)] ends in
    the state in which [renderRows(y, y2)] ends. *)
Theorem link_leave_is_renderRows v (x x2 y y2 cols : Z) r (l1 l2 : Z) :
  linkState r = [0; l1; l2] ->
  0 <= y <= y2 -> y2 <= rows (service v) - 1 ->
  y2 < Z.of_nat (length (rowElements (rowsOf r))) ->
  renderRows v y y2 r = Normal (_setCellUnderline v x x2 y y2 cols false r).
Proof.
  intros Hls Hy Hy2 Hlen. unfold renderRows, _setCellUnderline.
  replace (Z.max (Z.min y (rows (service v) - 1)) 0) with y by lia.
  replace (Z.max (Z.min y2 (rows (service v) - 1)) 0) with y2 by lia.
  assert (Hr0 : withLinkState r (typedArraySet (linkState r) 0 (Z.b2z false)) = r).
  { destruct r. simpl in *. subst. reflexivity. }
  rewrite Hr0.
  rewrite (forEach_underlineLoop v
             (if y <? 0 then 0 else x) (if y2 <? 0 then 0 else x2) y y2
             (Z.min cols (DomRenderer.cols (service v)))).
  2: { intros i Hi. apply elem_of_seqZ in Hi. apply rowElementAt_is_Some. lia. }
  f_equal.
  pose proof (underlineLoop_disabled_linkState v
                (if y <? 0 then 0 else x) (if y2 <? 0 then 0 else x2) y y2
                (Z.min cols (DomRenderer.cols (service v)))
                (seqZ y (y2 - y + 1)) r) as Hls1.
  rewrite Hls in Hls1.
  destruct (underlineLoop _ _ _ _ _ _ _ _ _) as [rs ch ls ms fs sc].
  simpl in Hls1. subst ls. reflexivity.
Qed.

(** [clear] removes one entry per row element. *)
Lemma clear_fold (els : list nat) : forall (m : gmap nat (CreateRowCall (LineData := LineData))) el,
  foldl (fun m e => delete e m) m els !! el
    = if decide (el ∈ els) then None else m !! el.
Proof.
  induction els as [|e rest IH]; intros m el; simpl.
  - destruct (decide (el ∈ [])) as [H|_]; [by apply not_elem_of_nil in H | done].
  - rewrite IH. destruct (decide (el ∈ rest)) as [Hin|Hnin].
    + rewrite decide_True by (by apply list_elem_of_further). reflexivity.
    + destruct (decide (el = e)) as [->|Hne].
      * rewrite decide_True by apply list_elem_of_here. apply lookup_delete_eq.
      * rewrite decide_False by (rewrite elem_of_cons; tauto).
        by apply lookup_delete_ne.
Qed.

(** X18. [clear] empties every row element and nothing else: afterwards no
    row element has children, the children of any other node are as before,
    and the row elements themselves stay.  Rendering the rows after [clear]
    gives each rendered row the same children as rendering without it. *)
Theorem clear_empties_rows v (start end_ : Z) r :
  NoDup (rowElements (rowsOf r)) ->
  0 <= start -> end_ < Z.of_nat (length (rowElements (rowsOf r))) ->
  rowsOf (clear r) = rowsOf r /\
  (forall el, el ∈ rowElements (rowsOf r) -> rowChildren (clear r) !! el = None) /\
  (forall el, el ∉ rowElements (rowsOf r) ->
     rowChildren (clear r) !! el = rowChildren r !! el) /\
  exists r1 r2,
    renderRows v start end_ r = Normal r1 /\
    renderRows v start end_ (clear r) = Normal r2 /\
    (forall y el, start <= y <= end_ -> rowElementAt r y = Some el ->
       rowChildren r2 !! el = rowChildren r1 !! el).
Proof.
  intros Hnd Hstart Hend. split; [reflexivity|]. split; [|split].
  - intros el Hel. simpl. rewrite clear_fold. by rewrite decide_True.
  - intros el Hel. simpl. rewrite clear_fold. by rewrite decide_False.
  - unfold renderRows.
    destruct (renderRows_loop v (seqZ start (end_ - start + 1)) r
                (NoDup_seqZ _ _) Hnd) as (r1 & Hrun1 & _ & _ & Hin1 & _).
    { intros y Hy. apply elem_of_seqZ in Hy. apply rowElementAt_is_Some. lia. }
    destruct (renderRows_loop v (seqZ start (end_ - start + 1)) (clear r)
                (NoDup_seqZ _ _) Hnd) as (r2 & Hrun2 & _ & _ & Hin2 & _).
    { intros y Hy. apply elem_of_seqZ in Hy. apply rowElementAt_is_Some.
      simpl. lia. }
    exists r1, r2. split; [exact Hrun1|]. split; [exact Hrun2|].
    intros y el Hy Hel.
    rewrite (Hin1 y el) by (try apply elem_of_seqZ; try lia; exact Hel).
    rewrite (Hin2 y el) by (try apply elem_of_seqZ; try lia; exact Hel).
    reflexivity.
Qed.


End RowsProps.

Lemma exampleRenderer_NoDup : NoDup (rowElements (rowsOf exampleRenderer)).
Proof. compute_done. Qed.

Lemma renderRows_renders_range_witness :
  NoDup (rowElements (rowsOf exampleRenderer)) /\
  exists r',
    renderRows exampleView 0 2 exampleRenderer = Normal r' /\
    exists call,
      rowChildren r' !! 1%nat = Some call /\
      callRow call = 11 /\ callIsCursorRow call = true.
Proof.
  split; [exact exampleRenderer_NoDup|].
  destruct (renderRows_renders_range exampleView 0 2 exampleRenderer
              exampleRenderer_NoDup ltac:(lia) ltac:(simpl; lia))
    as (r' & Hrun & _ & _ & Hin & _).
  exists r'. split; [exact Hrun|].
  destruct (Hin 1 1%nat ltac:(lia) eq_refl) as (call & Hc & _ & Hrow & _ & Hcur).
  exists call. split; [exact Hc|]. split; [exact Hrow|].
  apply Hcur. reflexivity.
Defined.

Lemma renderRows_missing_row_throws_witness :
  (3 < 0 \/ Z.of_nat (length (rowElements (rowsOf exampleRenderer))) <= 3) /\
  exists r', renderRows exampleView 0 3 exampleRenderer = Thrown r'.
Proof.
  split; [right; simpl; lia|].
  destruct (renderRows_missing_row_throws exampleView 0 3 3 exampleRenderer
              ltac:(lia) ltac:(right; simpl; lia)) as (r' & Hrun & _).
  exists r'. exact Hrun.
Defined.

Lemma handleSelectionChanged_rerenders_witness :
  let d := mkCellDimensions (8 # 1) (17 # 1) in
  NoDup (rowElements (rowsOf exampleRenderer)) /\
  Z.of_nat (length (rowElements (rowsOf exampleRenderer))) = rows (service exampleView) /\
  exists r',
    handleSelectionChanged exampleView d (Some (1, 10)) (Some (4, 10)) false
      exampleRenderer = Normal r' /\
    length (selectionChildren r') = 2%nat.
Proof.
  cbv zeta. split; [exact exampleRenderer_NoDup|]. split; [reflexivity|].
  destruct (handleSelectionChanged_rerenders exampleView
              (mkCellDimensions (8 # 1) (17 # 1)) (Some (1, 10)) (Some (4, 10)) false
              exampleRenderer exampleRenderer_NoDup) as [Hok _].
  destruct (Hok eq_refl) as (r' & Hrun & _ & Hsel & _).
  exists r'. split; [exact Hrun|]. rewrite Hsel. reflexivity.
Defined.

Lemma setCellUnderline_rows_witness :
  let r' := _setCellUnderline exampleView 5 9 (-1) 1 80 true exampleRenderer in
  NoDup (rowElements (rowsOf exampleRenderer)) /\
  linkState exampleRenderer = [0; 0; 0] /\
  linkState r' !! 0%nat = Some 0 /\
  exists call,
    rowChildren r' !! 1%nat = Some call /\
    callLinkState call = [1; 0; 8].
Proof.
  cbv zeta.
  destruct (setCellUnderline_rows exampleView 5 9 (-1) 1 80 true exampleRenderer
              0 0 0 exampleRenderer_NoDup eq_refl) as (_ & Hflag & Hin & _).
  split; [exact exampleRenderer_NoDup|]. split; [reflexivity|].
  split; [exact Hflag|].
  destruct (Hin 1 1%nat ltac:(vm_compute; split; discriminate) eq_refl)
    as (call & Hc & _ & Hl).
  exists call. split; [exact Hc|]. rewrite Hl. reflexivity.
Defined.

Lemma link_leave_is_renderRows_witness :
  linkState exampleRenderer = [0; 0; 0] /\
  renderRows exampleView 0 1 exampleRenderer
    = Normal (_setCellUnderline exampleView 5 9 0 1 80 false exampleRenderer).
Proof.
  split; [reflexivity|].
  apply (link_leave_is_renderRows exampleView 5 9 0 1 80 exampleRenderer 0 0);
    [reflexivity | lia | simpl; lia | simpl; lia].
Defined.

Lemma clear_empties_rows_witness :
  NoDup (rowElements (rowsOf exampleRenderer)) /\
  rowChildren (clear exampleRenderer) !! 2%nat = None.
Proof.
  split; [exact exampleRenderer_NoDup|].
  destruct (clear_empties_rows exampleView 0 2 exampleRenderer
              exampleRenderer_NoDup ltac:(lia) ltac:(simpl; lia)) as (_ & Hin & _).
  apply Hin. simpl. set_solver.
Defined.

End DomRendererRowsProps.

(** * Further properties of the canvas foreground layer *)

Module ForegroundRenderLayerMoreProps.
Import ForegroundRenderLayer ForegroundRenderLayerProps ForegroundRenderLayerMore.

Lemma toInt32_small (z : Z) : - 2 ^ 31 <= z < 2 ^ 31 -> toInt32 z = z.
Proof.
  intros Hz. unfold toInt32.
  rewrite Z.mod_small by lia. lia.
Qed.

Lemma fgOf_mod (attr : Z) : fgOf attr = Z.shiftr (toInt32 attr) 9 mod 512.
Proof.
  unfold fgOf, js_and, js_shr.
  change (9 mod 32) with 9. change (toInt32 511) with (Z.ones 9).
  assert (Hr : - 2 ^ 31 <= Z.shiftr (toInt32 attr) 9 < 2 ^ 31).
  { rewrite Z.shiftr_div_pow2 by lia.
    assert (- 2 ^ 31 <= toInt32 attr < 2 ^ 31).
    { unfold toInt32. pose proof (Z.mod_pos_bound (attr + 2 ^ 31) (2 ^ 32)). lia. }
    split.
    - apply Z.div_le_lower_bound; lia.
    - apply Z.div_lt_upper_bound; lia. }
  rewrite (toInt32_small _ Hr), Z.land_ones by lia. reflexivity.
Qed.

Lemma fgOf_bounds (attr : Z) : 0 <= fgOf attr < 512.
Proof. rewrite fgOf_mod. apply Z.mod_pos_bound. lia. Qed.

Lemma colorIndexOf_bounds (BOLD attr : Z) :
  0 <= colorIndexOf (boldFg BOLD attr) <= 16.
Proof.
  pose proof (fgOf_bounds attr) as Hfg.
  unfold colorIndexOf, boldFg.
  destruct (isBold BOLD (flagsOf attr)); cbn [andb];
    destruct (Z.ltb_spec (fgOf attr) 8); cbn [andb];
    repeat match goal with |- context [?a <? ?b] => destruct (Z.ltb_spec a b) end;
    lia.
Qed.

(** X19. Whatever the attribute word and the BOLD mask, the foreground
    index read from the word lies in 0..511 and the index of the colour row
    computed for the blit lies in 0..16. *)
Theorem color_row_index_bounds (BOLD attr : Z) :
  0 <= fgOf attr < 512 /\
  0 <= colorIndexOf (boldFg BOLD attr) <= 16.
Proof. split; [apply fgOf_bounds | apply colorIndexOf_bounds]. Qed.

(** X20. The attribute word is decoded by position: for a word packed as
    [flags * 2^18 + fg * 2^9 + bg] with [fg] and [bg] below 512 and [flags]
    below 2^13, the foreground index read is [fg] and the flags read are
    [flags], whatever [bg] is. *)
Theorem attr_decode (flags fg bg : Z) :
  0 <= flags < 2 ^ 13 -> 0 <= fg < 512 -> 0 <= bg < 512 ->
  fgOf (flags * 2 ^ 18 + fg * 2 ^ 9 + bg) = fg /\
  flagsOf (flags * 2 ^ 18 + fg * 2 ^ 9 + bg) = flags.
Proof.
  intros Hflags Hfg Hbg.
  set (attr := flags * 2 ^ 18 + fg * 2 ^ 9 + bg).
  assert (Hattr : 0 <= attr < 2 ^ 31) by (subst attr; lia).
  split.
  - rewrite fgOf_mod, toInt32_small by lia.
    rewrite Z.shiftr_div_pow2 by lia.
    assert (Hdiv : attr / 2 ^ 9 = flags * 2 ^ 9 + fg).
    { symmetry. apply (Z.div_unique attr (2 ^ 9) _ bg); [lia|]. subst attr. lia. }
    rewrite Hdiv. symmetry. apply (Z.mod_unique _ 512 flags fg); lia.
  - unfold flagsOf, js_shr. change (18 mod 32) with 18.
    rewrite toInt32_small by lia. rewrite Z.shiftr_div_pow2 by lia.
    symmetry. apply (Z.div_unique attr (2 ^ 18) _ (fg * 2 ^ 9 + bg)); [lia|].
    subst attr. lia.
Qed.

Lemma attr_decode_witness :
  0 <= 1 < 2 ^ 13 /\ 0 <= 3 < 512 /\ 0 <= 257 < 512 /\
  fgOf (1 * 2 ^ 18 + 3 * 2 ^ 9 + 257) = 3 /\
  flagsOf (1 * 2 ^ 18 + 3 * 2 ^ 9 + 257) = 1.
Proof.
  split; [lia|]. split; [lia|]. split; [lia|].
  apply attr_decode; lia.
Defined.

Section AtlasProps.

Variable devicePixelRatio : Q.
Variable numberToString : Q -> string.
Variable parseFont : string -> option string.
Variable TANGO_COLORS : Z -> string.

Local Abbreviation baseStyle :=
  (atlasBaseStyle devicePixelRatio numberToString parseFont).
Local Abbreviation rowStyle :=
  (atlasRowStyle devicePixelRatio numberToString parseFont TANGO_COLORS).
Local Abbreviation boldFont :=
  (font (setFont parseFont baseStyle (String.append "bold " (font baseStyle)))).

Lemma baseStyle_fill : fillStyle baseStyle = "#ffffff"%string.
Proof.
  unfold atlasBaseStyle, setTextBaseline, setFont.
  destruct (parseFont _); reflexivity.
Qed.

Lemma textStyle_eq (s : TextStyle) fs f tb :
  fillStyle s = fs -> font s = f -> textBaseline s = tb -> s = mkTextStyle fs f tb.
Proof. destruct s. simpl. by intros -> -> ->. Qed.

Lemma fillRow_length scw y s : length (fillRow scw y s) = 256%nat.
Proof. unfold fillRow. by rewrite length_map, length_seqZ. Qed.

Lemma fillRow_elem scw y s code :
  0 <= code < 256 ->
  FillText (fromCharCode code) (inject_Z code * scw)%Q y s ∈ fillRow scw y s.
Proof.
  intros Hc. unfold fillRow. apply list_elem_of_In.
  apply (in_map (fun i => FillText (fromCharCode i) (inject_Z i * scw)%Q y s)).
  apply list_elem_of_In. apply elem_of_seqZ. lia.
Qed.

(** The loop over the colour rows of [generate], after [n] rows. *)
Lemma colorRows_fold (W : Z) (scw sch : Q) (drawn0 : list DrawOp) (n : nat) :
  (n <= 16)%nat ->
  exists sn drawn,
    foldl (colorRowBody parseFont TANGO_COLORS W scw sch) (baseStyle, drawn0)
      (seqZ 0 (Z.of_nat n)) = (sn, drawn) /\
    textBaseline sn = textBaseline baseStyle /\
    font sn = (if Z.of_nat n <=? 8 then font baseStyle else boldFont) /\
    length drawn = (length drawn0 + 257 * n)%nat /\
    (forall op, op ∈ drawn0 -> op ∈ drawn) /\
    (forall c code, 0 <= c < Z.of_nat n -> 0 <= code < 256 ->
       FillText (fromCharCode code) (inject_Z code * scw)%Q
         (inject_Z (c + 1) * sch)%Q (rowStyle c) ∈ drawn) /\
    (forall c, 0 <= c < Z.of_nat n ->
       ClearRect 0 (inject_Z (c + 1) * sch)%Q (inject_Z W) sch ∈ drawn).
Proof.
  induction n as [|n IH]; intros Hn.
  - exists baseStyle, drawn0. simpl seqZ. simpl foldl.
    split; [reflexivity|]. split; [reflexivity|]. split; [reflexivity|].
    split; [lia|]. split; [done|].
    split; [intros c code Hc; lia | intros c Hc; lia].
  - destruct (IH ltac:(lia)) as (sn & drawn & Hfold & Htb & Hfont & Hlen & Hold & Hglyph & Hclear).
    replace (Z.of_nat (S n)) with (Z.of_nat n + 1) by lia.
    rewrite seqZ_app by lia. rewrite foldl_app, Hfold.
    change (seqZ (0 + Z.of_nat n) 1) with [0 + Z.of_nat n]. rewrite Z.add_0_l.
    cbn [foldl colorRowBody].
    set (s := if Z.of_nat n =? 8 then _ else sn).
    assert (Hs : setFillStyle s (TANGO_COLORS (Z.of_nat n)) = rowStyle (Z.of_nat n)).
    { apply textStyle_eq; [reflexivity | |].
      - unfold setFillStyle. cbn [font]. subst s.
        destruct (Z.eqb_spec (Z.of_nat n) 8) as [E|E].
        + rewrite E in *. change (8 <=? 8) with true in Hfont. cbv iota in Hfont.
          rewrite Hfont. change (8 <? 8) with false. cbv iota.
          unfold setFont. destruct (parseFont _); [reflexivity | exact Hfont].
        + rewrite Hfont.
          destruct (Z.leb_spec (Z.of_nat n) 8); destruct (Z.ltb_spec (Z.of_nat n) 8);
            try lia; reflexivity.
      - unfold setFillStyle. cbn [textBaseline]. subst s.
        destruct (Z.of_nat n =? 8); [|exact Htb].
        unfold setFont. destruct (parseFont _); exact Htb. }
    rewrite Hs. eexists _, _. split; [reflexivity|].
    split; [reflexivity|]. split.
    { cbn [font atlasRowStyle].
      destruct (Z.leb_spec (Z.of_nat n + 1) 8); destruct (Z.ltb_spec (Z.of_nat n) 8);
        try lia; reflexivity. }
    split.
    { rewrite !length_app, fillRow_length, Hlen. cbn [length]. lia. }
    split.
    { intros op Hop. apply elem_of_app. left. by apply Hold. }
    split.
    + intros c code Hc Hcode. destruct (decide (c = Z.of_nat n)) as [->|Hne].
      * apply elem_of_app. right. apply elem_of_app. right.
        by apply fillRow_elem.
      * apply elem_of_app. left. apply Hglyph; lia.
    + intros c Hc. destruct (decide (c = Z.of_nat n)) as [->|Hne].
      * apply elem_of_app. right. apply elem_of_app. left.
        apply list_elem_of_here.
      * apply elem_of_app. left. apply Hclear. lia.
Qed.

Lemma generate_cases charWidth charHeight :
  let scw := (inject_Z (Qceiling charWidth) * devicePixelRatio)%Q in
  let sch := (inject_Z (Qceiling charHeight) * devicePixelRatio)%Q in
  let W := toUnsignedLong (255 * scw)%Q in
  generate devicePixelRatio numberToString parseFont TANGO_COLORS
    charWidth charHeight = None \/
  exists sn bitmap,
    generate devicePixelRatio numberToString parseFont TANGO_COLORS
      charWidth charHeight = Some bitmap /\
    foldl (colorRowBody parseFont TANGO_COLORS W scw sch)
      (baseStyle, fillRow scw 0 baseStyle) (seqZ 0 16) = (sn, bitmapContent bitmap) /\
    bitmapWidth bitmap = W.
Proof.
  intros scw sch W. unfold generate, atlasBaseStyle. fold scw sch. fold W.
  destruct (foldl _ _ _) as [sn drawn].
  destruct (orb _ _); [left; reflexivity|].
  right. eexists _, _. split; [reflexivity|]. split; reflexivity.
Qed.

Lemma generate_inv charWidth charHeight bitmap :
  generate devicePixelRatio numberToString parseFont TANGO_COLORS
    charWidth charHeight = Some bitmap ->
  let scw := (inject_Z (Qceiling charWidth) * devicePixelRatio)%Q in
  let sch := (inject_Z (Qceiling charHeight) * devicePixelRatio)%Q in
  exists sn,
    foldl (colorRowBody parseFont TANGO_COLORS (toUnsignedLong (255 * scw)%Q) scw sch)
      (baseStyle, fillRow scw 0 baseStyle) (seqZ 0 16) = (sn, bitmapContent bitmap) /\
    bitmapWidth bitmap = toUnsignedLong (255 * scw)%Q.
Proof.
  intros Hgen scw sch.
  destruct (generate_cases charWidth charHeight) as [Hnone|(sn & bm & Hsome & Hfold & Hw)].
  - rewrite Hnone in Hgen. discriminate Hgen.
  - rewrite Hsome in Hgen. injection Hgen as <-. exists sn. split; assumption.
Qed.

(** The content of a generated bitmap. *)
Lemma generate_content charWidth charHeight bitmap :
  generate devicePixelRatio numberToString parseFont TANGO_COLORS
    charWidth charHeight = Some bitmap ->
  let scw := (inject_Z (Qceiling charWidth) * devicePixelRatio)%Q in
  let sch := (inject_Z (Qceiling charHeight) * devicePixelRatio)%Q in
  length (bitmapContent bitmap) = 4368%nat /\
  (forall code, 0 <= code < 256 ->
     FillText (fromCharCode code) (inject_Z code * scw)%Q 0 baseStyle
       ∈ bitmapContent bitmap) /\
  (forall c code, 0 <= c < 16 -> 0 <= code < 256 ->
     FillText (fromCharCode code) (inject_Z code * scw)%Q
       (inject_Z (c + 1) * sch)%Q (rowStyle c) ∈ bitmapContent bitmap) /\
  (forall c, 0 <= c < 16 ->
     ClearRect 0 (inject_Z (c + 1) * sch)%Q (inject_Z (bitmapWidth bitmap)) sch
       ∈ bitmapContent bitmap).
Proof.
  intros Hgen scw sch.
  pose proof (generate_inv _ _ _ Hgen) as Hinv. cbv zeta in Hinv.
  destruct Hinv as (sn & Hfold & Hw). fold scw sch in Hfold, Hw.
  rewrite Hw. clear Hgen Hw. clearbody scw sch.
  destruct (colorRows_fold (toUnsignedLong (255 * scw)%Q) scw sch
              (fillRow scw 0 baseStyle) 16 ltac:(lia))
    as (sn' & drawn & Hfold' & _ & _ & Hlen & Hold & Hglyph & Hclear).
  change (Z.of_nat 16) with 16 in *.
  rewrite Hfold in Hfold'. injection Hfold' as _ <-.
  split; [rewrite Hlen, fillRow_length; reflexivity|].
  split; [|split].
  - intros code Hc. apply Hold. by apply fillRow_elem.
  - exact Hglyph.
  - exact Hclear.
Qed.

(** X21. The layout of a generated atlas.  Its content is 4368 drawing
    operations: for each character code 0..255 one text at
    [x = code * scaledCharWidth] on the default row [y = 0], drawn in
    [#ffffff]; and for each palette colour [c] in 0..15 a [clearRect] of the
    row at [y = (c + 1) * scaledCharHeight] over the width of the canvas and
    one text per character code on that row, drawn in [TANGO_COLORS[c]], with
    the base font for the colours 0..7 and the font after the [bold]
    assignment for the colours 8..15. *)
Theorem atlas_layout charWidth charHeight bitmap :
  generate devicePixelRatio numberToString parseFont TANGO_COLORS
    charWidth charHeight = Some bitmap ->
  let scw := (inject_Z (Qceiling charWidth) * devicePixelRatio)%Q in
  let sch := (inject_Z (Qceiling charHeight) * devicePixelRatio)%Q in
  length (bitmapContent bitmap) = 4368%nat /\
  (forall code, 0 <= code < 256 ->
     FillText (fromCharCode code) (inject_Z code * scw)%Q 0 baseStyle
       ∈ bitmapContent bitmap) /\
  (forall c code, 0 <= c < 16 -> 0 <= code < 256 ->
     FillText (fromCharCode code) (inject_Z code * scw)%Q
       (inject_Z (c + 1) * sch)%Q (rowStyle c) ∈ bitmapContent bitmap) /\
  (forall c, 0 <= c < 16 ->
     ClearRect 0 (inject_Z (c + 1) * sch)%Q (inject_Z (bitmapWidth bitmap)) sch
       ∈ bitmapContent bitmap) /\
  fillStyle baseStyle = "#ffffff"%string /\
  (forall c, fillStyle (rowStyle c) = TANGO_COLORS c) /\
  (forall c, c < 8 -> font (rowStyle c) = font baseStyle) /\
  (forall c, 8 <= c -> font (rowStyle c) = boldFont).
Proof.
  intros Hgen scw sch.
  pose proof (generate_content charWidth charHeight bitmap Hgen) as Hc.
  cbv zeta in Hc. fold scw sch in Hc. clear Hgen.
  destruct Hc as (H1 & H2 & H3 & H4).
  split; [exact H1|]. split; [exact H2|]. split; [exact H3|]. split; [exact H4|].
  split; [apply baseStyle_fill|]. split; [reflexivity|]. split.
  - intros c Hc. unfold atlasRowStyle. cbn [font].
    destruct (Z.ltb_spec c 8); [reflexivity | lia].
  - intros c Hc. unfold atlasRowStyle. cbn [font].
    destruct (Z.ltb_spec c 8); [lia | reflexivity].
Qed.

Variable BOLD : Z.

(** The size of the bitmap generated at an integral device pixel ratio. *)
Lemma generate_integral charWidth charHeight (n : Z) :
  (devicePixelRatio == inject_Z n)%Q -> 0 < n ->
  0 < Qceiling charWidth -> 0 < Qceiling charHeight ->
  255 * (Qceiling charWidth * n) < 2 ^ 31 ->
  17 * (Qceiling charHeight * n) < 2 ^ 31 ->
  exists bitmap,
    generate devicePixelRatio numberToString parseFont TANGO_COLORS
      charWidth charHeight = Some bitmap /\
    bitmapWidth bitmap = 255 * (Qceiling charWidth * n) /\
    bitmapHeight bitmap = 17 * (Qceiling charHeight * n).
Proof.
  intros Hd Hn Hcw Hch Hw Hh. unfold generate.
  rewrite (toUnsignedLong_integer _ (255 * (Qceiling charWidth * n))); [| |lia].
  2: { rewrite Hd, !inject_Z_mult. reflexivity. }
  rewrite (toUnsignedLong_integer _ (17 * (Qceiling charHeight * n))); [| |lia].
  2: { rewrite Hd, !inject_Z_mult. reflexivity. }
  destruct (foldl _ _ _) as [s' drawn].
  destruct (Z.eqb_spec (255 * (Qceiling charWidth * n)) 0); [lia|].
  destruct (Z.eqb_spec (17 * (Qceiling charHeight * n)) 0); [lia|].
  simpl. eexists. split; [reflexivity|]. split; reflexivity.
Qed.

(** The source corner of a blit is a position at which [generate] issued
    the text of the cell's character, in the colour of the cell's row. *)
Lemma blit_source_drawn (terminal : Terminal) atlas line cell y x c :
  generate devicePixelRatio numberToString parseFont TANGO_COLORS
    (charMeasureWidth terminal) (charMeasureHeight terminal) = Some atlas ->
  0 <= x -> line !! Z.to_nat x = Some cell -> 0 < code cell < 256 ->
  let scw := (inject_Z (Qceiling (charMeasureWidth terminal)) * devicePixelRatio)%Q in
  let sch := (inject_Z (Qceiling (charMeasureHeight terminal)) * devicePixelRatio)%Q in
  let fg := boldFg BOLD (attr cell) in
  exists c' ty st,
    renderCell devicePixelRatio numberToString parseFont TANGO_COLORS BOLD
      atlas (Some line) y scw sch x c = Normal c' /\
    ops c' = ops c ++
      [DrawImage atlas (inject_Z (code cell) * scw)%Q
         (inject_Z (colorIndexOf fg) * sch)%Q scw sch
         (inject_Z x * scw)%Q (inject_Z y * sch)%Q scw sch] /\
    FillText (fromCharCode (code cell)) (inject_Z (code cell) * scw)%Q ty st
      ∈ bitmapContent atlas /\
    (ty == inject_Z (colorIndexOf fg) * sch)%Q /\
    fillStyle st = (if fg <? 16 then TANGO_COLORS fg else "#ffffff"%string).
Proof.
  intros Hgen Hx Hcell Hcode scw sch fg.
  pose proof (generate_content _ _ _ Hgen) as Hc.
  cbv zeta in Hc. fold scw sch in Hc. clear Hgen.
  destruct Hc as (_ & Hdef & Hrow & _).
  destruct (renderCell_blit devicePixelRatio numberToString parseFont TANGO_COLORS BOLD
              atlas line cell y scw sch x c Hx Hcell ltac:(lia) ltac:(lia))
    as (c' & Hr & _ & Hops).
  fold fg in Hops.
  assert (Hfg : 0 <= fg).
  { subst fg. unfold boldFg. pose proof (fgOf_bounds (attr cell)).
    destruct (_ && _); lia. }
  unfold colorIndexOf in Hops |- *.
  destruct (Z.ltb_spec fg 16) as [Hlt|Hge].
  - exists c', (inject_Z (fg + 1) * sch)%Q, (rowStyle fg).
    split; [exact Hr|]. split; [exact Hops|].
    split; [apply Hrow; lia|]. split; reflexivity.
  - exists c', 0%Q, baseStyle.
    split; [exact Hr|]. split; [exact Hops|].
    split; [apply Hdef; lia|]. split; [|apply baseStyle_fill].
    rewrite Qmult_0_l. reflexivity.
Qed.

(** X22. The fast path reads the tile the generator drew.  At an integral
    device pixel ratio and for a character size whose atlas fits a canvas
    (sizes below 2^31), [generate] returns an atlas, and for a cell with a
    code point in 1..254 rendered with it the source rectangle of the blit
    has its corner at the position at which [generate] issued the text of
    that character, on the row of the palette colour [fg] (after the bold
    remapping) in [TANGO_COLORS[fg]] when [fg < 16], on the default row in
    [#ffffff] otherwise; and this rectangle lies inside the bitmap. *)
Theorem blit_reads_generated_tile (terminal : Terminal) (n : Z) line cell y x c :
  (devicePixelRatio == inject_Z n)%Q -> 0 < n ->
  0 < Qceiling (charMeasureWidth terminal) ->
  0 < Qceiling (charMeasureHeight terminal) ->
  255 * (Qceiling (charMeasureWidth terminal) * n) < 2 ^ 31 ->
  17 * (Qceiling (charMeasureHeight terminal) * n) < 2 ^ 31 ->
  0 <= x -> line !! Z.to_nat x = Some cell -> 0 < code cell < 255 ->
  let scw := (inject_Z (Qceiling (charMeasureWidth terminal)) * devicePixelRatio)%Q in
  let sch := (inject_Z (Qceiling (charMeasureHeight terminal)) * devicePixelRatio)%Q in
  let fg := boldFg BOLD (attr cell) in
  exists atlas c' sx sy ty st,
    generate devicePixelRatio numberToString parseFont TANGO_COLORS
      (charMeasureWidth terminal) (charMeasureHeight terminal) = Some atlas /\
    renderCell devicePixelRatio numberToString parseFont TANGO_COLORS BOLD
      atlas (Some line) y scw sch x c = Normal c' /\
    ops c' = ops c ++
      [DrawImage atlas sx sy scw sch (inject_Z x * scw)%Q (inject_Z y * sch)%Q scw sch] /\
    FillText (fromCharCode (code cell)) sx ty st ∈ bitmapContent atlas /\
    (ty == sy)%Q /\
    fillStyle st = (if fg <? 16 then TANGO_COLORS fg else "#ffffff"%string) /\
    (0 <= sx)%Q /\ (sx + scw <= inject_Z (bitmapWidth atlas))%Q /\
    (0 <= sy)%Q /\ (sy + sch <= inject_Z (bitmapHeight atlas))%Q.
Proof.
  intros Hd Hn Hcw Hch Hw Hh Hx Hcell Hcode scw sch fg.
  destruct (generate_integral _ _ n Hd Hn Hcw Hch Hw Hh) as (atlas & Hgen & HW & HH).
  destruct (blit_source_drawn terminal atlas line cell y x c Hgen Hx Hcell ltac:(lia))
    as (c' & ty & st & Hr & Hops & Hin & Hty & Hfill).
  fold scw sch fg in Hr, Hops, Hin, Hty, Hfill.
  pose proof (colorIndexOf_bounds BOLD (attr cell)) as Hci. fold fg in Hci.
  assert (Hscw : (scw == inject_Z (Qceiling (charMeasureWidth terminal) * n))%Q).
  { subst scw. rewrite Hd, inject_Z_mult. reflexivity. }
  assert (Hsch : (sch == inject_Z (Qceiling (charMeasureHeight terminal) * n))%Q).
  { subst sch. rewrite Hd, inject_Z_mult. reflexivity. }
  exists atlas, c', (inject_Z (code cell) * scw)%Q,
    (inject_Z (colorIndexOf fg) * sch)%Q, ty, st.
  split; [exact Hgen|]. split; [exact Hr|]. split; [exact Hops|].
  split; [exact Hin|]. split; [exact Hty|]. split; [exact Hfill|].
  rewrite HW, HH. clear Hgen Hr Hops Hin Hty Hfill HW HH.
  rewrite Hscw, Hsch.
  rewrite <- !inject_Z_mult, <- !inject_Z_plus.
  change 0%Q with (inject_Z 0). rewrite <- !Zle_Qle.
  split; [nia|]. split; [nia|]. split; [nia|]. nia.
Qed.

Local Abbreviation generate' :=
  (generate devicePixelRatio numberToString parseFont TANGO_COLORS).
Local Abbreviation resize' :=
  (resize devicePixelRatio numberToString parseFont TANGO_COLORS).
Local Abbreviation render' :=
  (render devicePixelRatio numberToString parseFont TANGO_COLORS BOLD).
Local Abbreviation renderRow' :=
  (renderRow devicePixelRatio numberToString parseFont TANGO_COLORS BOLD).
Local Abbreviation renderCell' :=
  (renderCell devicePixelRatio numberToString parseFont TANGO_COLORS BOLD).

Lemma generate_empty charWidth charHeight :
  Qceiling charWidth = 0 \/ Qceiling charHeight = 0 \/ (devicePixelRatio == 0)%Q ->
  generate' charWidth charHeight = None.
Proof.
  intros H. unfold generate.
  destruct (foldl _ _ _) as [sn drawn].
  assert (Hz : toUnsignedLong
                 (255 * (inject_Z (Qceiling charWidth) * devicePixelRatio))%Q = 0 \/
               toUnsignedLong
                 (inject_Z (1 + 16) * (inject_Z (Qceiling charHeight) * devicePixelRatio))%Q
               = 0).
  { destruct H as [H|[H|H]].
    - left. apply toUnsignedLong_integer; [|lia]. rewrite H.
      change (inject_Z 0) with 0%Q. ring.
    - right. apply toUnsignedLong_integer; [|lia]. rewrite H.
      change (inject_Z 0) with 0%Q. ring.
    - left. apply toUnsignedLong_integer; [|lia]. rewrite H.
      change (inject_Z 0) with 0%Q. ring. }
  destruct Hz as [-> | ->]; [reflexivity|]. by rewrite orb_true_r.
Qed.

(** X23. With an empty character cell (a measured width or height that
    rounds up to 0, or a device pixel ratio of 0) [generate] throws at
    [getImageData], and a [resize] asking for a new atlas leaves the layer
    without atlas and without a request in flight, so that [render] stays a
    no-op until another [resize] succeeds. *)
Theorem resize_with_empty_cell (terminal terminal' : Terminal) w h startRow endRow st :
  Qceiling (charMeasureWidth terminal) = 0 \/
  Qceiling (charMeasureHeight terminal) = 0 \/ (devicePixelRatio == 0)%Q ->
  generate' (charMeasureWidth terminal) (charMeasureHeight terminal) = None /\
  charAtlas (resize' terminal w h true st) = None /\
  pending (resize' terminal w h true st) = pending st /\
  render' terminal' startRow endRow (resize' terminal w h true st)
    = Normal (resize' terminal w h true st).
Proof.
  intros H. pose proof (generate_empty _ _ H) as Hnone.
  unfold resize. rewrite Hnone. repeat split.
Qed.

(** A [resize] with changed character size drops the atlas at once,
    also when one was installed: whatever the outcome of [generate], the
    layer has no atlas when [resize] returns and [render] is a no-op until a
    request is fulfilled.  A [resize] without changed character size keeps
    the atlas and the requests in flight; either way the drawing state and
    the canvas content are reset. *)
Theorem resize_drops_atlas (terminal terminal' : Terminal) w h startRow endRow st :
  charAtlas (resize' terminal w h true st) = None /\
  render' terminal' startRow endRow (resize' terminal w h true st)
    = Normal (resize' terminal w h true st) /\
  charAtlas (resize' terminal w h false st) = charAtlas st /\
  pending (resize' terminal w h false st) = pending st /\
  (forall changed, ctx (resize' terminal w h changed st) = mkContext2D defaultStyle [] []).
Proof.
  unfold resize.
  destruct (generate _ _ _ _ _ _) as [bitmap|].
  - split; [reflexivity|]. split; [reflexivity|]. split; [reflexivity|].
    split; [reflexivity|]. intros []; reflexivity.
  - split; [reflexivity|]. split; [reflexivity|]. split; [reflexivity|].
    split; [reflexivity|]. intros []; reflexivity.
Qed.

Lemma forEach_extends (P : Z -> CanvasOp -> Prop) (body : Z -> Context2D -> Completion Context2D)
    (idxs : list Z) :
  (forall i c, i ∈ idxs -> extends (P i) c (body i c)) ->
  forall c, extends (fun op => exists i, i ∈ idxs /\ P i op) c (forEach idxs body c).
Proof.
  induction idxs as [|i rest IH]; intros Hbody c.
  - exists c, []. simpl. split; [by left|]. rewrite app_nil_r. repeat split. constructor.
  - simpl. destruct (Hbody i c ltac:(apply list_elem_of_here))
      as (c1 & d1 & [E|E] & Hops1 & Hsaved1 & HP1); rewrite E; simpl.
    + destruct (IH (fun j c0 Hj => Hbody j c0 ltac:(by apply list_elem_of_further)) c1)
        as (c2 & d2 & E2 & Hops2 & Hsaved2 & HP2).
      exists c2, (d1 ++ d2). split; [exact E2|].
      split; [by rewrite Hops2, Hops1, app_assoc|].
      split; [by rewrite Hsaved2|].
      apply Forall_app. split.
      * eapply Forall_impl; [exact HP1|]. intros op Hop. exists i.
        split; [apply list_elem_of_here | exact Hop].
      * eapply Forall_impl; [exact HP2|]. intros op (j & Hj & Hop). exists j.
        split; [by apply list_elem_of_further | exact Hop].
    + exists c1, d1. split; [by right|]. split; [exact Hops1|].
      split; [exact Hsaved1|].
      eapply Forall_impl; [exact HP1|]. intros op Hop. exists i.
      split; [apply list_elem_of_here | exact Hop].
Qed.

Lemma renderCell_extends atlas line y scw sch x c :
  extends (drawsCell scw sch x y) c (renderCell' atlas line y scw sch x c).
Proof.
  unfold renderCell, extends.
  destruct line as [line|].
  2: { exists c, []. split; [by right|]. rewrite app_nil_r. repeat split. constructor. }
  destruct (if 0 <=? x then line !! Z.to_nat x else None) as [cell|].
  2: { exists c, []. split; [by right|]. rewrite app_nil_r. repeat split. constructor. }
  destruct (code cell =? 0).
  { exists c, []. split; [by left|]. rewrite app_nil_r. repeat split. constructor. }
  destruct (code cell <? 256).
  - eexists _, _. split; [left; reflexivity|].
    destruct (isBold BOLD (flagsOf (attr cell))); cbn [ops saved addOp withStyle].
    + split; [reflexivity|]. split; [reflexivity|]. repeat constructor.
    + split; [reflexivity|]. split; [reflexivity|]. repeat constructor.
  - match goal with
    | |- context [_drawUnicodeChar ?a ?b ?cc ?d ?ch ?w ?f ?xx ?yy ?s1 ?s2 ?c0] =>
        destruct (drawUnicodeChar_spec a b cc d ch w f xx yy s1 s2 c0)
          as (s & Heq & _)
    end.
    rewrite Heq. eexists _, _. split; [left; reflexivity|].
    destruct (isBold BOLD (flagsOf (attr cell))); cbn [ops saved addOp withStyle].
    + split; [reflexivity|]. split; [reflexivity|]. repeat constructor.
    + split; [reflexivity|]. split; [reflexivity|]. repeat constructor.
Qed.

Lemma cell_offset_le (a b : Z) (q : Q) :
  a <= b -> (0 <= q)%Q -> (inject_Z a * q <= inject_Z b * q)%Q.
Proof.
  intros Hab Hq. apply Qmult_le_compat_r; [|exact Hq].
  rewrite <- Zle_Qle. exact Hab.
Qed.

(** The rectangle of a cell of the band lies inside the rectangle that
    [render] clears. *)
Lemma drawsBandCell_inside scw sch startRow endRow cols op :
  (0 <= scw)%Q -> (0 <= sch)%Q ->
  drawsBandCell scw sch startRow endRow cols op ->
  blitInside 0 (inject_Z startRow * sch)%Q (scw * inject_Z cols)%Q
    (inject_Z (endRow - startRow + 1) * sch)%Q op.
Proof.
  intros Hw Hh (x & y & Hx & Hy & Hop).
  destruct op as [op | image sx sy sw sh dx dy dw dh]; [exact I|].
  destruct Hop as (-> & -> & -> & -> & _ & _). cbn [blitInside].
  assert (Ex : (inject_Z x * scw + scw == inject_Z (x + 1) * scw)%Q).
  { rewrite inject_Z_plus. change (inject_Z 1) with 1%Q. ring. }
  assert (Ec : (0 + scw * inject_Z cols == inject_Z cols * scw)%Q) by ring.
  assert (Ey : (inject_Z y * sch + sch == inject_Z (y + 1) * sch)%Q).
  { rewrite inject_Z_plus. change (inject_Z 1) with 1%Q. ring. }
  assert (Er : (inject_Z startRow * sch + inject_Z (endRow - startRow + 1) * sch
                == inject_Z (endRow + 1) * sch)%Q).
  { rewrite <- Qmult_plus_distr_l, <- inject_Z_plus.
    replace (startRow + (endRow - startRow + 1)) with (endRow + 1) by lia.
    reflexivity. }
  split; [|split; [|split]].
  - apply Qmult_le_0_compat; [|exact Hw].
    change 0%Q with (inject_Z 0). rewrite <- Zle_Qle. lia.
  - rewrite Ex, Ec. apply cell_offset_le; [lia | exact Hw].
  - apply cell_offset_le; [lia | exact Hh].
  - rewrite Ey, Er. apply cell_offset_le; [lia | exact Hh].
Qed.

(** X24. What [render] draws, and where.  With an atlas installed, the call,
    whether it returns or throws, first clears the band of the rows
    [startRow..endRow] and then issues only drawings of cells of those rows
    and of the columns [0..cols-1]: a blit of a tile of the size of a cell
    onto the rectangle of the cell, or a text positioned at the top-left
    corner of the cell.  With scaled cell sizes that are not negative, the
    destination rectangle of every blit lies inside the cleared band.  The
    call leaves the [save] stack, the atlas, the requests in flight and the
    canvas size as they were. *)
Theorem render_draws_band_cells (terminal : Terminal) (startRow endRow : Z) st atlas :
  charAtlas st = Some atlas ->
  let scw := (inject_Z (Qceiling (charMeasureWidth terminal)) * devicePixelRatio)%Q in
  let sch := (inject_Z (Qceiling (charMeasureHeight terminal)) * devicePixelRatio)%Q in
  exists st' drawn,
    (render' terminal startRow endRow st = Normal st' \/
     render' terminal startRow endRow st = Thrown st') /\
    ops (ctx st') = ops (ctx st) ++
      Draw (ClearRect 0 (inject_Z startRow * sch)%Q
              (scw * inject_Z (cols terminal))%Q
              (inject_Z (endRow - startRow + 1) * sch)%Q) :: drawn /\
    Forall (drawsBandCell scw sch startRow endRow (cols terminal)) drawn /\
    ((0 <= scw)%Q -> (0 <= sch)%Q ->
     Forall (blitInside 0 (inject_Z startRow * sch)%Q
               (scw * inject_Z (cols terminal))%Q
               (inject_Z (endRow - startRow + 1) * sch)%Q) drawn) /\
    saved (ctx st') = saved (ctx st) /\
    charAtlas st' = charAtlas st /\ pending st' = pending st /\
    canvasWidth st' = canvasWidth st /\ canvasHeight st' = canvasHeight st.
Proof.
  intros Hatlas scw sch. unfold render. rewrite Hatlas. fold scw sch.
  set (c0 := addOp _ _).
  assert (Hrow : forall y c,
    extends (fun op => exists x, 0 <= x < cols terminal /\ drawsCell scw sch x y op)
      c (renderRow' terminal atlas scw sch y c)).
  { intros y c. unfold renderRow.
    destruct (forEach_extends
                (fun x op => drawsCell scw sch x y op)
                (renderCell' atlas (lines terminal (y + ydisp terminal)) y scw sch)
                (seqZ 0 (cols terminal))
                (fun x c2 _ => renderCell_extends atlas _ y scw sch x c2) c)
      as (c1 & d1 & Hrun1 & Hops1 & Hsaved1 & Hall1).
    exists c1, d1. split; [exact Hrun1|]. split; [exact Hops1|].
    split; [exact Hsaved1|].
    eapply Forall_impl; [exact Hall1|]. intros op (x & Hx & Hop).
    apply elem_of_seqZ in Hx. exists x. split; [lia | exact Hop]. }
  destruct (forEach_extends _ _ (seqZ startRow (endRow - startRow + 1))
              (fun y c _ => Hrow y c) c0)
    as (c' & drawn & Hrun & Hops & Hsaved & Hall).
  assert (Hband : Forall (drawsBandCell scw sch startRow endRow (cols terminal)) drawn).
  { eapply Forall_impl; [exact Hall|]. intros op (y & Hy & x & Hx & Hop).
    apply elem_of_seqZ in Hy. exists x, y. split; [exact Hx|]. split; [lia | exact Hop]. }
  exists (withCtx st c'), drawn.
  split.
  { destruct Hrun as [-> | ->]; [left | right]; reflexivity. }
  split.
  { cbn [ctx withCtx]. rewrite Hops. subst c0. cbn [ops addOp withStyle].
    by rewrite <- app_assoc. }
  split; [exact Hband|].
  split.
  { intros Hw Hh. eapply Forall_impl; [exact Hband|].
    intros op Hop. by apply drawsBandCell_inside. }
  split; [exact Hsaved|]. split; [exact Hatlas|]. split; [reflexivity|].
  split; reflexivity.
Qed.

(** X25. [render] throws when the first row of a non-empty band has no
    line in the buffer (or its line has no cell at column 0): the band has
    been cleared and nothing drawn. *)
Theorem render_missing_line_throws (terminal : Terminal) (startRow endRow : Z) st atlas :
  charAtlas st = Some atlas ->
  startRow <= endRow -> 0 < cols terminal ->
  lines terminal (startRow + ydisp terminal) = None \/
  lines terminal (startRow + ydisp terminal) = Some [] ->
  exists st',
    render' terminal startRow endRow st = Thrown st' /\
    ops (ctx st') = ops (ctx st) ++
      [Draw (ClearRect 0
         (inject_Z startRow *
            (inject_Z (Qceiling (charMeasureHeight terminal)) * devicePixelRatio))%Q
         ((inject_Z (Qceiling (charMeasureWidth terminal)) * devicePixelRatio)
            * inject_Z (cols terminal))%Q
         (inject_Z (endRow - startRow + 1) *
            (inject_Z (Qceiling (charMeasureHeight terminal)) * devicePixelRatio))%Q)].
Proof.
  intros Hatlas Hrows Hcols Hline. unfold render. rewrite Hatlas.
  rewrite (seqZ_cons startRow) by lia. cbn [forEach].
  unfold renderRow at 1. rewrite (seqZ_cons 0) by lia. cbn [forEach].
  unfold renderCell at 1.
  destruct Hline as [-> | ->]; simpl; eexists; split; reflexivity.
Qed.

(** X26. With an empty row range or no columns, [render] indexes no line of
    the buffer: it returns normally having issued the [clearRect] only. *)
Theorem render_empty_band (terminal : Terminal) (startRow endRow : Z) st atlas :
  charAtlas st = Some atlas ->
  endRow < startRow \/ cols terminal <= 0 ->
  exists st',
    render' terminal startRow endRow st = Normal st' /\
    ops (ctx st') = ops (ctx st) ++
      [Draw (ClearRect 0
         (inject_Z startRow *
            (inject_Z (Qceiling (charMeasureHeight terminal)) * devicePixelRatio))%Q
         ((inject_Z (Qceiling (charMeasureWidth terminal)) * devicePixelRatio)
            * inject_Z (cols terminal))%Q
         (inject_Z (endRow - startRow + 1) *
            (inject_Z (Qceiling (charMeasureHeight terminal)) * devicePixelRatio))%Q)].
Proof.
  intros Hatlas Hempty. unfold render. rewrite Hatlas.
  rewrite forEach_unchanged.
  - eexists. split; reflexivity.
  - intros y Hy. apply elem_of_seqZ in Hy. unfold renderRow.
    destruct Hempty as [He|He]; [lia|].
    rewrite seqZ_nil by lia. reflexivity.
Qed.


End AtlasProps.

Lemma atlas_layout_witness :
  exists bitmap,
    generate 1 exampleNumberToString exampleParseFont exampleColors
      (inject_Z 10) (inject_Z 20) = Some bitmap /\
    length (bitmapContent bitmap) = 4368%nat.
Proof.
  destruct (generate_size exampleNumberToString exampleParseFont exampleColors 10 20
              ltac:(lia) ltac:(lia) ltac:(lia) ltac:(lia)) as (bitmap & Hgen & _).
  exists bitmap. split; [exact Hgen|].
  exact (proj1 (atlas_layout 1 exampleNumberToString exampleParseFont exampleColors
                  (inject_Z 10) (inject_Z 20) bitmap Hgen)).
Defined.

Lemma blit_reads_generated_tile_witness :
  let cell := mkCharData 512 "A" 1 65 in
  let c := mkContext2D defaultStyle [] [] in
  exists atlas c' sx sy ty st,
    generate 1 exampleNumberToString exampleParseFont exampleColors
      (charMeasureWidth exampleTerminal) (charMeasureHeight exampleTerminal)
      = Some atlas /\
    renderCell 1 exampleNumberToString exampleParseFont exampleColors 1
      atlas (Some [cell]) 0 (inject_Z 10 * 1)%Q (inject_Z 20 * 1)%Q 0 c = Normal c' /\
    ops c' = ops c ++
      [DrawImage atlas sx sy (inject_Z 10 * 1)%Q (inject_Z 20 * 1)%Q
         (inject_Z 0 * (inject_Z 10 * 1))%Q (inject_Z 0 * (inject_Z 20 * 1))%Q
         (inject_Z 10 * 1)%Q (inject_Z 20 * 1)%Q] /\
    FillText (fromCharCode 65) sx ty st ∈ bitmapContent atlas /\
    (ty == sy)%Q /\
    (sx + inject_Z 10 * 1 <= inject_Z (bitmapWidth atlas))%Q /\
    (sy + inject_Z 20 * 1 <= inject_Z (bitmapHeight atlas))%Q.
Proof.
  cbv zeta.
  destruct (blit_reads_generated_tile 1 exampleNumberToString exampleParseFont
              exampleColors 1 exampleTerminal 1 [mkCharData 512 "A" 1 65]
              (mkCharData 512 "A" 1 65) 0 0 (mkContext2D defaultStyle [] [])
              ltac:(reflexivity) ltac:(lia) ltac:(reflexivity) ltac:(reflexivity)
              ltac:(reflexivity) ltac:(reflexivity) ltac:(lia) eq_refl ltac:(simpl; lia))
    as (atlas & c' & sx & sy & ty & st
        & Hgen & Hr & Hops & Hin & Hy & _ & _ & Hright & _ & Hbottom).
  exists atlas, c', sx, sy, ty, st.
  split; [exact Hgen|]. split; [exact Hr|]. split; [exact Hops|].
  split; [exact Hin|]. split; [exact Hy|]. split; [exact Hright | exact Hbottom].
Defined.

Lemma resize_with_empty_cell_witness :
  let terminal := mkTerminal 0 0 80 0 (fun _ => None) in
  (Qceiling (charMeasureWidth terminal) = 0 \/
   Qceiling (charMeasureHeight terminal) = 0 \/ (1 == 0)%Q) /\
  charAtlas (resize 1 exampleNumberToString exampleParseFont exampleColors
               terminal 800 480 true newLayer) = None /\
  pending (resize 1 exampleNumberToString exampleParseFont exampleColors
             terminal 800 480 true newLayer) = [].
Proof.
  cbv zeta.
  assert (H : Qceiling (charMeasureWidth (mkTerminal 0 0 80 0 (fun _ => None))) = 0 \/
              Qceiling (charMeasureHeight (mkTerminal 0 0 80 0 (fun _ => None))) = 0 \/
              (1 == 0)%Q) by (left; reflexivity).
  split; [exact H|].
  destruct (resize_with_empty_cell 1 exampleNumberToString exampleParseFont
              exampleColors 1 (mkTerminal 0 0 80 0 (fun _ => None)) exampleTerminal
              800 480 0 1 newLayer H) as (_ & Ha & Hp & _).
  split; [exact Ha | exact Hp].
Defined.

Lemma render_draws_band_cells_witness :
  let atlas := mkImageBitmap 2550 340 [] in
  let st := mkLayer 40 40 (mkContext2D defaultStyle [] []) (Some atlas) [] in
  charAtlas st = Some atlas /\
  exists st' drawn,
    (render 1 exampleNumberToString exampleParseFont exampleColors 1
       exampleTerminal 0 1 st = Normal st' \/
     render 1 exampleNumberToString exampleParseFont exampleColors 1
       exampleTerminal 0 1 st = Thrown st') /\
    Forall (drawsBandCell (inject_Z 10 * 1)%Q (inject_Z 20 * 1)%Q 0 1 4) drawn.
Proof.
  cbv zeta. split; [reflexivity|].
  destruct (render_draws_band_cells 1 exampleNumberToString exampleParseFont
              exampleColors 1 exampleTerminal 0 1
              (mkLayer 40 40 (mkContext2D defaultStyle [] [])
                 (Some (mkImageBitmap 2550 340 [])) [])
              (mkImageBitmap 2550 340 []) eq_refl)
    as (st' & drawn & Hrun & _ & Hall & _).
  exists st', drawn. split; [exact Hrun | exact Hall].
Defined.

Lemma render_missing_line_throws_witness :
  let atlas := mkImageBitmap 2550 340 [] in
  let st := mkLayer 40 40 (mkContext2D defaultStyle [] []) (Some atlas) [] in
  lines exampleTerminal (5 + ydisp exampleTerminal) = None /\
  exists st',
    render 1 exampleNumberToString exampleParseFont exampleColors 1
      exampleTerminal 5 6 st = Thrown st'.
Proof.
  cbv zeta. split; [reflexivity|].
  destruct (render_missing_line_throws 1 exampleNumberToString exampleParseFont
              exampleColors 1 exampleTerminal 5 6
              (mkLayer 40 40 (mkContext2D defaultStyle [] [])
                 (Some (mkImageBitmap 2550 340 [])) [])
              (mkImageBitmap 2550 340 []) eq_refl ltac:(lia) ltac:(simpl; lia)
              ltac:(left; reflexivity)) as (st' & Hrun & _).
  exists st'. exact Hrun.
Defined.

Lemma render_empty_band_witness :
  let atlas := mkImageBitmap 2550 340 [] in
  let st := mkLayer 40 40 (mkContext2D defaultStyle [] []) (Some atlas) [] in
  (0 < 1 \/ cols exampleTerminal <= 0) /\
  exists st',
    render 1 exampleNumberToString exampleParseFont exampleColors 1
      exampleTerminal 1 0 st = Normal st'.
Proof.
  cbv zeta. split; [left; lia|].
  destruct (render_empty_band 1 exampleNumberToString exampleParseFont
              exampleColors 1 exampleTerminal 1 0
              (mkLayer 40 40 (mkContext2D defaultStyle [] [])
                 (Some (mkImageBitmap 2550 340 [])) [])
              (mkImageBitmap 2550 340 []) eq_refl ltac:(left; lia)) as (st' & Hrun & _).
  exists st'. exact Hrun.
Defined.

End ForegroundRenderLayerMoreProps.
